(** * Inverse-kinematics solver components

    A shallow embedding of [Source/Urho3D/IK/IKSolverComponent.cpp]: the
    triangle helpers of its anonymous namespace, the solver-component base
    class ([Initialize], [Solve], [AddSolverNode], [AddCheckedNode]) and the
    solver components built on it.

    Conventions.
    - A C++ [float] is an IEEE-754 binary32 number: [spec_float] with a 24 bit
      significand, every operation rounded to nearest-even ([Float32]).
    - A [Node*] is a scene-node identity; an [IKNode*] handed out by the node
      cache is the cache slot of that scene node, so it is the same identity
      read as a key of the cache.
    - The degree-based trigonometry of [MathDefs.h], the quaternion algebra of
      [Quaternion.h] and the chain solvers of the IK library are not part of
      this file of the engine: they are interfaces here (type classes). A
      theorem is stated for every implementation of them; a run on concrete
      inputs names the implementation of [Run] it uses.
    - [DrawDebugGeometry] is the list of the calls it makes on the debug
      renderer, in order.
    - [Node::SetWorldPosition] and [Node::SetWorldRotation] belong to the
      scene graph and are an interface too ([SceneGraph]), of which nothing
      is assumed; what a component writes back is stated as the list of the
      calls it makes ([sceneWrites]).

    The second part embeds the parts of [Source/Urho3D/XR/XR.cpp] that decide
    something: the extensions that are activated, [OpenXR::InitializeSystem],
    the selection of the swap chain formats, the types of the action
    bindings, the debug message logger, the polling loop of
    [OpenXR::HandlePreUpdate] and the index loop of the radial mesh of
    [OpenXR::GetHiddenAreaMask]. The OpenXR runtime is a record of what it
    answers ([XR.Runtime]), the preprocessor switches are a record
    ([XR.BuildConfig]) and the texture-format utilities of the render API
    are an interface ([XR.RenderAPIUtils]). *)

From Stdlib Require Import ZArith Bool List Floats.SpecFloat Lia.
From stdpp Require Import gmap strings list.

(** ** binary32 arithmetic *)

Module Float32.

Definition float : Type := spec_float.

Definition prec : Z := 24.
Definition emax : Z := 128.

Definition fadd : float -> float -> float := SFadd prec emax.
Definition fsub : float -> float -> float := SFsub prec emax.
Definition fmul : float -> float -> float := SFmul prec emax.
Definition fdiv : float -> float -> float := SFdiv prec emax.
Definition fsqrt : float -> float := SFsqrt prec emax.

(** [a < b], [a <= b] and [a == b] of C++; all false on a NaN operand. *)
Definition flt : float -> float -> bool := SFltb.
Definition fle : float -> float -> bool := SFleb.
Definition feq : float -> float -> bool := SFeqb.

(** An integer or decimal literal converted to [float]. *)
Definition of_Z (z : Z) : float := binary_normalize prec emax z 0 false.
Definition of_decimal (n d : Z) : float := fdiv (of_Z n) (of_Z d).
Definition pow2 (e : Z) : float := SFldexp prec emax (of_Z 1) e.

Definition is_nan (x : float) : bool :=
  match x with S754_nan => true | _ => false end.

Definition is_zero (x : float) : bool :=
  match x with S754_zero _ => true | _ => false end.

(** A zero or a nonzero number, of either sign: not an infinity, not a NaN. *)
Definition is_finite (x : float) : bool :=
  match x with S754_zero _ | S754_finite _ _ _ => true | _ => false end.

End Float32.

Export Float32.

Declare Scope f32_scope.
Delimit Scope f32_scope with f32.
Bind Scope f32_scope with float.
Infix "+" := fadd : f32_scope.
Infix "-" := fsub : f32_scope.
Infix "*" := fmul : f32_scope.
Infix "/" := fdiv : f32_scope.
Infix "<?" := flt : f32_scope.
Infix "<=?" := fle : f32_scope.
Infix "==?" := feq (at level 70) : f32_scope.

(** Two binary32 numbers are the same datum or not: the comparison of
    representations, under which -0 and +0 differ and a NaN is itself. *)
#[export] Instance float_eq_dec : EqDecision float.
Proof. solve_decision. Defined.

(** ** Vectors and quaternions *)

Record Vector2 := mkVector2 { v2x : float; v2y : float }.
Record Vector3 := mkVector3 { vx : float; vy : float; vz : float }.
Record Quaternion := mkQuaternion { qw : float; qx : float; qy : float; qz : float }.

Module Vector3Ops.
Definition ZERO : Vector3 := mkVector3 (of_Z 0) (of_Z 0) (of_Z 0).
Definition FORWARD : Vector3 := mkVector3 (of_Z 0) (of_Z 0) (of_Z 1).
Definition UP : Vector3 := mkVector3 (of_Z 0) (of_Z 1) (of_Z 0).
Definition ONE : Vector3 := mkVector3 (of_Z 1) (of_Z 1) (of_Z 1).

(** [operator+] and [operator-]: component by component. *)
Definition add (a b : Vector3) : Vector3 :=
  mkVector3 (vx a + vx b)%f32 (vy a + vy b)%f32 (vz a + vz b)%f32.
Definition sub (a b : Vector3) : Vector3 :=
  mkVector3 (vx a - vx b)%f32 (vy a - vy b)%f32 (vz a - vz b)%f32.
Definition neg (a : Vector3) : Vector3 :=
  mkVector3 (SFopp (vx a)) (SFopp (vy a)) (SFopp (vz a)).
Definition scale (a : Vector3) (k : float) : Vector3 :=
  mkVector3 (vx a * k)%f32 (vy a * k)%f32 (vz a * k)%f32.

(** [operator==]: the three components compare equal as floats. *)
Definition eqb (a b : Vector3) : bool :=
  (vx a ==? vx b)%f32 && (vy a ==? vy b)%f32 && (vz a ==? vz b)%f32.

(** The three components are finite, and are zeros. *)
Definition is_finite (a : Vector3) : bool :=
  Float32.is_finite (vx a) && Float32.is_finite (vy a) && Float32.is_finite (vz a).
Definition is_zero (a : Vector3) : bool :=
  Float32.is_zero (vx a) && Float32.is_zero (vy a) && Float32.is_zero (vz a).
End Vector3Ops.

Module QuaternionOps.
Definition ZERO : Quaternion := mkQuaternion (of_Z 0) (of_Z 0) (of_Z 0) (of_Z 0).
Definition IDENTITY : Quaternion := mkQuaternion (of_Z 1) (of_Z 0) (of_Z 0) (of_Z 0).

(** [operator==]: the four components compare equal as floats. *)
Definition eqb (a b : Quaternion) : bool :=
  (qw a ==? qw b)%f32 && (qx a ==? qx b)%f32 && (qy a ==? qy b)%f32 && (qz a ==? qz b)%f32.
End QuaternionOps.

(** Modelled from the spec: the degree-based trigonometric functions of the
    math utilities (section 4.4 measures angles in degrees); their bodies are
    the platform's [sinf], [cosf], [asinf] and [acosf]. *)
Class MathDefs := {
  Sin : float -> float;
  Cos : float -> float;
  Asin : float -> float;
  Acos : float -> float
}.

(** [Sqrt] is the correctly rounded IEEE square root. *)
Definition Sqrt (x : float) : float := fsqrt x.

(** [Clamp(value, min, max)]. *)
Definition Clamp (value lo hi : float) : float :=
  if (value <? lo)%f32 then lo
  else if (hi <? value)%f32 then hi
  else value.

Definition VectorClamp (value lo hi : Vector2) : Vector2 :=
  mkVector2 (Clamp (v2x value) (v2x lo) (v2x hi)) (Clamp (v2y value) (v2y lo) (v2y hi)).

(** [ea::min(a, b)] of EASTL: [b < a ? b : a]. *)
Definition ea_min (a b : float) : float := if (b <? a)%f32 then b else a.

(** The quaternion and vector algebra used by the solvers. *)
Class QuaternionMath := {
  (** [Quaternion * Quaternion] *)
  qmul : Quaternion -> Quaternion -> Quaternion;
  (** [Quaternion * Vector3] *)
  qrot : Quaternion -> Vector3 -> Vector3;
  Inverse : Quaternion -> Quaternion;
  (** [Quaternion{from, to}] *)
  FromRotationTo : Vector3 -> Vector3 -> Quaternion;
  (** [Quaternion{angle, axis}] *)
  FromAngleAxis : float -> Vector3 -> Quaternion;
  Slerp : Quaternion -> Quaternion -> float -> Quaternion;
  ToSwingTwist : Quaternion -> Vector3 -> Quaternion * Quaternion;
  Length : Vector3 -> float;
  Normalized : Vector3 -> Vector3;
  ReNormalized : Vector3 -> float -> float -> Vector3;
  CrossProduct : Vector3 -> Vector3 -> Vector3;
  SignedAngle : Vector3 -> Vector3 -> Vector3 -> float
}.

(** ** Scene, solving nodes and chains *)

(** Identity of a scene node ([Node*]); also the address of its cache slot
    ([IKNode*]). *)
Abbreviation Node := positive.

(** Modelled from the spec: what the scene collaborator shows through the
    interface of section 6, a world transform per entity and the recursive
    lookup of a named child. *)
Record Scene := mkScene {
  worldPosition : Node -> Vector3;
  worldRotation : Node -> Quaternion;
  namedChild : Node -> string -> option Node
}.

Definition GetWorldPosition (sc : Scene) (n : Node) : Vector3 := worldPosition sc n.
Definition GetWorldRotation (sc : Scene) (n : Node) : Quaternion := worldRotation sc n.
(** [node->GetChild(name, true)] *)
Definition GetChild (sc : Scene) (n : Node) (name : string) : option Node := namedChild sc n name.

(** [Node::SetWorldPosition] and [Node::SetWorldRotation] are the scene
    graph's, which this file only calls. What a write does to the scene is
    not decided here: in a hierarchy the nodes below the written one move
    with it. Both are operations of an interface, and nothing is assumed of
    them. *)
Class SceneGraph := {
  SetWorldPosition : Node -> Vector3 -> Scene -> Scene;
  SetWorldRotation : Node -> Quaternion -> Scene -> Scene
}.

(** A call of [SetWorldPosition] or [SetWorldRotation]. *)
Inductive SceneWrite :=
| WritePosition (n : Node) (v : Vector3)
| WriteRotation (n : Node) (q : Quaternion).

Definition applyWrite `{SG : SceneGraph} (sc : Scene) (w : SceneWrite) : Scene :=
  match w with
  | WritePosition n v => SetWorldPosition n v sc
  | WriteRotation n q => SetWorldRotation n q sc
  end.

(** Modelled from the spec: the per-bone solving state of section 3. *)
Record IKNode := mkIKNode {
  position_ : Vector3;
  rotation_ : Quaternion;
  originalPosition_ : Vector3;
  originalRotation_ : Quaternion;
  previousPosition_ : Vector3;
  previousRotation_ : Quaternion;
  positionDirty_ : bool;
  rotationDirty_ : bool
}.

Module IKNodeOps.
Definition setPosition (v : Vector3) (n : IKNode) : IKNode :=
  mkIKNode v (rotation_ n) (originalPosition_ n) (originalRotation_ n)
    (previousPosition_ n) (previousRotation_ n) (positionDirty_ n) (rotationDirty_ n).
Definition setRotation (q : Quaternion) (n : IKNode) : IKNode :=
  mkIKNode (position_ n) q (originalPosition_ n) (originalRotation_ n)
    (previousPosition_ n) (previousRotation_ n) (positionDirty_ n) (rotationDirty_ n).
Definition MarkPositionDirty (n : IKNode) : IKNode :=
  mkIKNode (position_ n) (rotation_ n) (originalPosition_ n) (originalRotation_ n)
    (previousPosition_ n) (previousRotation_ n) true (rotationDirty_ n).
Definition MarkRotationDirty (n : IKNode) : IKNode :=
  mkIKNode (position_ n) (rotation_ n) (originalPosition_ n) (originalRotation_ n)
    (previousPosition_ n) (previousRotation_ n) (positionDirty_ n) true.

(** [IKNode{}] *)
Definition fresh : IKNode :=
  mkIKNode Vector3Ops.ZERO QuaternionOps.IDENTITY Vector3Ops.ZERO QuaternionOps.IDENTITY
    Vector3Ops.ZERO QuaternionOps.IDENTITY false false.

(** Modelled from the spec: the current transform becomes the previous-frame
    snapshot (section 4.2, step 1). *)
Definition StorePreviousTransform (n : IKNode) : IKNode :=
  mkIKNode (position_ n) (rotation_ n) (originalPosition_ n) (originalRotation_ n)
    (position_ n) (rotation_ n) (positionDirty_ n) (rotationDirty_ n).

(** Modelled from the spec: back to the rest pose (section 4.8, step 4); the
    flags follow section 3, which has them set when an attribute is changed. *)
Definition ResetOriginalTransform (n : IKNode) : IKNode :=
  MarkRotationDirty (MarkPositionDirty
    (setRotation (originalRotation_ n) (setPosition (originalPosition_ n) n))).

(** Modelled from the spec: a rigid rotation about [point] (section 4.8,
    step 4). *)
Definition RotateAround `{QuaternionMath} (point : Vector3) (rotation : Quaternion)
    (n : IKNode) : IKNode :=
  MarkRotationDirty (MarkPositionDirty
    (setRotation (qmul rotation (rotation_ n))
      (setPosition (Vector3Ops.add (qrot rotation (Vector3Ops.sub (position_ n) point)) point) n))).
End IKNodeOps.

(** [nodeCache.emplace(key, IKNode{})]: an existing slot is kept. *)
Definition emplace (key : Node) (value : IKNode) (nodeCache : gmap Node IKNode)
    : gmap Node IKNode :=
  match nodeCache !! key with
  | Some _ => nodeCache
  | None => <[key := value]> nodeCache
  end.

(** Modelled from the spec: a segment of section 3, two node references and
    the cached rest length. *)
Record IKNodeSegment := mkIKNodeSegment {
  beginNode_ : option Node;
  endNode_ : option Node;
  length_ : float
}.

(** [{beginNode, endNode}] *)
Definition newSegment (b e : Node) : IKNodeSegment :=
  mkIKNodeSegment (Some b) (Some e) (of_Z 0).

(** Modelled from the spec: the two-bone chain of section 3, with its named
    nodes, the two cached lengths and the bend direction of the last solve. *)
Record IKTrigonometricChain := mkIKTrigonometricChain {
  trigBeginNode : option Node;
  trigMiddleNode : option Node;
  trigEndNode : option Node;
  firstLength : float;
  secondLength : float;
  currentBendDirection : Vector3
}.

Module IKTrigonometricChainOps.
Definition GetBeginNode := trigBeginNode.
Definition GetMiddleNode := trigMiddleNode.
Definition GetEndNode := trigEndNode.
Definition GetFirstLength := firstLength.
Definition GetSecondLength := secondLength.
Definition GetCurrentBendDirection := currentBendDirection.
Definition Initialize (n1 n2 n3 : Node) (c : IKTrigonometricChain) : IKTrigonometricChain :=
  mkIKTrigonometricChain (Some n1) (Some n2) (Some n3)
    (firstLength c) (secondLength c) (currentBendDirection c).
End IKTrigonometricChainOps.

(** Modelled from the spec: a multi-bone chain of section 3 (FABRIK and
    spine alike), the node references in order and the cached lengths. *)
Record IKNodeChain := mkIKNodeChain {
  chainNodes : list Node;
  chainLengths : list float
}.

Module IKNodeChainOps.
Definition empty : IKNodeChain := mkIKNodeChain [] [].
Definition AddNode (n : Node) (c : IKNodeChain) : IKNodeChain :=
  mkIKNodeChain (chainNodes c ++ [n]) (chainLengths c).
End IKNodeChainOps.

Record IKSettings := mkIKSettings { continuousRotations_ : bool }.

(** The chain solvers of the IK library, which this file only calls. *)
Class ChainSolvers := {
  (** [IKTrigonometricChain::Solve(target, bendDirection, minAngle, maxAngle)] *)
  TrigonometricChain_Solve :
    IKTrigonometricChain -> Vector3 -> Vector3 -> float -> float ->
    gmap Node IKNode -> IKTrigonometricChain * gmap Node IKNode;
  (** [IKFabrikChain::Solve(target, settings)] *)
  FabrikChain_Solve :
    IKNodeChain -> Vector3 -> IKSettings -> gmap Node IKNode -> gmap Node IKNode;
  (** [IKSpineChain::Solve(target, maxAngle, settings)] *)
  SpineChain_Solve :
    IKNodeChain -> Vector3 -> float -> IKSettings -> gmap Node IKNode -> gmap Node IKNode;
  (** the static [IKTrigonometricChain::Solve(pos0, len01, len12, target,
      bendDirection, minAngle, maxAngle)] *)
  TrigonometricChain_SolvePositions :
    Vector3 -> float -> float -> Vector3 -> Vector3 -> float -> float -> Vector3 * Vector3;
  (** [IKTrigonometricChain::CalculateRotation(originalPos0, originalPos2,
      currentPos0, currentPos2)] *)
  TrigonometricChain_CalculateRotation :
    Vector3 -> Vector3 -> Vector3 -> Vector3 -> Quaternion;
  (** [IKNodeSegment::UpdateRotationInNodes(fromPrevious, isLastSegment)] *)
  Segment_UpdateRotationInNodes :
    IKNodeSegment -> bool -> bool -> gmap Node IKNode -> gmap Node IKNode
}.

(** ** The triangle helpers (anonymous namespace) *)

Section Helpers.
Context `{MathDefs} `{QuaternionMath}.

(** Given two sides and the angle opposite to the first side, calculate the
    (smallest) angle opposite to the second side. *)
Definition SolveAmbiguousTriangle (sideAB sideBC angleACB : float) : option float :=
  let sinAngleBAC := (sideBC * Sin angleACB / sideAB)%f32 in
  if (of_Z 1 <? sinAngleBAC)%f32 then None
  else Some (Asin sinAngleBAC).

Definition GetTriangleAngle (sideAB sideBC sideAC : float) : float :=
  Acos ((sideAB * sideAB + sideBC * sideBC - sideAC * sideAC)
        / (of_Z 2 * sideAB * sideBC))%f32.

Definition GetMaxDistance (chain : IKTrigonometricChain) (maxAngle : float) : float :=
  let a := IKTrigonometricChainOps.GetFirstLength chain in
  let b := IKTrigonometricChainOps.GetSecondLength chain in
  Sqrt (a * a + b * b - of_Z 2 * a * b * Cos maxAngle)%f32.

Definition InterpolateDirection (from to : Vector3) (t : float) : Vector3 :=
  let rotation := FromRotationTo from to in
  qrot (Slerp QuaternionOps.IDENTITY rotation t) from.

Definition GetThighToHeelDistance (thighToToeDistance toeToHeelDistance
    heelAngle maxDistance : float) : float :=
  match SolveAmbiguousTriangle thighToToeDistance toeToHeelDistance heelAngle with
  | None => ea_min (thighToToeDistance + toeToHeelDistance)%f32 maxDistance
  | Some thighAngle =>
      let toeAngle := (of_Z 180 - heelAngle - thighAngle)%f32 in
      let distance := (thighToToeDistance * Sin toeAngle / Sin heelAngle)%f32 in
      ea_min distance maxDistance
  end.

Definition GetToeToHeel (thighPosition toePosition : Vector3) (toeToHeelDistance
    heelAngle maxDistance : float) (bendNormal : Vector3) : Vector3 :=
  let thighToToeDistance := Length (Vector3Ops.sub toePosition thighPosition) in
  let thighToHeelDistance :=
    GetThighToHeelDistance thighToToeDistance toeToHeelDistance heelAngle maxDistance in
  let toeAngle := GetTriangleAngle thighToToeDistance toeToHeelDistance thighToHeelDistance in
  let toeToThigh := Normalized (Vector3Ops.sub thighPosition toePosition) in
  let rotation := FromAngleAxis toeAngle bendNormal in
  Vector3Ops.scale (Normalized (qrot rotation toeToThigh)) toeToHeelDistance.

End Helpers.

(** ** IKSolverComponent: the base class *)

(** [node_] is the scene node the component is attached to; [solverNodes_]
    lists the bones it owns, each entry standing for the pair of the bone and
    the address of its cache slot. *)
Record IKSolverComponent := mkIKSolverComponent {
  node_ : Node;
  solverNodes_ : list Node
}.

Module IKSolverComponentOps.

Definition clearSolverNodes (c : IKSolverComponent) : IKSolverComponent :=
  mkIKSolverComponent (node_ c) [].

(** Returns the solving node of the named bone, or [None] for [nullptr]. *)
Definition AddSolverNode (sc : Scene) (c : IKSolverComponent)
    (nodeCache : gmap Node IKNode) (name : string)
    : option Node * IKSolverComponent * gmap Node IKNode :=
  match GetChild sc (node_ c) name with
  | None => (None, c, nodeCache)
  | Some boneNode =>
      let nodeCache' := emplace boneNode IKNodeOps.fresh nodeCache in
      (Some boneNode, mkIKSolverComponent (node_ c) (solverNodes_ c ++ [boneNode]), nodeCache')
  end.

(** A [const] method: only the cache changes. *)
Definition AddCheckedNode (sc : Scene) (c : IKSolverComponent)
    (nodeCache : gmap Node IKNode) (name : string)
    : option Node * gmap Node IKNode :=
  match GetChild sc (node_ c) name with
  | None => (None, nodeCache)
  | Some boneNode => (Some boneNode, emplace boneNode IKNodeOps.fresh nodeCache)
  end.

(** First loop of [Solve]: pull the world transforms into the owned nodes.
    The pointer of an owned node always has its slot (see the invariant
    [slotted] below). *)
Definition PullTransforms (sc : Scene) (nodes : list Node)
    (nodeCache : gmap Node IKNode) : gmap Node IKNode :=
  foldl (fun cache node =>
           alter (fun solverNode =>
                    IKNodeOps.StorePreviousTransform
                      (IKNodeOps.setRotation (GetWorldRotation sc node)
                        (IKNodeOps.setPosition (GetWorldPosition sc node) solverNode)))
                 node cache)
        nodeCache nodes.

(** Second loop of [Solve]: push the dirty transforms back to the scene. *)
Definition PushTransforms `{SG : SceneGraph} (nodes : list Node)
    (nodeCache : gmap Node IKNode) (sc : Scene) : Scene :=
  foldl (fun scene node =>
           match nodeCache !! node with
           | None => scene
           | Some solverNode =>
               let scene1 :=
                 if positionDirty_ solverNode
                 then SetWorldPosition node (position_ solverNode) scene
                 else scene in
               if rotationDirty_ solverNode
               then SetWorldRotation node (rotation_ solverNode) scene1
               else scene1
           end)
        sc nodes.

(** The calls that loop makes for one owned node, and for all of them in
    order. *)
Definition nodeWrites (nodeCache : gmap Node IKNode) (node : Node) : list SceneWrite :=
  match nodeCache !! node with
  | None => []
  | Some solverNode =>
      (if positionDirty_ solverNode then [WritePosition node (position_ solverNode)] else [])
      ++ (if rotationDirty_ solverNode then [WriteRotation node (rotation_ solverNode)] else [])
  end.

Definition sceneWrites (nodes : list Node) (nodeCache : gmap Node IKNode) : list SceneWrite :=
  nodes ≫= nodeWrites nodeCache.

(** [Solve], over the virtual [SolveInternal] of the derived class; [None]
    when [SolveInternal] dereferences a null pointer. *)
Definition Solve `{SG : SceneGraph} {Derived : Type}
    (base : Derived -> IKSolverComponent)
    (SolveInternal : IKSettings -> Scene -> Derived -> gmap Node IKNode ->
                     option (Derived * gmap Node IKNode))
    (settings : IKSettings) (sc : Scene) (this : Derived)
    (nodeCache : gmap Node IKNode)
    : option (Derived * gmap Node IKNode * Scene) :=
  let cache1 := PullTransforms sc (solverNodes_ (base this)) nodeCache in
  match SolveInternal settings sc this cache1 with
  | None => None
  | Some (this', cache2) =>
      Some (this', cache2, PushTransforms (solverNodes_ (base this')) cache2 sc)
  end.

(** Bone lookups in sequence: the first [nullptr] ends the initialization,
    and what was registered before it stays registered. *)
Definition Init (A : Type) : Type :=
  IKSolverComponent -> gmap Node IKNode -> option A * IKSolverComponent * gmap Node IKNode.

Definition Init_ret {A : Type} (a : A) : Init A := fun c nodeCache => (Some a, c, nodeCache).

Definition Init_bind {A B : Type} (m : Init A) (k : A -> Init B) : Init B :=
  fun c nodeCache =>
    match m c nodeCache with
    | (None, c', cache') => (None, c', cache')
    | (Some a, c', cache') => k a c' cache'
    end.

Definition bone (sc : Scene) (name : string) : Init Node :=
  fun c nodeCache => AddSolverNode sc c nodeCache name.

(** The bone loop shared by the chain and the spine solver. *)
Fixpoint AddBones (sc : Scene) (boneNames : list string) (c : IKSolverComponent)
    (nodeCache : gmap Node IKNode) (chain : IKNodeChain)
    : option IKNodeChain * IKSolverComponent * gmap Node IKNode :=
  match boneNames with
  | [] => (Some chain, c, nodeCache)
  | boneName :: rest =>
      match AddSolverNode sc c nodeCache boneName with
      | (None, c', cache') => (None, c', cache')
      | (Some boneNode, c', cache') =>
          AddBones sc rest c' cache' (IKNodeChainOps.AddNode boneNode chain)
      end
  end.

(** Every owned node has a slot in the cache: the pointers [Solve]
    dereferences are valid. *)
Definition slotted (c : IKSolverComponent) (nodeCache : gmap Node IKNode) : Prop :=
  forall n, n ∈ solverNodes_ c -> is_Some (nodeCache !! n).

(** A computation of [Init] keeps that invariant. *)
Definition keeps_slotted {A : Type} (m : Init A) : Prop :=
  forall c nodeCache, slotted c nodeCache -> slotted (m c nodeCache).1.2 (m c nodeCache).2.

End IKSolverComponentOps.

Notation "x <-- m ;; k" := (IKSolverComponentOps.Init_bind m (fun x => k))
  (at level 100, m at next level, right associativity).

(** ** Debug drawing

    [DrawDebugGeometry] of a solver only calls the [DebugRenderer]; the calls
    it makes, in order, are its result here. A solving node is read through
    its pointer, so the result is [None] when a pointer has no slot behind
    it. *)

(** [Color::YELLOW] and [Color::GREEN]. *)
Inductive Color := YELLOW | GREEN.

(** [AddLine(start, end, color, depthTest)],
    [AddSphere(Sphere(center, radius), color, depthTest)] and
    [AddBoundingBox(BoundingBox{min, max}, Matrix3x4{position, rotation,
    scale}, color, depthTest)]. *)
Inductive DebugCall :=
| AddLine (start finish : Vector3) (color : Color) (depthTest : bool)
| AddSphere (center : Vector3) (radius : float) (color : Color) (depthTest : bool)
| AddBoundingBox (boxMin boxMax : Vector3) (position : Vector3) (rotation : Quaternion)
    (scale : float) (color : Color) (depthTest : bool).

Definition depthTestOf (call : DebugCall) : bool :=
  match call with
  | AddLine _ _ _ depthTest => depthTest
  | AddSphere _ _ _ depthTest => depthTest
  | AddBoundingBox _ _ _ _ _ _ depthTest => depthTest
  end.

(** ** IKChainSolver *)

Module IKChainSolver.
Import IKSolverComponentOps.

Record t := mk {
  base : IKSolverComponent;
  boneNames_ : list string;
  targetName_ : string;
  targetNode_ : option Node;
  chain_ : IKNodeChain
}.

Definition InitializeNodes (sc : Scene) (s : t) (nodeCache : gmap Node IKNode)
    : bool * t * gmap Node IKNode :=
  let '(targetNode, cache1) := AddCheckedNode sc (base s) nodeCache (targetName_ s) in
  match targetNode with
  | None => (false, mk (base s) (boneNames_ s) (targetName_ s) None (chain_ s), cache1)
  | Some _ =>
      match AddBones sc (boneNames_ s) (base s) cache1 IKNodeChainOps.empty with
      | (None, base', cache2) =>
          (false, mk base' (boneNames_ s) (targetName_ s) targetNode (chain_ s), cache2)
      | (Some chain, base', cache2) =>
          (true, mk base' (boneNames_ s) (targetName_ s) targetNode chain, cache2)
      end
  end.

Definition Initialize (sc : Scene) (s : t) (nodeCache : gmap Node IKNode)
    : bool * t * gmap Node IKNode :=
  InitializeNodes sc
    (mk (clearSolverNodes (base s)) (boneNames_ s) (targetName_ s) (targetNode_ s) (chain_ s))
    nodeCache.

Definition SolveInternal `{ChainSolvers} (settings : IKSettings) (sc : Scene) (s : t)
    (nodeCache : gmap Node IKNode) : option (t * gmap Node IKNode) :=
  match targetNode_ s with
  | None => None
  | Some target =>
      Some (s, FabrikChain_Solve (chain_ s) (GetWorldPosition sc target) settings nodeCache)
  end.

End IKChainSolver.

(** ** IKIdentitySolver *)

Module IKIdentitySolver.
Import IKSolverComponentOps.

Record t := mk {
  base : IKSolverComponent;
  boneName_ : string;
  targetName_ : string;
  rotationOffset_ : Quaternion;
  boneNode_ : option Node;
  target_ : option Node
}.

Definition setRotationOffset (q : Quaternion) (s : t) : t :=
  mk (base s) (boneName_ s) (targetName_ s) q (boneNode_ s) (target_ s).

Definition UpdateRotationOffset `{QuaternionMath} (sc : Scene) (s : t) : t :=
  match GetChild sc (node_ (base s)) (boneName_ s) with
  | Some boneNode =>
      setRotationOffset
        (qmul (Inverse (GetWorldRotation sc (node_ (base s)))) (GetWorldRotation sc boneNode)) s
  | None => s
  end.

Definition EnsureInitialized `{QuaternionMath} (sc : Scene) (s : t) : t :=
  if QuaternionOps.eqb (rotationOffset_ s) QuaternionOps.ZERO
  then UpdateRotationOffset sc s
  else s.

Definition InitializeNodes (sc : Scene) (s : t) (nodeCache : gmap Node IKNode)
    : bool * t * gmap Node IKNode :=
  let '(target, cache1) := AddCheckedNode sc (base s) nodeCache (targetName_ s) in
  match target with
  | None =>
      (false, mk (base s) (boneName_ s) (targetName_ s) (rotationOffset_ s) (boneNode_ s) None,
       cache1)
  | Some _ =>
      let '(boneNode, base', cache2) := AddSolverNode sc (base s) cache1 (boneName_ s) in
      let s' := mk base' (boneName_ s) (targetName_ s) (rotationOffset_ s) boneNode target in
      match boneNode with
      | None => (false, s', cache2)
      | Some _ => (true, s', cache2)
      end
  end.

Definition Initialize (sc : Scene) (s : t) (nodeCache : gmap Node IKNode)
    : bool * t * gmap Node IKNode :=
  InitializeNodes sc
    (mk (clearSolverNodes (base s)) (boneName_ s) (targetName_ s) (rotationOffset_ s)
       (boneNode_ s) (target_ s))
    nodeCache.

Definition SolveInternal `{QuaternionMath} (settings : IKSettings) (sc : Scene) (s : t)
    (nodeCache : gmap Node IKNode) : option (t * gmap Node IKNode) :=
  let s1 := EnsureInitialized sc s in
  match boneNode_ s1, target_ s1 with
  | Some boneNode, Some target =>
      match nodeCache !! boneNode with
      | None => None
      | Some solverNode =>
          let n1 := IKNodeOps.setPosition (GetWorldPosition sc target) solverNode in
          let n2 := IKNodeOps.setRotation
                      (qmul (GetWorldRotation sc target) (rotationOffset_ s1)) n1 in
          let n3 := IKNodeOps.MarkRotationDirty (IKNodeOps.MarkPositionDirty n2) in
          Some (s1, <[boneNode := n3]> nodeCache)
      end
  | _, _ => None
  end.

Definition DrawDebugGeometry (sc : Scene) (s : t) (nodeCache : gmap Node IKNode)
    (depthTest : bool) : option (list DebugCall) :=
  let jointRadius := of_decimal 2 100 in
  let targetRadius := of_decimal 5 100 in
  boneCalls ←
    match boneNode_ s with
    | Some boneNode =>
        solverNode ← nodeCache !! boneNode;
        Some [AddBoundingBox (Vector3Ops.neg Vector3Ops.ONE) Vector3Ops.ONE
                (position_ solverNode) (rotation_ solverNode) jointRadius YELLOW false]
    | None => Some []
    end;
  let targetCalls :=
    match target_ s with
    | Some target => [AddSphere (GetWorldPosition sc target) targetRadius GREEN false]
    | None => []
    end in
  Some (boneCalls ++ targetCalls).

End IKIdentitySolver.

(** ** IKTrigonometrySolver *)

Module IKTrigonometrySolver.
Import IKSolverComponentOps.

Record t := mk {
  base : IKSolverComponent;
  firstBoneName_ : string;
  secondBoneName_ : string;
  thirdBoneName_ : string;
  targetName_ : string;
  minAngle_ : float;
  maxAngle_ : float;
  bendDirection_ : Vector3;
  chain_ : IKTrigonometricChain;
  target_ : option Node
}.

Definition setBaseChainTarget (b : IKSolverComponent) (c : IKTrigonometricChain)
    (target : option Node) (s : t) : t :=
  mk b (firstBoneName_ s) (secondBoneName_ s) (thirdBoneName_ s) (targetName_ s)
    (minAngle_ s) (maxAngle_ s) (bendDirection_ s) c target.

Definition InitializeNodes (sc : Scene) (s : t) (nodeCache : gmap Node IKNode)
    : bool * t * gmap Node IKNode :=
  let '(target, cache1) := AddCheckedNode sc (base s) nodeCache (targetName_ s) in
  match target with
  | None => (false, setBaseChainTarget (base s) (chain_ s) None s, cache1)
  | Some _ =>
      let bones :=
        firstBone <-- bone sc (firstBoneName_ s) ;;
        secondBone <-- bone sc (secondBoneName_ s) ;;
        thirdBone <-- bone sc (thirdBoneName_ s) ;;
        Init_ret (firstBone, secondBone, thirdBone) in
      match bones (base s) cache1 with
      | (None, base', cache2) => (false, setBaseChainTarget base' (chain_ s) target s, cache2)
      | (Some (firstBone, secondBone, thirdBone), base', cache2) =>
          (true,
           setBaseChainTarget base'
             (IKTrigonometricChainOps.Initialize firstBone secondBone thirdBone (chain_ s))
             target s,
           cache2)
      end
  end.

Definition Initialize (sc : Scene) (s : t) (nodeCache : gmap Node IKNode)
    : bool * t * gmap Node IKNode :=
  InitializeNodes sc (setBaseChainTarget (clearSolverNodes (base s)) (chain_ s) (target_ s) s)
    nodeCache.

Definition SolveInternal `{QuaternionMath} `{ChainSolvers} (settings : IKSettings)
    (sc : Scene) (s : t) (nodeCache : gmap Node IKNode) : option (t * gmap Node IKNode) :=
  match target_ s with
  | None => None
  | Some target =>
      let targetPosition := GetWorldPosition sc target in
      let '(chain', cache') :=
        TrigonometricChain_Solve (chain_ s) targetPosition
          (qrot (GetWorldRotation sc (node_ (base s))) (bendDirection_ s))
          (minAngle_ s) (maxAngle_ s) nodeCache in
      Some (setBaseChainTarget (base s) chain' (target_ s) s, cache')
  end.

Definition DrawDebugGeometry (sc : Scene) (s : t) (nodeCache : gmap Node IKNode)
    (depthTest : bool) : option (list DebugCall) :=
  let jointRadius := of_decimal 2 100 in
  let targetRadius := of_decimal 5 100 in
  let lineLength := of_decimal 1 10 in
  chainCalls ←
    match IKTrigonometricChainOps.GetBeginNode (chain_ s),
          IKTrigonometricChainOps.GetMiddleNode (chain_ s),
          IKTrigonometricChainOps.GetEndNode (chain_ s) with
    | Some thigh, Some calf, Some heel =>
        thighBone ← nodeCache !! thigh;
        calfBone ← nodeCache !! calf;
        heelBone ← nodeCache !! heel;
        let bendA := position_ calfBone in
        let bendB :=
          Vector3Ops.add bendA
            (Vector3Ops.scale (IKTrigonometricChainOps.GetCurrentBendDirection (chain_ s))
               lineLength) in
        Some [AddLine (position_ thighBone) (position_ calfBone) YELLOW false;
              AddLine (position_ calfBone) (position_ heelBone) YELLOW false;
              AddSphere (position_ thighBone) jointRadius YELLOW false;
              AddSphere (position_ calfBone) jointRadius YELLOW false;
              AddSphere (position_ heelBone) jointRadius YELLOW false;
              AddLine bendA bendB GREEN false;
              AddSphere bendB jointRadius GREEN false]
    | _, _, _ => Some []
    end;
  let targetCalls :=
    match target_ s with
    | Some target => [AddSphere (GetWorldPosition sc target) targetRadius GREEN false]
    | None => []
    end in
  Some (chainCalls ++ targetCalls).

End IKTrigonometrySolver.

(** ** IKSpineSolver *)

Module IKSpineSolver.
Import IKSolverComponentOps.

Record t := mk {
  base : IKSolverComponent;
  boneNames_ : list string;
  targetName_ : string;
  maxAngle_ : float;
  target_ : option Node;
  chain_ : IKNodeChain
}.

Definition InitializeNodes (sc : Scene) (s : t) (nodeCache : gmap Node IKNode)
    : bool * t * gmap Node IKNode :=
  let '(target, cache1) := AddCheckedNode sc (base s) nodeCache (targetName_ s) in
  match target with
  | None =>
      (false, mk (base s) (boneNames_ s) (targetName_ s) (maxAngle_ s) None (chain_ s), cache1)
  | Some _ =>
      match AddBones sc (boneNames_ s) (base s) cache1 IKNodeChainOps.empty with
      | (None, base', cache2) =>
          (false, mk base' (boneNames_ s) (targetName_ s) (maxAngle_ s) target (chain_ s),
           cache2)
      | (Some chain, base', cache2) =>
          (true, mk base' (boneNames_ s) (targetName_ s) (maxAngle_ s) target chain, cache2)
      end
  end.

Definition Initialize (sc : Scene) (s : t) (nodeCache : gmap Node IKNode)
    : bool * t * gmap Node IKNode :=
  InitializeNodes sc
    (mk (clearSolverNodes (base s)) (boneNames_ s) (targetName_ s) (maxAngle_ s)
       (target_ s) (chain_ s))
    nodeCache.

Definition SolveInternal `{ChainSolvers} (settings : IKSettings) (sc : Scene) (s : t)
    (nodeCache : gmap Node IKNode) : option (t * gmap Node IKNode) :=
  match target_ s with
  | None => None
  | Some target =>
      Some (s, SpineChain_Solve (chain_ s) (GetWorldPosition sc target) (maxAngle_ s)
                 settings nodeCache)
  end.

Section Drawing.
(** [chain_.GetSegments()] of the IK library. *)
Variable GetSegments : IKNodeChain -> list IKNodeSegment.

(** The body of the loop over the segments. *)
Definition DrawSegment (nodeCache : gmap Node IKNode) (jointRadius : float)
    (segment : IKNodeSegment) : option (list DebugCall) :=
  beginNode ← beginNode_ segment;
  endNode ← endNode_ segment;
  beginBone ← nodeCache !! beginNode;
  endBone ← nodeCache !! endNode;
  Some [AddLine (position_ beginBone) (position_ endBone) YELLOW false;
        AddSphere (position_ beginBone) jointRadius YELLOW false].

Definition DrawDebugGeometry (sc : Scene) (s : t) (nodeCache : gmap Node IKNode)
    (depthTest : bool) : option (list DebugCall) :=
  let jointRadius := of_decimal 2 100 in
  let targetRadius := of_decimal 5 100 in
  let segments := GetSegments (chain_ s) in
  segmentCalls ← mapM (DrawSegment nodeCache jointRadius) segments;
  lastCalls ←
    (if (2 <=? length segments)%nat
     then
       back ← last segments;
       endNode ← endNode_ back;
       endBone ← nodeCache !! endNode;
       Some [AddSphere (position_ endBone) jointRadius YELLOW false]
     else Some []);
  let targetCalls :=
    match target_ s with
    | Some target => [AddSphere (GetWorldPosition sc target) targetRadius GREEN false]
    | None => []
    end in
  Some (concat segmentCalls ++ lastCalls ++ targetCalls).

End Drawing.

End IKSpineSolver.

(** ** IKLegSolver *)

Module IKLegSolver.
Import IKSolverComponentOps.

Record t := mk {
  base : IKSolverComponent;
  thighBoneName_ : string;
  calfBoneName_ : string;
  heelBoneName_ : string;
  toeBoneName_ : string;
  targetName_ : string;
  minKneeAngle_ : float;
  maxKneeAngle_ : float;
  bendWeight_ : float;
  bendDirection_ : Vector3;
  minHeelAngle_ : float;
  legChain_ : IKTrigonometricChain;
  footSegment_ : IKNodeSegment;
  target_ : option Node
}.

Definition setNodes (b : IKSolverComponent) (c : IKTrigonometricChain)
    (f : IKNodeSegment) (target : option Node) (s : t) : t :=
  mk b (thighBoneName_ s) (calfBoneName_ s) (heelBoneName_ s) (toeBoneName_ s)
    (targetName_ s) (minKneeAngle_ s) (maxKneeAngle_ s) (bendWeight_ s) (bendDirection_ s)
    (minHeelAngle_ s) c f target.

Definition setLimits (minKnee maxKnee weight minHeel : float) (s : t) : t :=
  mk (base s) (thighBoneName_ s) (calfBoneName_ s) (heelBoneName_ s) (toeBoneName_ s)
    (targetName_ s) minKnee maxKnee weight (bendDirection_ s) minHeel
    (legChain_ s) (footSegment_ s) (target_ s).

Definition InitializeNodes (sc : Scene) (s : t) (nodeCache : gmap Node IKNode)
    : bool * t * gmap Node IKNode :=
  let '(target, cache1) := AddCheckedNode sc (base s) nodeCache (targetName_ s) in
  match target with
  | None => (false, setNodes (base s) (legChain_ s) (footSegment_ s) None s, cache1)
  | Some _ =>
      let bones :=
        thighBone <-- bone sc (thighBoneName_ s) ;;
        calfBone <-- bone sc (calfBoneName_ s) ;;
        heelBone <-- bone sc (heelBoneName_ s) ;;
        toeBone <-- bone sc (toeBoneName_ s) ;;
        Init_ret (thighBone, calfBone, heelBone, toeBone) in
      match bones (base s) cache1 with
      | (None, base', cache2) =>
          (false, setNodes base' (legChain_ s) (footSegment_ s) target s, cache2)
      | (Some (thighBone, calfBone, heelBone, toeBone), base', cache2) =>
          (true,
           setNodes base'
             (IKTrigonometricChainOps.Initialize thighBone calfBone heelBone (legChain_ s))
             (newSegment heelBone toeBone) target s,
           cache2)
      end
  end.

Definition Initialize (sc : Scene) (s : t) (nodeCache : gmap Node IKNode)
    : bool * t * gmap Node IKNode :=
  InitializeNodes sc
    (setNodes (clearSolverNodes (base s)) (legChain_ s) (footSegment_ s) (target_ s) s)
    nodeCache.

Section Solving.
Context `{MathDefs} `{QuaternionMath} `{ChainSolvers}.

Definition UpdateMinHeelAngle (sc : Scene) (s : t) : t :=
  match GetChild sc (node_ (base s)) (thighBoneName_ s),
        GetChild sc (node_ (base s)) (heelBoneName_ s),
        GetChild sc (node_ (base s)) (toeBoneName_ s) with
  | Some thighNode, Some heelNode, Some toeNode =>
      let thighToToe := Vector3Ops.sub (GetWorldPosition sc toeNode) (GetWorldPosition sc thighNode) in
      let heelToThigh := Vector3Ops.sub (GetWorldPosition sc thighNode) (GetWorldPosition sc heelNode) in
      let heelToToe := Vector3Ops.sub (GetWorldPosition sc toeNode) (GetWorldPosition sc heelNode) in
      let bendNormal :=
        Vector3Ops.neg
          (CrossProduct thighToToe
             (qrot (GetWorldRotation sc (node_ (base s))) (bendDirection_ s))) in
      setLimits (minKneeAngle_ s) (maxKneeAngle_ s) (bendWeight_ s)
        (SignedAngle heelToThigh heelToToe bendNormal) s
  | _, _, _ => s
  end.

Definition EnsureInitialized (sc : Scene) (s : t) : t :=
  let s1 := if (minHeelAngle_ s <? of_Z 0)%f32 then UpdateMinHeelAngle sc s else s in
  setLimits (Clamp (minKneeAngle_ s1) (of_Z 0) (of_Z 180))
    (Clamp (maxKneeAngle_ s1) (of_Z 0) (of_Z 180))
    (Clamp (bendWeight_ s1) (of_Z 0) (of_Z 1))
    (minHeelAngle_ s1) s1.

Definition CalculateCurrentBendDirection (sc : Scene) (toeTargetPosition : Vector3)
    (s : t) (nodeCache : gmap Node IKNode) : option Vector3 :=
  match IKTrigonometricChainOps.GetBeginNode (legChain_ s), endNode_ (footSegment_ s) with
  | Some thigh, Some toe =>
      match nodeCache !! thigh, nodeCache !! toe with
      | Some thighBone, Some toeBone =>
          let chainRotation :=
            TrigonometricChain_CalculateRotation
              (originalPosition_ thighBone) (originalPosition_ toeBone)
              (position_ thighBone) toeTargetPosition in
          Some (qrot (qmul chainRotation (GetWorldRotation sc (node_ (base s))))
                  (bendDirection_ s))
      | _, _ => None
      end
  | _, _ => None
  end.

Definition CalculateFootDirectionStraight (toeTargetPosition currentBendDirection : Vector3)
    (s : t) (nodeCache : gmap Node IKNode) : option Vector3 :=
  match IKTrigonometricChainOps.GetBeginNode (legChain_ s) with
  | Some thigh =>
      match nodeCache !! thigh with
      | Some thighBone =>
          let thighToToe := Vector3Ops.sub toeTargetPosition (position_ thighBone) in
          let bendNormal := CrossProduct thighToToe currentBendDirection in
          Some (GetToeToHeel (position_ thighBone) toeTargetPosition
                  (length_ (footSegment_ s)) (minHeelAngle_ s)
                  (GetMaxDistance (legChain_ s) (maxKneeAngle_ s)) bendNormal)
      | None => None
      end
  | None => None
  end.

Definition CalculateFootDirectionBent (toeTargetPosition currentBendDirection : Vector3)
    (s : t) (nodeCache : gmap Node IKNode) : option Vector3 :=
  match IKTrigonometricChainOps.GetBeginNode (legChain_ s) with
  | Some thigh =>
      match nodeCache !! thigh with
      | Some thighBone =>
          let '(newPos1, newPos2) :=
            TrigonometricChain_SolvePositions (position_ thighBone)
              (IKTrigonometricChainOps.GetFirstLength (legChain_ s))
              (IKTrigonometricChainOps.GetSecondLength (legChain_ s)
               + length_ (footSegment_ s))%f32
              toeTargetPosition currentBendDirection (minKneeAngle_ s) (maxKneeAngle_ s) in
          Some (Vector3Ops.scale (Normalized (Vector3Ops.sub newPos1 newPos2))
                  (length_ (footSegment_ s)))
      | None => None
      end
  | None => None
  end.

Definition SolveInternal (settings : IKSettings) (sc : Scene) (s : t)
    (nodeCache : gmap Node IKNode) : option (t * gmap Node IKNode) :=
  let s1 := EnsureInitialized sc s in
  target ← target_ s1;
  let toeTargetPosition := GetWorldPosition sc target in
  heel ← IKTrigonometricChainOps.GetEndNode (legChain_ s1);
  currentBendDirection ← CalculateCurrentBendDirection sc toeTargetPosition s1 nodeCache;
  toeToHeel0 ← CalculateFootDirectionStraight toeTargetPosition currentBendDirection s1 nodeCache;
  toeToHeel1 ← CalculateFootDirectionBent toeTargetPosition currentBendDirection s1 nodeCache;
  let toeToHeel := InterpolateDirection toeToHeel0 toeToHeel1 (bendWeight_ s1) in
  let heelTargetPosition := Vector3Ops.add toeTargetPosition toeToHeel in
  let '(chain', cache1) :=
    TrigonometricChain_Solve (legChain_ s1) heelTargetPosition
      (qrot (GetWorldRotation sc (node_ (base s1))) (bendDirection_ s1))
      (minKneeAngle_ s1) (maxKneeAngle_ s1) nodeCache in
  heelBone ← cache1 !! heel;
  let toeTargetPositionAdjusted := Vector3Ops.sub (position_ heelBone) toeToHeel in
  toe ← endNode_ (footSegment_ s1);
  _ ← cache1 !! toe;
  let cache2 := alter (IKNodeOps.setPosition toeTargetPositionAdjusted) toe cache1 in
  Some (setNodes (base s1) chain' (footSegment_ s1) (target_ s1) s1,
        Segment_UpdateRotationInNodes (footSegment_ s1) (continuousRotations_ settings) true
          cache2).

End Solving.

Definition DrawDebugGeometry (sc : Scene) (s : t) (nodeCache : gmap Node IKNode)
    (depthTest : bool) : option (list DebugCall) :=
  let jointRadius := of_decimal 2 100 in
  let targetRadius := of_decimal 5 100 in
  let lineLength := of_decimal 1 10 in
  let thigh := IKTrigonometricChainOps.GetBeginNode (legChain_ s) in
  let calf := IKTrigonometricChainOps.GetMiddleNode (legChain_ s) in
  let heel := IKTrigonometricChainOps.GetEndNode (legChain_ s) in
  let toe := endNode_ (footSegment_ s) in
  chainCalls ←
    match thigh, calf, heel with
    | Some thigh, Some calf, Some heel =>
        thighBone ← nodeCache !! thigh;
        calfBone ← nodeCache !! calf;
        heelBone ← nodeCache !! heel;
        let bendA := position_ calfBone in
        let bendB :=
          Vector3Ops.add bendA
            (Vector3Ops.scale (IKTrigonometricChainOps.GetCurrentBendDirection (legChain_ s))
               lineLength) in
        Some [AddLine (position_ thighBone) (position_ calfBone) YELLOW false;
              AddLine (position_ calfBone) (position_ heelBone) YELLOW false;
              AddSphere (position_ thighBone) jointRadius YELLOW false;
              AddSphere (position_ calfBone) jointRadius YELLOW false;
              AddSphere (position_ heelBone) jointRadius YELLOW false;
              AddLine bendA bendB GREEN false;
              AddSphere bendB jointRadius GREEN false]
    | _, _, _ => Some []
    end;
  footCalls ←
    match heel, toe with
    | Some heel, Some toe =>
        heelBone ← nodeCache !! heel;
        toeBone ← nodeCache !! toe;
        Some [AddLine (position_ heelBone) (position_ toeBone) YELLOW false;
              AddSphere (position_ toeBone) jointRadius YELLOW false]
    | _, _ => Some []
    end;
  let targetCalls :=
    match target_ s with
    | Some target => [AddSphere (GetWorldPosition sc target) targetRadius GREEN false]
    | None => []
    end in
  Some (chainCalls ++ footCalls ++ targetCalls).

End IKLegSolver.

(** ** IKArmSolver *)

Module IKArmSolver.
Import IKSolverComponentOps.

Record t := mk {
  base : IKSolverComponent;
  shoulderBoneName_ : string;
  armBoneName_ : string;
  forearmBoneName_ : string;
  handBoneName_ : string;
  targetName_ : string;
  minElbowAngle_ : float;
  maxElbowAngle_ : float;
  shoulderWeight_ : Vector2;
  bendDirection_ : Vector3;
  upDirection_ : Vector3;
  armChain_ : IKTrigonometricChain;
  shoulderSegment_ : IKNodeSegment;
  target_ : option Node
}.

Definition setNodes (b : IKSolverComponent) (c : IKTrigonometricChain)
    (g : IKNodeSegment) (target : option Node) (s : t) : t :=
  mk b (shoulderBoneName_ s) (armBoneName_ s) (forearmBoneName_ s) (handBoneName_ s)
    (targetName_ s) (minElbowAngle_ s) (maxElbowAngle_ s) (shoulderWeight_ s)
    (bendDirection_ s) (upDirection_ s) c g target.

Definition setLimits (minElbow maxElbow : float) (weight : Vector2) (s : t) : t :=
  mk (base s) (shoulderBoneName_ s) (armBoneName_ s) (forearmBoneName_ s) (handBoneName_ s)
    (targetName_ s) minElbow maxElbow weight (bendDirection_ s) (upDirection_ s)
    (armChain_ s) (shoulderSegment_ s) (target_ s).

Definition InitializeNodes (sc : Scene) (s : t) (nodeCache : gmap Node IKNode)
    : bool * t * gmap Node IKNode :=
  let '(target, cache1) := AddCheckedNode sc (base s) nodeCache (targetName_ s) in
  match target with
  | None => (false, setNodes (base s) (armChain_ s) (shoulderSegment_ s) None s, cache1)
  | Some _ =>
      let bones :=
        shoulderBone <-- bone sc (shoulderBoneName_ s) ;;
        armBone <-- bone sc (armBoneName_ s) ;;
        forearmBone <-- bone sc (forearmBoneName_ s) ;;
        handBone <-- bone sc (handBoneName_ s) ;;
        Init_ret (shoulderBone, armBone, forearmBone, handBone) in
      match bones (base s) cache1 with
      | (None, base', cache2) =>
          (false, setNodes base' (armChain_ s) (shoulderSegment_ s) target s, cache2)
      | (Some (shoulderBone, armBone, forearmBone, handBone), base', cache2) =>
          (true,
           setNodes base'
             (IKTrigonometricChainOps.Initialize armBone forearmBone handBone (armChain_ s))
             (newSegment shoulderBone armBone) target s,
           cache2)
      end
  end.

Definition Initialize (sc : Scene) (s : t) (nodeCache : gmap Node IKNode)
    : bool * t * gmap Node IKNode :=
  InitializeNodes sc
    (setNodes (clearSolverNodes (base s)) (armChain_ s) (shoulderSegment_ s) (target_ s) s)
    nodeCache.

Definition EnsureInitialized (s : t) : t :=
  setLimits (Clamp (minElbowAngle_ s) (of_Z 0) (of_Z 180))
    (Clamp (maxElbowAngle_ s) (of_Z 0) (of_Z 180))
    (VectorClamp (shoulderWeight_ s) (mkVector2 (of_Z 0) (of_Z 0)) (mkVector2 (of_Z 1) (of_Z 1)))
    s.

Section Solving.
Context `{QuaternionMath} `{ChainSolvers}.

(** Every statement of [RotateShoulder] acts on the node behind a pointer, so
    a shoulder and an arm bone that are one node share each update. *)
Definition RotateShoulder (rotation : Quaternion) (s : t) (nodeCache : gmap Node IKNode)
    : option (gmap Node IKNode) :=
  shoulder ← beginNode_ (shoulderSegment_ s);
  arm ← endNode_ (shoulderSegment_ s);
  shoulderBone ← nodeCache !! shoulder;
  _ ← nodeCache !! arm;
  let shoulderPosition := position_ shoulderBone in
  let shoulderOffset := Vector3Ops.sub shoulderPosition (originalPosition_ shoulderBone) in
  let cache1 := alter IKNodeOps.ResetOriginalTransform shoulder nodeCache in
  let cache2 := alter IKNodeOps.ResetOriginalTransform arm cache1 in
  let shift := fun n => IKNodeOps.setPosition (Vector3Ops.add (position_ n) shoulderOffset) n in
  let cache3 := alter shift shoulder cache2 in
  let cache4 := alter shift arm cache3 in
  let cache5 := alter (IKNodeOps.RotateAround shoulderPosition rotation) shoulder cache4 in
  Some (alter (IKNodeOps.RotateAround shoulderPosition rotation) arm cache5).

Definition CalculateMaxShoulderRotation (handTargetPosition : Vector3) (s : t)
    (nodeCache : gmap Node IKNode) : option Quaternion :=
  shoulder ← beginNode_ (shoulderSegment_ s);
  arm ← endNode_ (shoulderSegment_ s);
  shoulderBone ← nodeCache !! shoulder;
  armBone ← nodeCache !! arm;
  let shoulderPosition := position_ shoulderBone in
  let shoulderToArmMax :=
    ReNormalized (Vector3Ops.sub handTargetPosition shoulderPosition)
      (length_ (shoulderSegment_ s)) (length_ (shoulderSegment_ s)) in
  let armTargetPosition := Vector3Ops.add shoulderPosition shoulderToArmMax in
  let originalShoulderToArm := Vector3Ops.sub (position_ armBone) (position_ shoulderBone) in
  let maxShoulderToArm := Vector3Ops.sub armTargetPosition shoulderPosition in
  Some (FromRotationTo originalShoulderToArm maxShoulderToArm).

(** The last statement of [SolveInternal]: the solve of the arm chain. *)
Definition SolveArmChain (handTargetPosition : Vector3) (s : t)
    (nodeCache : gmap Node IKNode) : t * gmap Node IKNode :=
  let '(chain', cache') :=
    TrigonometricChain_Solve (armChain_ s) handTargetPosition (bendDirection_ s)
      (minElbowAngle_ s) (maxElbowAngle_ s) nodeCache in
  (setNodes (base s) chain' (shoulderSegment_ s) (target_ s) s, cache').

Definition SolveInternal (settings : IKSettings) (sc : Scene) (s : t)
    (nodeCache : gmap Node IKNode) : option (t * gmap Node IKNode) :=
  let s1 := EnsureInitialized s in
  target ← target_ s1;
  let handTargetPosition := GetWorldPosition sc target in
  maxShoulderRotation ← CalculateMaxShoulderRotation handTargetPosition s1 nodeCache;
  let '(swing, twist) := ToSwingTwist maxShoulderRotation (upDirection_ s1) in
  let shoulderRotation :=
    qmul (Slerp QuaternionOps.IDENTITY swing (v2y (shoulderWeight_ s1)))
         (Slerp QuaternionOps.IDENTITY twist (v2x (shoulderWeight_ s1))) in
  cache1 ← RotateShoulder shoulderRotation s1 nodeCache;
  Some (SolveArmChain handTargetPosition s1 cache1).

End Solving.

Definition DrawDebugGeometry (sc : Scene) (s : t) (nodeCache : gmap Node IKNode)
    (depthTest : bool) : option (list DebugCall) :=
  let jointRadius := of_decimal 2 100 in
  let targetRadius := of_decimal 5 100 in
  let arm := IKTrigonometricChainOps.GetBeginNode (armChain_ s) in
  let forearm := IKTrigonometricChainOps.GetMiddleNode (armChain_ s) in
  let hand := IKTrigonometricChainOps.GetEndNode (armChain_ s) in
  let shoulder := beginNode_ (shoulderSegment_ s) in
  chainCalls ←
    match arm, forearm, hand with
    | Some arm, Some forearm, Some hand =>
        armBone ← nodeCache !! arm;
        forearmBone ← nodeCache !! forearm;
        handBone ← nodeCache !! hand;
        Some [AddLine (position_ armBone) (position_ forearmBone) YELLOW false;
              AddLine (position_ forearmBone) (position_ handBone) YELLOW false;
              AddSphere (position_ armBone) jointRadius YELLOW false;
              AddSphere (position_ forearmBone) jointRadius YELLOW false;
              AddSphere (position_ handBone) jointRadius YELLOW false]
    | _, _, _ => Some []
    end;
  shoulderCalls ←
    match shoulder, arm with
    | Some shoulder, Some arm =>
        shoulderBone ← nodeCache !! shoulder;
        armBone ← nodeCache !! arm;
        Some [AddLine (position_ shoulderBone) (position_ armBone) YELLOW false;
              AddSphere (position_ shoulderBone) jointRadius YELLOW false]
    | _, _ => Some []
    end;
  let targetCalls :=
    match target_ s with
    | Some target => [AddSphere (GetWorldPosition sc target) targetRadius GREEN false]
    | None => []
    end in
  Some (chainCalls ++ shoulderCalls ++ targetCalls).

End IKArmSolver.

(** ** The closed set of solver components *)

Inductive SolverComponent :=
| ChainSolver (s : IKChainSolver.t)
| IdentitySolver (s : IKIdentitySolver.t)
| TrigonometrySolver (s : IKTrigonometrySolver.t)
| LegSolver (s : IKLegSolver.t)
| SpineSolver (s : IKSpineSolver.t)
| ArmSolver (s : IKArmSolver.t).

Module SolverComponentOps.

Definition lift {A : Type} (wrap : A -> SolverComponent)
    (r : bool * A * gmap Node IKNode) : bool * SolverComponent * gmap Node IKNode :=
  let '(ok, s, nodeCache) := r in (ok, wrap s, nodeCache).

(** [IKSolverComponent::Initialize], dispatched on the dynamic type. *)
Definition Initialize (sc : Scene) (c : SolverComponent) (nodeCache : gmap Node IKNode)
    : bool * SolverComponent * gmap Node IKNode :=
  match c with
  | ChainSolver s => lift ChainSolver (IKChainSolver.Initialize sc s nodeCache)
  | IdentitySolver s => lift IdentitySolver (IKIdentitySolver.Initialize sc s nodeCache)
  | TrigonometrySolver s => lift TrigonometrySolver (IKTrigonometrySolver.Initialize sc s nodeCache)
  | LegSolver s => lift LegSolver (IKLegSolver.Initialize sc s nodeCache)
  | SpineSolver s => lift SpineSolver (IKSpineSolver.Initialize sc s nodeCache)
  | ArmSolver s => lift ArmSolver (IKArmSolver.Initialize sc s nodeCache)
  end.

Definition base (c : SolverComponent) : IKSolverComponent :=
  match c with
  | ChainSolver s => IKChainSolver.base s
  | IdentitySolver s => IKIdentitySolver.base s
  | TrigonometrySolver s => IKTrigonometrySolver.base s
  | LegSolver s => IKLegSolver.base s
  | SpineSolver s => IKSpineSolver.base s
  | ArmSolver s => IKArmSolver.base s
  end.

(** The target name and the bone names a component is configured with. *)
Definition configuredNames (c : SolverComponent) : list string :=
  match c with
  | ChainSolver s => IKChainSolver.targetName_ s :: IKChainSolver.boneNames_ s
  | IdentitySolver s => [IKIdentitySolver.targetName_ s; IKIdentitySolver.boneName_ s]
  | TrigonometrySolver s =>
      [IKTrigonometrySolver.targetName_ s; IKTrigonometrySolver.firstBoneName_ s;
       IKTrigonometrySolver.secondBoneName_ s; IKTrigonometrySolver.thirdBoneName_ s]
  | LegSolver s =>
      [IKLegSolver.targetName_ s; IKLegSolver.thighBoneName_ s; IKLegSolver.calfBoneName_ s;
       IKLegSolver.heelBoneName_ s; IKLegSolver.toeBoneName_ s]
  | SpineSolver s => IKSpineSolver.targetName_ s :: IKSpineSolver.boneNames_ s
  | ArmSolver s =>
      [IKArmSolver.targetName_ s; IKArmSolver.shoulderBoneName_ s; IKArmSolver.armBoneName_ s;
       IKArmSolver.forearmBoneName_ s; IKArmSolver.handBoneName_ s]
  end.

(** The chains and segments installed in a component. *)
Inductive Chains :=
| NoChain
| NodeChain (c : IKNodeChain)
| TrigonometricChain (c : IKTrigonometricChain)
| ChainAndSegment (c : IKTrigonometricChain) (g : IKNodeSegment).

Definition installedChains (c : SolverComponent) : Chains :=
  match c with
  | ChainSolver s => NodeChain (IKChainSolver.chain_ s)
  | IdentitySolver _ => NoChain
  | TrigonometrySolver s => TrigonometricChain (IKTrigonometrySolver.chain_ s)
  | LegSolver s => ChainAndSegment (IKLegSolver.legChain_ s) (IKLegSolver.footSegment_ s)
  | SpineSolver s => NodeChain (IKSpineSolver.chain_ s)
  | ArmSolver s => ChainAndSegment (IKArmSolver.armChain_ s) (IKArmSolver.shoulderSegment_ s)
  end.

Definition liftSolved {A : Type} (wrap : A -> SolverComponent)
    (r : option (A * gmap Node IKNode)) : option (SolverComponent * gmap Node IKNode) :=
  match r with
  | Some (s, nodeCache) => Some (wrap s, nodeCache)
  | None => None
  end.

(** [SolveInternal], dispatched on the dynamic type. *)
Definition SolveInternal `{MathDefs} `{QuaternionMath} `{ChainSolvers}
    (settings : IKSettings) (sc : Scene) (c : SolverComponent)
    (nodeCache : gmap Node IKNode) : option (SolverComponent * gmap Node IKNode) :=
  match c with
  | ChainSolver s => liftSolved ChainSolver (IKChainSolver.SolveInternal settings sc s nodeCache)
  | IdentitySolver s =>
      liftSolved IdentitySolver (IKIdentitySolver.SolveInternal settings sc s nodeCache)
  | TrigonometrySolver s =>
      liftSolved TrigonometrySolver (IKTrigonometrySolver.SolveInternal settings sc s nodeCache)
  | LegSolver s => liftSolved LegSolver (IKLegSolver.SolveInternal settings sc s nodeCache)
  | SpineSolver s => liftSolved SpineSolver (IKSpineSolver.SolveInternal settings sc s nodeCache)
  | ArmSolver s => liftSolved ArmSolver (IKArmSolver.SolveInternal settings sc s nodeCache)
  end.

(** [IKSolverComponent::Solve] of any component. *)
Definition Solve `{SG : SceneGraph} `{MathDefs} `{QuaternionMath} `{ChainSolvers}
    (settings : IKSettings) (sc : Scene) (c : SolverComponent)
    (nodeCache : gmap Node IKNode) : option (SolverComponent * gmap Node IKNode * Scene) :=
  IKSolverComponentOps.Solve base SolveInternal settings sc c nodeCache.

(** Whether the component defines [DrawDebugGeometry] in this file; the chain
    solver inherits the one of its base class. *)
Definition definesDrawDebugGeometry (c : SolverComponent) : bool :=
  match c with ChainSolver _ => false | _ => true end.

(** [DrawDebugGeometry], dispatched on the dynamic type; the inherited one of
    the chain solver is taken as making no call. *)
Definition DrawDebugGeometry (GetSegments : IKNodeChain -> list IKNodeSegment)
    (sc : Scene) (c : SolverComponent) (nodeCache : gmap Node IKNode) (depthTest : bool)
    : option (list DebugCall) :=
  match c with
  | ChainSolver _ => Some []
  | IdentitySolver s => IKIdentitySolver.DrawDebugGeometry sc s nodeCache depthTest
  | TrigonometrySolver s => IKTrigonometrySolver.DrawDebugGeometry sc s nodeCache depthTest
  | LegSolver s => IKLegSolver.DrawDebugGeometry sc s nodeCache depthTest
  | SpineSolver s => IKSpineSolver.DrawDebugGeometry GetSegments sc s nodeCache depthTest
  | ArmSolver s => IKArmSolver.DrawDebugGeometry sc s nodeCache depthTest
  end.

(** 1 for a pointer that is set, 0 for [nullptr]. *)
Definition isSet {A : Type} (pointer : option A) : nat :=
  match pointer with Some _ => 1 | None => 0 end.

(** The number of calls the [if] blocks of each [DrawDebugGeometry] make,
    from the pointers they test. *)
Definition numberOfCalls (GetSegments : IKNodeChain -> list IKNodeSegment)
    (c : SolverComponent) : nat :=
  match c with
  | ChainSolver _ => 0
  | IdentitySolver s =>
      isSet (IKIdentitySolver.boneNode_ s) + isSet (IKIdentitySolver.target_ s)
  | TrigonometrySolver s =>
      let chain := IKTrigonometrySolver.chain_ s in
      7 * (isSet (trigBeginNode chain) * isSet (trigMiddleNode chain) * isSet (trigEndNode chain))
      + isSet (IKTrigonometrySolver.target_ s)
  | LegSolver s =>
      let chain := IKLegSolver.legChain_ s in
      7 * (isSet (trigBeginNode chain) * isSet (trigMiddleNode chain) * isSet (trigEndNode chain))
      + 2 * (isSet (trigEndNode chain) * isSet (endNode_ (IKLegSolver.footSegment_ s)))
      + isSet (IKLegSolver.target_ s)
  | SpineSolver s =>
      let segments := GetSegments (IKSpineSolver.chain_ s) in
      2 * length segments + (if (2 <=? length segments)%nat then 1 else 0)
      + isSet (IKSpineSolver.target_ s)
  | ArmSolver s =>
      let chain := IKArmSolver.armChain_ s in
      5 * (isSet (trigBeginNode chain) * isSet (trigMiddleNode chain) * isSet (trigEndNode chain))
      + 2 * (isSet (beginNode_ (IKArmSolver.shoulderSegment_ s)) * isSet (trigBeginNode chain))
      + isSet (IKArmSolver.target_ s)
  end.

(** The target name and the bone names of a component, apart. *)
Definition targetName (c : SolverComponent) : string :=
  match c with
  | ChainSolver s => IKChainSolver.targetName_ s
  | IdentitySolver s => IKIdentitySolver.targetName_ s
  | TrigonometrySolver s => IKTrigonometrySolver.targetName_ s
  | LegSolver s => IKLegSolver.targetName_ s
  | SpineSolver s => IKSpineSolver.targetName_ s
  | ArmSolver s => IKArmSolver.targetName_ s
  end.

Definition boneNames (c : SolverComponent) : list string :=
  match c with
  | ChainSolver s => IKChainSolver.boneNames_ s
  | IdentitySolver s => [IKIdentitySolver.boneName_ s]
  | TrigonometrySolver s =>
      [IKTrigonometrySolver.firstBoneName_ s; IKTrigonometrySolver.secondBoneName_ s;
       IKTrigonometrySolver.thirdBoneName_ s]
  | LegSolver s =>
      [IKLegSolver.thighBoneName_ s; IKLegSolver.calfBoneName_ s;
       IKLegSolver.heelBoneName_ s; IKLegSolver.toeBoneName_ s]
  | SpineSolver s => IKSpineSolver.boneNames_ s
  | ArmSolver s =>
      [IKArmSolver.shoulderBoneName_ s; IKArmSolver.armBoneName_ s;
       IKArmSolver.forearmBoneName_ s; IKArmSolver.handBoneName_ s]
  end.

(** The nodes a list of names resolves to, up to the first name that does
    not resolve. *)
Fixpoint resolvedPrefix (sc : Scene) (node : Node) (names : list string) : list Node :=
  match names with
  | [] => []
  | name :: rest =>
      match GetChild sc node name with
      | Some boneNode => boneNode :: resolvedPrefix sc node rest
      | None => []
      end
  end.

(** The nodes [Initialize] looks up and finds: the target, then the bones up
    to the first missing one. *)
Definition registeredNodes (sc : Scene) (c : SolverComponent) : list Node :=
  match GetChild sc (node_ (base c)) (targetName c) with
  | None => []
  | Some target => target :: resolvedPrefix sc (node_ (base c)) (boneNames c)
  end.

(** [emplace] for each node of a list, in order. *)
Definition emplaceAll (nodes : list Node) (nodeCache : gmap Node IKNode) : gmap Node IKNode :=
  foldl (fun cache node => emplace node IKNodeOps.fresh cache) nodeCache nodes.

End SolverComponentOps.

(** ** The call of the two-bone chain solver made by a component *)

Record ChainSolveCall := mkChainSolveCall {
  callTarget : Vector3;
  callBendDirection : Vector3;
  callMinAngle : float;
  callMaxAngle : float
}.

(** [chain_.Solve(targetPosition, node_->GetWorldRotation() * bendDirection_,
    minAngle_, maxAngle_)] of the trigonometry solver. *)
Definition TrigonometrySolver_call `{QuaternionMath} (sc : Scene)
    (s : IKTrigonometrySolver.t) (target : Node) : ChainSolveCall :=
  mkChainSolveCall (GetWorldPosition sc target)
    (qrot (GetWorldRotation sc (node_ (IKTrigonometrySolver.base s)))
       (IKTrigonometrySolver.bendDirection_ s))
    (IKTrigonometrySolver.minAngle_ s) (IKTrigonometrySolver.maxAngle_ s).

(** [armChain_.Solve(handTargetPosition, bendDirection_, minElbowAngle_,
    maxElbowAngle_)] of the arm solver, after [EnsureInitialized]. *)
Definition ArmSolver_call (handTargetPosition : Vector3) (s : IKArmSolver.t) : ChainSolveCall :=
  let s1 := IKArmSolver.EnsureInitialized s in
  mkChainSolveCall handTargetPosition (IKArmSolver.bendDirection_ s1)
    (IKArmSolver.minElbowAngle_ s1) (IKArmSolver.maxElbowAngle_ s1).

Definition runChainSolve `{ChainSolvers} (chain : IKTrigonometricChain)
    (c : ChainSolveCall) (nodeCache : gmap Node IKNode)
    : IKTrigonometricChain * gmap Node IKNode :=
  TrigonometricChain_Solve chain (callTarget c) (callBendDirection c)
    (callMinAngle c) (callMaxAngle c) nodeCache.

(** ** Implementations of the interfaces, for running the model *)

Module Run.

Definition NaN : float := S754_nan.

(** A trigonometry known at a few right angles only, NaN elsewhere. *)
Definition RightAngles : MathDefs := {|
  Sin x := if (x ==? of_Z 0)%f32 then of_Z 0
           else if (x ==? of_Z 90)%f32 then of_Z 1 else NaN;
  Cos x := if (x ==? of_Z 0)%f32 then of_Z 1
           else if (x ==? of_Z 180)%f32 then of_Z (-1) else NaN;
  Asin x := if (x ==? of_Z 0)%f32 then of_Z 0
            else if (x ==? of_Z 1)%f32 then of_Z 90 else NaN;
  Acos x := if (x ==? of_Z 1)%f32 then of_Z 0
            else if (x ==? of_Z (-1))%f32 then of_Z 180 else NaN
|}.

Definition cross (a b : Vector3) : Vector3 :=
  mkVector3 (vy a * vz b - vz a * vy b)%f32
            (vz a * vx b - vx a * vz b)%f32
            (vx a * vy b - vy a * vx b)%f32.

Definition hamilton (a b : Quaternion) : Quaternion :=
  mkQuaternion
    (qw a * qw b - qx a * qx b - qy a * qy b - qz a * qz b)%f32
    (qw a * qx b + qx a * qw b + qy a * qz b - qz a * qy b)%f32
    (qw a * qy b + qy a * qw b + qz a * qx b - qx a * qz b)%f32
    (qw a * qz b + qz a * qw b + qx a * qy b - qy a * qx b)%f32.

Definition rotate (q : Quaternion) (v : Vector3) : Vector3 :=
  let qVec := mkVector3 (qx q) (qy q) (qz q) in
  let cross1 := cross qVec v in
  let cross2 := cross qVec cross1 in
  Vector3Ops.add v
    (Vector3Ops.scale (Vector3Ops.add (Vector3Ops.scale cross1 (qw q)) cross2) (of_Z 2)).

Definition conjugate (q : Quaternion) : Quaternion :=
  mkQuaternion (qw q) (SFopp (qx q)) (SFopp (qy q)) (SFopp (qz q)).

Definition length (v : Vector3) : float :=
  Sqrt (vx v * vx v + vy v * vy v + vz v * vz v)%f32.

(** A quaternion algebra in binary32: Hamilton product, rotation of a vector
    and conjugate; the constructors that need trigonometry are not exercised
    by the runs below and return the identity. *)
Definition Hamilton : QuaternionMath := {|
  qmul := hamilton;
  qrot := rotate;
  Inverse := conjugate;
  FromRotationTo _ _ := QuaternionOps.IDENTITY;
  FromAngleAxis _ _ := QuaternionOps.IDENTITY;
  Slerp _ rhs _ := rhs;
  ToSwingTwist q _ := (q, QuaternionOps.IDENTITY);
  Length := length;
  Normalized v := Vector3Ops.scale v (of_Z 1 / length v)%f32;
  ReNormalized v _ _ := v;
  CrossProduct := cross;
  SignedAngle _ _ _ := NaN
|}.

(** A probe in place of the chain solvers: the two-bone solve returns the
    arguments it was called with inside the chain (the bend direction, and the
    angle limits where the lengths are) and moves no node. *)
Definition Probe : ChainSolvers := {|
  TrigonometricChain_Solve chain target bendDirection minAngle maxAngle nodeCache :=
    (mkIKTrigonometricChain (trigBeginNode chain) (trigMiddleNode chain) (trigEndNode chain)
       minAngle maxAngle bendDirection, nodeCache);
  FabrikChain_Solve _ _ _ nodeCache := nodeCache;
  SpineChain_Solve _ _ _ _ nodeCache := nodeCache;
  TrigonometricChain_SolvePositions pos0 _ _ target _ _ _ := (pos0, target);
  TrigonometricChain_CalculateRotation _ _ _ _ := QuaternionOps.IDENTITY;
  Segment_UpdateRotationInNodes _ _ _ nodeCache := nodeCache
|}.

(** *** A small rig

    Node 1 carries the solver components; its children are the bones
    "Shoulder" (2), "Arm" (3), "Forearm" (4), "Hand" (5) and the target
    "HandTarget" (6), which sits at (1, 2, 3). *)

Definition rigChild (name : string) : option Node :=
  if String.eqb name "Shoulder" then Some 2%positive
  else if String.eqb name "Arm" then Some 3%positive
  else if String.eqb name "Forearm" then Some 4%positive
  else if String.eqb name "Hand" then Some 5%positive
  else if String.eqb name "HandTarget" then Some 6%positive
  else None.

Definition rig : Scene :=
  mkScene
    (fun n => if Pos.eqb n 6 then mkVector3 (of_Z 1) (of_Z 2) (of_Z 3) else Vector3Ops.ZERO)
    (fun _ => QuaternionOps.IDENTITY)
    (fun _ name => rigChild name).

(** The same rig with node 1 turned by half a turn about the vertical axis. *)
Definition halfTurn : Quaternion := mkQuaternion (of_Z 0) (of_Z 0) (of_Z 1) (of_Z 0).

Definition turnedRig : Scene :=
  mkScene (worldPosition rig)
    (fun n => if Pos.eqb n 1 then halfTurn else QuaternionOps.IDENTITY)
    (namedChild rig).

(** A scene graph in which no node hangs below another: a write changes the
    entry of the written node and nothing else. The bones of the rig are such
    nodes, side by side below node 1, which is never written. *)
Definition Detached : SceneGraph := {|
  SetWorldPosition n v sc :=
    mkScene (fun m => if Pos.eqb m n then v else worldPosition sc m)
      (worldRotation sc) (namedChild sc);
  SetWorldRotation n q sc :=
    mkScene (worldPosition sc)
      (fun m => if Pos.eqb m n then q else worldRotation sc m) (namedChild sc)
|}.

Definition settings : IKSettings := mkIKSettings false.

(** An identity solver binding "Hand" to "HandTarget", as configured and as
    initialized against an empty cache. *)
Definition handSolver0 : IKIdentitySolver.t :=
  IKIdentitySolver.mk (mkIKSolverComponent 1%positive []) "Hand" "HandTarget"
    QuaternionOps.ZERO None None.

Definition handSolver : IKIdentitySolver.t := (IKIdentitySolver.Initialize rig handSolver0 ∅).1.2.
Definition handCache : gmap Node IKNode := (IKIdentitySolver.Initialize rig handSolver0 ∅).2.

(** The same solver after its bone name was edited to a name the rig does not
    have; the pointers are those of the initialization. *)
Definition renamedHandSolver : IKIdentitySolver.t :=
  IKIdentitySolver.mk (IKIdentitySolver.base handSolver) "Wrist"
    (IKIdentitySolver.targetName_ handSolver) (IKIdentitySolver.rotationOffset_ handSolver)
    (IKIdentitySolver.boneNode_ handSolver) (IKIdentitySolver.target_ handSolver).

(** A two-bone chain with both lengths 1 over the arm bones. *)
Definition armChain : IKTrigonometricChain :=
  mkIKTrigonometricChain (Some 3%positive) (Some 4%positive) (Some 5%positive)
    (of_Z 1) (of_Z 1) Vector3Ops.ZERO.

(** A trigonometry solver and an arm solver over that chain, with the same
    target, bend direction and angle limits. *)
Definition trigSolver (minAngle maxAngle : float) : IKTrigonometrySolver.t :=
  IKTrigonometrySolver.mk (mkIKSolverComponent 1%positive [3; 4; 5]%positive)
    "Arm" "Forearm" "Hand" "HandTarget" minAngle maxAngle Vector3Ops.FORWARD
    armChain (Some 6%positive).

Definition armSolver (shoulder arm : Node) (minAngle maxAngle : float) : IKArmSolver.t :=
  IKArmSolver.mk (mkIKSolverComponent 1%positive [2; 3; 4; 5]%positive)
    "Shoulder" "Arm" "Forearm" "Hand" "HandTarget" minAngle maxAngle
    (mkVector2 (of_Z 0) (of_Z 0)) Vector3Ops.FORWARD Vector3Ops.UP
    armChain (mkIKNodeSegment (Some shoulder) (Some arm) (of_Z 1)) (Some 6%positive).

(** A solving node at [position] whose rest position is [original]. *)
Definition boneAt (position original : Vector3) : IKNode :=
  mkIKNode position QuaternionOps.IDENTITY original QuaternionOps.IDENTITY
    position QuaternionOps.IDENTITY false false.

Definition onX (x : float) : Vector3 := mkVector3 x (of_Z 0) (of_Z 0).

(** The shoulder at x = [x] with rest position x = [x0], the arm bone one
    unit further along x. *)
Definition shoulderCache (x x0 : float) : gmap Node IKNode :=
  <[2%positive := boneAt (onX x) (onX x0)]>
    (<[3%positive := boneAt (onX (x + of_Z 1)%f32) (onX (x0 + of_Z 1)%f32)]> ∅).




(** Segment lengths 1 and 1 + 2^-12, and 1 + 2^-12 and 1 + 3 * 2^-13. *)
Definition chainNear1 : IKTrigonometricChain :=
  mkIKTrigonometricChain None None None (of_Z 1) (of_decimal 4097 4096) Vector3Ops.ZERO.

Definition chainNear1' : IKTrigonometricChain :=
  mkIKTrigonometricChain None None None (of_decimal 8194 8192) (of_decimal 8195 8192)
    Vector3Ops.ZERO.





(** A leg solver over bones the rig does not have, with limits out of
    range. *)
Definition legSolver (minHeelAngle : float) : IKLegSolver.t :=
  IKLegSolver.mk (mkIKSolverComponent 1%positive []) "Thigh" "Calf" "Heel" "Toe" "FootTarget"
    (of_Z (-10)) (of_Z 200) (of_Z 2) Vector3Ops.FORWARD minHeelAngle
    (mkIKTrigonometricChain None None None (of_Z 0) (of_Z 0) Vector3Ops.ZERO)
    (mkIKNodeSegment None None (of_Z 0)) None.

(** An arm solver over the bones of the rig, as configured. *)
Definition armSolver0 : IKArmSolver.t :=
  IKArmSolver.mk (mkIKSolverComponent 1%positive [])
    "Shoulder" "Arm" "Forearm" "Hand" "HandTarget" (of_Z 0) (of_Z 180)
    (mkVector2 (of_Z 0) (of_Z 0)) Vector3Ops.FORWARD Vector3Ops.UP
    (mkIKTrigonometricChain None None None (of_Z 0) (of_Z 0) Vector3Ops.ZERO)
    (mkIKNodeSegment None None (of_Z 0)) None.



(** *** A leg far from the origin

    Node 1 carries the leg solver; its children are the bones "Thigh" (7),
    "Calf" (8), "Heel" (9), "Toe" (10) and the target "FootTarget" (11). The
    heel, the toe and the target are at x = 2^24, where the spacing of
    binary32 numbers is 2; the thigh is 4 further along x. *)






(** Chains without segments, for the solvers that have no chain of nodes. *)
Definition noSegments : IKNodeChain -> list IKNodeSegment := fun _ => [].

End Run.

(** * The OpenXR integration ([XR.cpp]) *)

Module XR.

(** ** Build configuration *)

(** The preprocessor switches the file is compiled under. *)
Record BuildConfig := mkBuildConfig {
  URHO3D_OCULUS_QUEST : bool;
  D3D11_SUPPORTED : bool;
  D3D12_SUPPORTED : bool;
  VULKAN_SUPPORTED : bool;
  GLES_SUPPORTED : bool;
  GL_SUPPORTED : bool
}.

Inductive RenderBackend := D3D11 | D3D12 | OpenGL | Vulkan.

Definition IsNativeOculusQuest2 (build : BuildConfig) : bool := URHO3D_OCULUS_QUEST build.

(** ** Extensions *)

(** [CharToLower] of EASTL, on ASCII. *)
Definition CharToLower (c : Ascii.ascii) : Ascii.ascii :=
  let n := Ascii.nat_of_ascii c in
  if (65 <=? n)%nat && (n <=? 90)%nat then Ascii.ascii_of_nat (n + 32) else c.

(** [ea::string::comparei]: the first pair of characters that differ after
    lower-casing decides, then the lengths. *)
Fixpoint comparei (a b : string) : Z :=
  match a, b with
  | String.EmptyString, String.EmptyString => 0
  | String.EmptyString, String.String _ _ => -1
  | String.String _ _, String.EmptyString => 1
  | String.String x a', String.String y b' =>
      let x' := CharToLower x in
      let y' := CharToLower y in
      if Ascii.eqb x' y' then comparei a' b'
      else if (Ascii.nat_of_ascii x' <? Ascii.nat_of_ascii y')%nat then -1 else 1
  end%Z.

(** What is read through a [const char*], such as the one [c_str()] returns:
    the characters before the first NUL. *)
Fixpoint c_str (s : string) : string :=
  match s with
  | String.EmptyString => String.EmptyString
  | String.String c rest =>
      if Ascii.eqb c Ascii.zero then String.EmptyString else String.String c (c_str rest)
  end.

(** [name] is a [const char*]: [comparei] compares the whole of [ext] with
    the characters of [name] before its first NUL. *)
Fixpoint IsExtensionSupported (extensions : list string) (name : string) : bool :=
  match extensions with
  | [] => false
  | ext :: rest =>
      if (comparei ext (c_str name) =? 0)%Z then true else IsExtensionSupported rest name
  end.

(** Returns the flag and the [result] vector after the call; [push_back]
    makes a string of the characters of [name] before its first NUL. *)
Definition ActivateOptionalExtension (result extensions : list string) (name : string)
    : bool * list string :=
  if IsExtensionSupported extensions name
  then (true, result ++ [c_str name])
  else (false, result).

(** Extension names of [openxr.h]. *)
Definition XR_KHR_D3D11_ENABLE_EXTENSION_NAME : string := "XR_KHR_D3D11_enable".
Definition XR_KHR_D3D12_ENABLE_EXTENSION_NAME : string := "XR_KHR_D3D12_enable".
Definition XR_KHR_VULKAN_ENABLE_EXTENSION_NAME : string := "XR_KHR_vulkan_enable".
Definition XR_KHR_OPENGL_ES_ENABLE_EXTENSION_NAME : string := "XR_KHR_opengl_es_enable".
Definition XR_KHR_OPENGL_ENABLE_EXTENSION_NAME : string := "XR_KHR_opengl_enable".
Definition XR_EXT_DEBUG_UTILS_EXTENSION_NAME : string := "XR_EXT_debug_utils".
Definition XR_KHR_VISIBILITY_MASK_EXTENSION_NAME : string := "XR_KHR_visibility_mask".
Definition XR_MSFT_CONTROLLER_MODEL_EXTENSION_NAME : string := "XR_MSFT_controller_model".
Definition XR_KHR_COMPOSITION_LAYER_DEPTH_EXTENSION_NAME : string :=
  "XR_KHR_composition_layer_depth".
Definition XR_HTC_VIVE_COSMOS_CONTROLLER_INTERACTION_EXTENSION_NAME : string :=
  "XR_HTC_vive_cosmos_controller_interaction".
Definition XR_HTC_VIVE_FOCUS3_CONTROLLER_INTERACTION_EXTENSION_NAME : string :=
  "XR_HTC_vive_focus3_controller_interaction".
Definition XR_EXT_HP_MIXED_REALITY_CONTROLLER_EXTENSION_NAME : string :=
  "XR_EXT_hp_mixed_reality_controller".
Definition XR_EXT_SAMSUNG_ODYSSEY_CONTROLLER_EXTENSION_NAME : string :=
  "XR_EXT_samsung_odyssey_controller".

(** The [switch] under the preprocessor: a [case] that is compiled out falls
    to [default]. *)
Definition GetBackendExtensionName (build : BuildConfig) (backend : RenderBackend) : string :=
  match backend with
  | D3D11 => if D3D11_SUPPORTED build then XR_KHR_D3D11_ENABLE_EXTENSION_NAME else ""
  | D3D12 => if D3D12_SUPPORTED build then XR_KHR_D3D12_ENABLE_EXTENSION_NAME else ""
  | Vulkan => if VULKAN_SUPPORTED build then XR_KHR_VULKAN_ENABLE_EXTENSION_NAME else ""
  | OpenGL =>
      if GLES_SUPPORTED build then XR_KHR_OPENGL_ES_ENABLE_EXTENSION_NAME
      else if GL_SUPPORTED build then XR_KHR_OPENGL_ENABLE_EXTENSION_NAME
      else ""
  end.

Record Features := mkFeatures {
  debugOutput_ : bool;
  visibilityMask_ : bool;
  controllerModel_ : bool;
  depthLayer_ : bool
}.

(** The optional extensions [InitializeActiveExtensions] asks for itself, in
    the order of its calls. *)
Definition engineExtensions : list string :=
  [XR_EXT_DEBUG_UTILS_EXTENSION_NAME; XR_KHR_VISIBILITY_MASK_EXTENSION_NAME;
   XR_MSFT_CONTROLLER_MODEL_EXTENSION_NAME; XR_KHR_COMPOSITION_LAYER_DEPTH_EXTENSION_NAME;
   XR_HTC_VIVE_COSMOS_CONTROLLER_INTERACTION_EXTENSION_NAME;
   XR_HTC_VIVE_FOCUS3_CONTROLLER_INTERACTION_EXTENSION_NAME;
   XR_EXT_HP_MIXED_REALITY_CONTROLLER_EXTENSION_NAME;
   XR_EXT_SAMSUNG_ODYSSEY_CONTROLLER_EXTENSION_NAME].

(** [OpenXR::InitializeActiveExtensions]: from [supportedExtensions_] and
    [userExtensions_] to [features_] and [activeExtensions_]. The names of
    [openxr.h] are literals without a NUL; a user extension is passed as
    [extension.c_str()]. *)
Definition InitializeActiveExtensions (build : BuildConfig) (backend : RenderBackend)
    (supportedExtensions_ userExtensions_ : list string) : Features * list string :=
  let active0 := [GetBackendExtensionName build backend] in
  let '(debugOutput, active1) :=
    ActivateOptionalExtension active0 supportedExtensions_ XR_EXT_DEBUG_UTILS_EXTENSION_NAME in
  let '(visibilityMask, active2) :=
    ActivateOptionalExtension active1 supportedExtensions_
      XR_KHR_VISIBILITY_MASK_EXTENSION_NAME in
  let '(controllerModel, active3) :=
    ActivateOptionalExtension active2 supportedExtensions_
      XR_MSFT_CONTROLLER_MODEL_EXTENSION_NAME in
  let '(depthLayer, active4) :=
    ActivateOptionalExtension active3 supportedExtensions_
      XR_KHR_COMPOSITION_LAYER_DEPTH_EXTENSION_NAME in
  let active5 :=
    (ActivateOptionalExtension active4 supportedExtensions_
       XR_HTC_VIVE_COSMOS_CONTROLLER_INTERACTION_EXTENSION_NAME).2 in
  let active6 :=
    (ActivateOptionalExtension active5 supportedExtensions_
       XR_HTC_VIVE_FOCUS3_CONTROLLER_INTERACTION_EXTENSION_NAME).2 in
  let active7 :=
    (ActivateOptionalExtension active6 supportedExtensions_
       XR_EXT_HP_MIXED_REALITY_CONTROLLER_EXTENSION_NAME).2 in
  let active8 :=
    (ActivateOptionalExtension active7 supportedExtensions_
       XR_EXT_SAMSUNG_ODYSSEY_CONTROLLER_EXTENSION_NAME).2 in
  let active :=
    foldl (fun active extension =>
             (ActivateOptionalExtension active supportedExtensions_ (c_str extension)).2)
          active8 userExtensions_ in
  (mkFeatures debugOutput visibilityMask controllerModel depthLayer, active).


(** ** System initialization *)

(** Handles and enumerations of [openxr.h]. *)
Definition XrInstance := positive.
Definition XrSystemId := Z.
Definition XrDebugUtilsMessengerEXT := positive.
Definition XrEnvironmentBlendMode := Z.
Definition XrViewConfigurationType := Z.
Definition XR_VIEW_CONFIGURATION_TYPE_PRIMARY_STEREO : XrViewConfigurationType := 2%Z.

(** The fields of [XrViewConfigurationView] that are read, all [uint32_t]. *)
Record XrViewConfigurationView := mkXrViewConfigurationView {
  recommendedImageRectWidth : Z;
  recommendedImageRectHeight : Z;
  recommendedSwapchainSampleCount : Z
}.

Record IntVector2 := mkIntVector2 { x_ : Z; y_ : Z }.

(** A [uint32_t] stored in an [int]. *)
Definition to_int (n : Z) : Z := ((n + 2 ^ 31) mod 2 ^ 32 - 2 ^ 31)%Z.

Record Tweaks := mkTweaks {
  orientation_ : option string;
  vulkanInstanceExtensions_ : list string;
  vulkanDeviceExtensions_ : list string
}.

(** What the OpenXR runtime answers to the helper functions of the anonymous
    namespace, and the application name held by the engine. *)
Record Runtime := mkRuntime {
  EnumerateExtensionsXR : list string;
  CreateInstanceXR : list string -> string -> string -> option XrInstance;
  CreateDebugMessengerXR : XrInstance -> option XrDebugUtilsMessengerEXT;
  GetSystemXR : XrInstance -> option XrSystemId;
  GetSystemNameXR : XrInstance -> XrSystemId -> string;
  GetBlendModesXR : XrInstance -> XrSystemId -> list XrEnvironmentBlendMode;
  GetViewConfigurationsXR : XrInstance -> XrSystemId -> list XrViewConfigurationType;
  xrEnumerateViewConfigurationViews :
    XrInstance -> XrSystemId -> option (XrViewConfigurationView * XrViewConfigurationView);
  GetVulkanInstanceExtensionsXR : XrInstance -> XrSystemId -> list string;
  GetVulkanDeviceExtensionsXR : XrInstance -> XrSystemId -> list string;
  applicationName : string
}.

(** Two views on success, none on failure. *)
Definition GetViewConfigurationViewsXR (runtime : Runtime) (instance : XrInstance)
    (system : XrSystemId) : list XrViewConfigurationView :=
  match xrEnumerateViewConfigurationViews runtime instance system with
  | Some (leftView, rightView) => [leftView; rightView]
  | None => []
  end.

(** The members of [OpenXR] that [InitializeSystem] reads or writes. *)
Record OpenXR := mkOpenXR {
  instance_ : option XrInstance;
  supportedExtensions_ : list string;
  activeExtensions_ : list string;
  userExtensions_ : list string;
  features_ : Features;
  debugMessenger_ : option XrDebugUtilsMessengerEXT;
  system_ : XrSystemId;
  systemName_ : string;
  blendMode_ : XrEnvironmentBlendMode;
  recommendedMultiSample_ : Z;
  recommendedEyeTextureSize_ : IntVector2;
  tweaks_ : Tweaks
}.

Definition setSupportedExtensions (v : list string) (this : OpenXR) : OpenXR :=
  mkOpenXR (instance_ this) v (activeExtensions_ this) (userExtensions_ this)
    (features_ this) (debugMessenger_ this) (system_ this) (systemName_ this)
    (blendMode_ this) (recommendedMultiSample_ this) (recommendedEyeTextureSize_ this)
    (tweaks_ this).

Definition setActiveExtensions (f : Features) (v : list string) (this : OpenXR) : OpenXR :=
  mkOpenXR (instance_ this) (supportedExtensions_ this) v (userExtensions_ this)
    f (debugMessenger_ this) (system_ this) (systemName_ this)
    (blendMode_ this) (recommendedMultiSample_ this) (recommendedEyeTextureSize_ this)
    (tweaks_ this).

Definition setInstance (v : option XrInstance) (this : OpenXR) : OpenXR :=
  mkOpenXR v (supportedExtensions_ this) (activeExtensions_ this) (userExtensions_ this)
    (features_ this) (debugMessenger_ this) (system_ this) (systemName_ this)
    (blendMode_ this) (recommendedMultiSample_ this) (recommendedEyeTextureSize_ this)
    (tweaks_ this).

Definition setDebugMessenger (v : option XrDebugUtilsMessengerEXT) (this : OpenXR) : OpenXR :=
  mkOpenXR (instance_ this) (supportedExtensions_ this) (activeExtensions_ this)
    (userExtensions_ this) (features_ this) v (system_ this) (systemName_ this)
    (blendMode_ this) (recommendedMultiSample_ this) (recommendedEyeTextureSize_ this)
    (tweaks_ this).

Definition setSystem (v : XrSystemId) (name : string) (this : OpenXR) : OpenXR :=
  mkOpenXR (instance_ this) (supportedExtensions_ this) (activeExtensions_ this)
    (userExtensions_ this) (features_ this) (debugMessenger_ this) v name
    (blendMode_ this) (recommendedMultiSample_ this) (recommendedEyeTextureSize_ this)
    (tweaks_ this).

Definition setBlendMode (v : XrEnvironmentBlendMode) (this : OpenXR) : OpenXR :=
  mkOpenXR (instance_ this) (supportedExtensions_ this) (activeExtensions_ this)
    (userExtensions_ this) (features_ this) (debugMessenger_ this) (system_ this)
    (systemName_ this) v (recommendedMultiSample_ this) (recommendedEyeTextureSize_ this)
    (tweaks_ this).

Definition setRecommended (multiSample : Z) (size : IntVector2) (this : OpenXR) : OpenXR :=
  mkOpenXR (instance_ this) (supportedExtensions_ this) (activeExtensions_ this)
    (userExtensions_ this) (features_ this) (debugMessenger_ this) (system_ this)
    (systemName_ this) (blendMode_ this) multiSample size (tweaks_ this).

Definition setTweaks (v : Tweaks) (this : OpenXR) : OpenXR :=
  mkOpenXR (instance_ this) (supportedExtensions_ this) (activeExtensions_ this)
    (userExtensions_ this) (features_ this) (debugMessenger_ this) (system_ this)
    (systemName_ this) (blendMode_ this) (recommendedMultiSample_ this)
    (recommendedEyeTextureSize_ this) v.

(** [OpenXR::InitializeTweaks]; it returns [true] on every path. *)
Definition InitializeTweaks (build : BuildConfig) (runtime : Runtime)
    (backend : RenderBackend) (instance : XrInstance) (this : OpenXR) : bool * OpenXR :=
  let tweaks1 :=
    if IsNativeOculusQuest2 build
    then mkTweaks (Some "LandscapeRight"%string)
           (vulkanInstanceExtensions_ (tweaks_ this)) (vulkanDeviceExtensions_ (tweaks_ this))
    else tweaks_ this in
  match backend with
  | Vulkan =>
      if VULKAN_SUPPORTED build
      then (true,
            setTweaks (mkTweaks (orientation_ tweaks1)
                         (GetVulkanInstanceExtensionsXR runtime instance (system_ this))
                         (GetVulkanDeviceExtensionsXR runtime instance (system_ this)))
              this)
      else (true, setTweaks tweaks1 this)
  | _ => (true, setTweaks tweaks1 this)
  end.

(** [ea::min] on integers. *)
Definition ea_min_int (a b : Z) : Z := if (b <? a)%Z then b else a.

(** [OpenXR::InitializeSystem]. *)
Definition InitializeSystem (build : BuildConfig) (runtime : Runtime)
    (backend : RenderBackend) (this : OpenXR) : bool * OpenXR :=
  match instance_ this with
  | Some _ => (false, this)
  | None =>
      let this1 := setSupportedExtensions (EnumerateExtensionsXR runtime) this in
      if negb (IsExtensionSupported (supportedExtensions_ this1)
                 (GetBackendExtensionName build backend))
      then (false, this1)
      else
        let '(features, active) :=
          InitializeActiveExtensions build backend (supportedExtensions_ this1)
            (userExtensions_ this1) in
        let this2 := setActiveExtensions features active this1 in
        let engineName := "Rebel Fork of Urho3D"%string in
        let this3 :=
          setInstance (CreateInstanceXR runtime (activeExtensions_ this2) engineName
                         (applicationName runtime)) this2 in
        match instance_ this3 with
        | None => (false, this3)
        | Some instance =>
            let this4 :=
              if debugOutput_ (features_ this3)
              then setDebugMessenger (CreateDebugMessengerXR runtime instance) this3
              else this3 in
            match GetSystemXR runtime instance with
            | None => (false, this4)
            | Some systemId =>
                let this5 :=
                  setSystem systemId (GetSystemNameXR runtime instance systemId) this4 in
                match GetBlendModesXR runtime instance (system_ this5) with
                | [] => (false, this5)
                | firstMode :: _ =>
                    let this6 := setBlendMode firstMode this5 in
                    let viewConfigurations :=
                      GetViewConfigurationsXR runtime instance (system_ this6) in
                    if negb (bool_decide (XR_VIEW_CONFIGURATION_TYPE_PRIMARY_STEREO
                                            ∈ viewConfigurations))
                    then (false, this6)
                    else
                      let views :=
                        GetViewConfigurationViewsXR runtime instance (system_ this6) in
                      match views with
                      | [] => (false, this6)
                      | leftView :: _ =>
                          (* views[VR_EYE_RIGHT]: the vector has two elements when it
                             is not empty *)
                          let rightView := nth 1 views leftView in
                          let this7 :=
                            setRecommended (recommendedSwapchainSampleCount leftView)
                              (mkIntVector2
                                 (to_int (ea_min_int (recommendedImageRectWidth leftView)
                                            (recommendedImageRectWidth rightView)))
                                 (to_int (ea_min_int (recommendedImageRectHeight leftView)
                                            (recommendedImageRectHeight rightView))))
                              this6 in
                          InitializeTweaks build runtime backend instance this7
                      end
                end
            end
        end
  end.

(** ** Swap chain formats *)

(** The texture-format utilities of the render API, which this file only
    calls; [TextureFormat] is an enumeration, compared with [==]. *)
Class RenderAPIUtils (TextureFormat : Type) := {
  TextureFormat_eq_dec :: EqDecision TextureFormat;
  TEX_FORMAT_UNKNOWN : TextureFormat;
  TEX_FORMAT_D16_UNORM : TextureFormat;
  GetTextureFormatFromInternal : RenderBackend -> Z -> TextureFormat;
  SetTextureFormatSRGB : TextureFormat -> bool -> TextureFormat;
  IsTextureFormatSRGB : TextureFormat -> bool;
  IsColorTextureFormat : TextureFormat -> bool;
  IsDepthTextureFormat : TextureFormat -> bool
}.

Section Formats.
Context {TextureFormat : Type} `{RenderAPIUtils TextureFormat}.

(** Try to use sRGB texture formats whenever possible, i.e. linear output. *)
Definition IsFallbackColorFormat (format : TextureFormat) : bool :=
  negb (bool_decide (SetTextureFormatSRGB format true = format)).

(** 16-bit depth is just not enough. *)
Definition IsFallbackDepthFormat (format : TextureFormat) : bool :=
  bool_decide (format = TEX_FORMAT_D16_UNORM).

(** A format the colour scan can return: a colour format, and not an sRGB
    one on the Quest. *)
Definition usableColor (build : BuildConfig) (format : TextureFormat) : Prop :=
  IsColorTextureFormat format = true /\
  IsNativeOculusQuest2 build && IsTextureFormatSRGB format = false.

(** The inner loop of [SelectColorFormat] for one value of [fallback]:
    the pair it returns from, or [None] when it runs to its end. *)
Fixpoint ScanColorFormats (build : BuildConfig) (backend : RenderBackend) (fallback : bool)
    (formats : list Z) : option (TextureFormat * Z) :=
  match formats with
  | [] => None
  | internalFormat :: rest =>
      let textureFormat := GetTextureFormatFromInternal backend internalFormat in
      if IsNativeOculusQuest2 build && IsTextureFormatSRGB textureFormat
      then ScanColorFormats build backend fallback rest
      else if IsColorTextureFormat textureFormat
              && Bool.eqb (IsFallbackColorFormat textureFormat) fallback
      then Some (textureFormat, internalFormat)
      else ScanColorFormats build backend fallback rest
  end.

(** The outer loop, over [{false, true}]. *)
Fixpoint SelectColorFormatIn (build : BuildConfig) (backend : RenderBackend)
    (passes : list bool) (formats : list Z) : TextureFormat * Z :=
  match passes with
  | [] => (TEX_FORMAT_UNKNOWN, 0%Z)
  | fallback :: rest =>
      match ScanColorFormats build backend fallback formats with
      | Some selected => selected
      | None => SelectColorFormatIn build backend rest formats
      end
  end.

Definition SelectColorFormat (build : BuildConfig) (backend : RenderBackend)
    (formats : list Z) : TextureFormat * Z :=
  SelectColorFormatIn build backend [false; true] formats.

Fixpoint ScanDepthFormats (backend : RenderBackend) (fallback : bool)
    (formats : list Z) : option (TextureFormat * Z) :=
  match formats with
  | [] => None
  | internalFormat :: rest =>
      let textureFormat := GetTextureFormatFromInternal backend internalFormat in
      if IsDepthTextureFormat textureFormat
         && Bool.eqb (IsFallbackDepthFormat textureFormat) fallback
      then Some (textureFormat, internalFormat)
      else ScanDepthFormats backend fallback rest
  end.

Fixpoint SelectDepthFormatIn (backend : RenderBackend)
    (passes : list bool) (formats : list Z) : TextureFormat * Z :=
  match passes with
  | [] => (TEX_FORMAT_UNKNOWN, 0%Z)
  | fallback :: rest =>
      match ScanDepthFormats backend fallback formats with
      | Some selected => selected
      | None => SelectDepthFormatIn backend rest formats
      end
  end.

(** Oculus Quest 2 returns non-framebuffer-compatible depth formats. *)
Definition SelectDepthFormat (build : BuildConfig) (backend : RenderBackend)
    (formats : list Z) : TextureFormat * Z :=
  if negb (IsNativeOculusQuest2 build)
  then SelectDepthFormatIn backend [false; true] formats
  else (TEX_FORMAT_UNKNOWN, 0%Z).

End Formats.

(** ** Action bindings *)

(** [VariantType] of the engine. *)
Inductive VariantType :=
| VAR_NONE | VAR_INT | VAR_BOOL | VAR_FLOAT | VAR_VECTOR2 | VAR_VECTOR3 | VAR_VECTOR4
| VAR_QUATERNION | VAR_COLOR | VAR_STRING | VAR_BUFFER | VAR_VOIDPTR | VAR_RESOURCEREF
| VAR_RESOURCEREFLIST | VAR_VARIANTVECTOR | VAR_VARIANTMAP | VAR_INTRECT | VAR_INTVECTOR2
| VAR_PTR | VAR_MATRIX3 | VAR_MATRIX3X4 | VAR_MATRIX4 | VAR_DOUBLE | VAR_STRINGVECTOR
| VAR_RECT | VAR_INTVECTOR3 | VAR_INT64 | VAR_CUSTOM | VAR_VARIANTCURVE
| VAR_STRINGVARIANTMAP.

(** [XrActionType] of [openxr.h]. *)
Inductive XrActionType :=
| XR_ACTION_TYPE_BOOLEAN_INPUT
| XR_ACTION_TYPE_FLOAT_INPUT
| XR_ACTION_TYPE_VECTOR2F_INPUT
| XR_ACTION_TYPE_POSE_INPUT
| XR_ACTION_TYPE_VIBRATION_OUTPUT.

Definition ParseBindingType (type : string) : option VariantType :=
  if String.eqb type "boolean" then Some VAR_BOOL
  else if String.eqb type "vector1" || String.eqb type "single" then Some VAR_FLOAT
  else if String.eqb type "vector2" then Some VAR_VECTOR2
  else if String.eqb type "vector3" then Some VAR_VECTOR3
  else if String.eqb type "pose" then Some VAR_MATRIX3X4
  else if String.eqb type "haptic" then Some VAR_NONE
  else None.

(** The action type, and whether [URHO3D_ASSERT(false)] of the [default]
    label was reached on the way. *)
Definition ToActionType (type : VariantType) : XrActionType * bool :=
  match type with
  | VAR_BOOL => (XR_ACTION_TYPE_BOOLEAN_INPUT, false)
  | VAR_FLOAT => (XR_ACTION_TYPE_FLOAT_INPUT, false)
  | VAR_VECTOR2 => (XR_ACTION_TYPE_VECTOR2F_INPUT, false)
  | VAR_VECTOR3 => (XR_ACTION_TYPE_POSE_INPUT, false)
  | VAR_MATRIX3X4 => (XR_ACTION_TYPE_POSE_INPUT, false)
  | VAR_NONE => (XR_ACTION_TYPE_VIBRATION_OUTPUT, false)
  | _ => (XR_ACTION_TYPE_BOOLEAN_INPUT, true)
  end.

(** ** Debug messages *)

(** Severity bits of [XrDebugUtilsMessageSeverityFlagsEXT]. *)
Definition XR_DEBUG_UTILS_MESSAGE_SEVERITY_VERBOSE_BIT_EXT : Z := 0x00000001.
Definition XR_DEBUG_UTILS_MESSAGE_SEVERITY_INFO_BIT_EXT : Z := 0x00000010.
Definition XR_DEBUG_UTILS_MESSAGE_SEVERITY_WARNING_BIT_EXT : Z := 0x00000100.
Definition XR_DEBUG_UTILS_MESSAGE_SEVERITY_ERROR_BIT_EXT : Z := 0x00001000.

Inductive LogLevel := LOG_DEBUG | LOG_INFO | LOG_WARNING | LOG_ERROR.

(** [severity & bit] as a condition. *)
Definition hasBit (severity bit : Z) : bool := negb (Z.land severity bit =? 0)%Z.

(** The level the message is logged at, if it is logged, and the value
    returned to the runtime. *)
Definition DebugMessageLoggerXR (severity : Z) : option LogLevel * bool :=
  (if hasBit severity XR_DEBUG_UTILS_MESSAGE_SEVERITY_ERROR_BIT_EXT then Some LOG_ERROR
   else if hasBit severity XR_DEBUG_UTILS_MESSAGE_SEVERITY_WARNING_BIT_EXT then Some LOG_WARNING
   else if hasBit severity XR_DEBUG_UTILS_MESSAGE_SEVERITY_INFO_BIT_EXT then Some LOG_INFO
   else if hasBit severity XR_DEBUG_UTILS_MESSAGE_SEVERITY_INFO_BIT_EXT then Some LOG_DEBUG
   else None,
   false).

(** The severities [CreateDebugMessengerXR] subscribes to. *)
Definition messageSeverities : Z :=
  Z.lor (Z.lor (Z.lor XR_DEBUG_UTILS_MESSAGE_SEVERITY_VERBOSE_BIT_EXT
                  XR_DEBUG_UTILS_MESSAGE_SEVERITY_INFO_BIT_EXT)
           XR_DEBUG_UTILS_MESSAGE_SEVERITY_WARNING_BIT_EXT)
    XR_DEBUG_UTILS_MESSAGE_SEVERITY_ERROR_BIT_EXT.

(** ** Session events *)

Inductive XrSessionState :=
| XR_SESSION_STATE_UNKNOWN
| XR_SESSION_STATE_IDLE
| XR_SESSION_STATE_READY
| XR_SESSION_STATE_SYNCHRONIZED
| XR_SESSION_STATE_VISIBLE
| XR_SESSION_STATE_FOCUSED
| XR_SESSION_STATE_STOPPING
| XR_SESSION_STATE_LOSS_PENDING
| XR_SESSION_STATE_EXITING.

(** An event returned by [xrPollEvent], by the [type] of its buffer; a
    change to the ready state comes with the result [xrBeginSession] will
    give, [true] for [XR_SUCCESS]. *)
Inductive XrEvent :=
| XR_TYPE_EVENT_DATA_VISIBILITY_MASK_CHANGED_KHR
| XR_TYPE_EVENT_DATA_INSTANCE_LOSS_PENDING
| XR_TYPE_EVENT_DATA_INTERACTION_PROFILE_CHANGED
| XR_TYPE_EVENT_DATA_SESSION_STATE_CHANGED (state : XrSessionState) (beginSession : bool)
| XR_TYPE_EVENT_DATA_OTHER.

(** What the handling of an event does besides setting [sessionLive_]. *)
Inductive Effect :=
| GetHiddenAreaMask
| UpdateBindingBound
| xrBeginSession
| xrEndSession
| SendEvent (eventType : string).

Definition E_VREXIT : string := "VRExit".
Definition E_VRINTERACTIONPROFILECHANGED : string := "VRInteractionProfileChanged".
Definition E_VRSESSIONSTART : string := "VRSessionStart".
Definition E_VRPAUSE : string := "VRPause".
Definition E_VRRESUME : string := "VRResume".

(** The body of the polling loop of [OpenXR::HandlePreUpdate]: the new value
    of [sessionLive_] and the effects, in order. *)
Definition HandleEvent (sessionLive_ : bool) (event : XrEvent) : bool * list Effect :=
  match event with
  | XR_TYPE_EVENT_DATA_VISIBILITY_MASK_CHANGED_KHR => (sessionLive_, [GetHiddenAreaMask])
  | XR_TYPE_EVENT_DATA_INSTANCE_LOSS_PENDING => (false, [SendEvent E_VREXIT])
  | XR_TYPE_EVENT_DATA_INTERACTION_PROFILE_CHANGED =>
      (sessionLive_, [UpdateBindingBound; SendEvent E_VRINTERACTIONPROFILECHANGED])
  | XR_TYPE_EVENT_DATA_SESSION_STATE_CHANGED state beginSession =>
      match state with
      | XR_SESSION_STATE_READY =>
          if beginSession then (true, [xrBeginSession])
          else (false, [xrBeginSession; SendEvent E_VRSESSIONSTART])
      | XR_SESSION_STATE_IDLE => (false, [SendEvent E_VRPAUSE])
      | XR_SESSION_STATE_FOCUSED => (true, [SendEvent E_VRRESUME])
      | XR_SESSION_STATE_STOPPING => (false, [xrEndSession])
      | XR_SESSION_STATE_EXITING | XR_SESSION_STATE_LOSS_PENDING =>
          (false, [SendEvent E_VREXIT])
      | _ => (sessionLive_, [])
      end
  | XR_TYPE_EVENT_DATA_OTHER => (sessionLive_, [])
  end.

(** The polling loop over the events the runtime has queued. *)
Definition PollEvents (sessionLive_ : bool) (events : list XrEvent) : bool * list Effect :=
  foldl (fun state event =>
           let '(live, effects) := HandleEvent state.1 event in
           (live, state.2 ++ effects))
        (sessionLive_, []) events.

(** ** The radial mesh of the hidden-area mask *)

(** A value stored in an [unsigned short]. *)
Definition to_ushort (n : Z) : Z := (n mod 2 ^ 16)%Z.

(** "turn the line loop into a fan": the loop over [indices] that fills
    [newIndices], where [vertexCount] is [vtxData.size()] after the centroid
    was pushed. An index read out of range is [None]. *)
Definition FanIndices (vertexCount : Z) (indices : list Z) : option (list Z) :=
  triangles ←
    mapM (fun i : nat =>
            me ← indices !! i;
            next ← indices !! ((i + 1) mod length indices)%nat;
            Some [to_ushort (vertexCount - 1); to_ushort me; to_ushort next])
         (seq 0 (length indices));
  Some (concat triangles).

End XR.

(** ** A runtime and a render API, for running the model *)

Module XRSample.

(** A desktop build with Vulkan only. *)
Definition build : XR.BuildConfig := XR.mkBuildConfig false false false true false false.

Definition view (width height : Z) : XR.XrViewConfigurationView :=
  XR.mkXrViewConfigurationView width height 1.

(** A runtime with one head-mounted system; it lists the Vulkan extension in
    capitals. *)
Definition runtime : XR.Runtime :=
  XR.mkRuntime
    ["XR_KHR_VULKAN_ENABLE"; "XR_EXT_debug_utils"; "XR_KHR_composition_layer_depth"]%string
    (fun _ _ _ => Some 1%positive)
    (fun _ => Some 2%positive)
    (fun _ => Some 7%Z)
    (fun _ _ => "Headset"%string)
    (fun _ _ => [1%Z])
    (fun _ _ => [1%Z; 2%Z])
    (fun _ _ => Some (view 2016 2240, view 2000 2300))
    (fun _ _ => ["VK_KHR_external_memory"%string])
    (fun _ _ => ["VK_KHR_swapchain"%string])
    "Demo"%string.

(** The same runtime with no headset attached. *)
Definition runtimeWithoutSystem : XR.Runtime :=
  XR.mkRuntime (XR.EnumerateExtensionsXR runtime) (XR.CreateInstanceXR runtime)
    (XR.CreateDebugMessengerXR runtime) (fun _ => None) (XR.GetSystemNameXR runtime)
    (XR.GetBlendModesXR runtime) (XR.GetViewConfigurationsXR runtime)
    (XR.xrEnumerateViewConfigurationViews runtime)
    (XR.GetVulkanInstanceExtensionsXR runtime) (XR.GetVulkanDeviceExtensionsXR runtime)
    (XR.applicationName runtime).

(** [OpenXR] as constructed, with one extension asked for by the user. *)
Definition constructed : XR.OpenXR :=
  XR.mkOpenXR None [] [] ["XR_FB_passthrough"%string] (XR.mkFeatures false false false false)
    None 0%Z ""%string 0%Z 0%Z (XR.mkIntVector2 0 0) (XR.mkTweaks None [] []).

(** [OpenXR] with two extensions asked for by the user, the second with a
    NUL character inside its name. *)
Definition constructedWithCutName : XR.OpenXR :=
  XR.mkOpenXR None [] []
    ["XR_FB_passthrough"; "XR_EXT_debug_utils" +:+ String.String Ascii.zero "_v2"]%string
    (XR.mkFeatures false false false false)
    None 0%Z ""%string 0%Z 0%Z (XR.mkIntVector2 0 0) (XR.mkTweaks None [] []).

(** Five texture formats, and the Vulkan format numbers of four of them. *)
Inductive Format := UNKNOWN | RGBA8_UNORM | RGBA8_UNORM_SRGB | D16_UNORM | D32_FLOAT.

#[export] Instance Format_eq_dec : EqDecision Format.
Proof. solve_decision. Defined.

#[export] Instance Formats : XR.RenderAPIUtils Format := {|
  XR.TEX_FORMAT_UNKNOWN := UNKNOWN;
  XR.TEX_FORMAT_D16_UNORM := D16_UNORM;
  XR.GetTextureFormatFromInternal _ internalFormat :=
    if (internalFormat =? 37)%Z then RGBA8_UNORM
    else if (internalFormat =? 43)%Z then RGBA8_UNORM_SRGB
    else if (internalFormat =? 124)%Z then D16_UNORM
    else if (internalFormat =? 126)%Z then D32_FLOAT
    else UNKNOWN;
  XR.SetTextureFormatSRGB format srgb :=
    match format, srgb with
    | RGBA8_UNORM, true => RGBA8_UNORM_SRGB
    | RGBA8_UNORM_SRGB, false => RGBA8_UNORM
    | _, _ => format
    end;
  XR.IsTextureFormatSRGB format :=
    match format with RGBA8_UNORM_SRGB => true | _ => false end;
  XR.IsColorTextureFormat format :=
    match format with RGBA8_UNORM | RGBA8_UNORM_SRGB => true | _ => false end;
  XR.IsDepthTextureFormat format :=
    match format with D16_UNORM | D32_FLOAT => true | _ => false end
|}.

End XRSample.

(** * Properties *)

Import IKSolverComponentOps SolverComponentOps.

(** ** Comparison of binary32 numbers *)

Lemma SFcompare_antisym (x y : float) (c : comparison) :
  SFcompare x y = Some c -> SFcompare y x = Some (CompOpp c).
Proof.
  destruct x as [sx|sx| |sx mx ex], y as [sy|sy| |sy my ey]; simpl;
    try discriminate;
    try (destruct sx); try (destruct sy); simpl;
    intros [= <-]; try reflexivity;
    change (Pos.compare_cont Eq my mx) with (Pos.compare my mx);
    change (Pos.compare_cont Eq mx my) with (Pos.compare mx my);
    rewrite (Z.compare_antisym ex ey), (Pos.compare_antisym mx my);
    destruct (ex ?= ey)%Z; simpl; try reflexivity.
Qed.

Lemma SFcompare_refl (x : float) : is_nan x = false -> SFcompare x x = Some Eq.
Proof.
  destruct x as [s|s| |s m e]; simpl; try discriminate; intros _;
    try (destruct s; reflexivity).
  destruct s; rewrite Z.compare_refl, Pos.compare_cont_refl; reflexivity.
Qed.

Lemma SFcompare_is_Some (x y : float) :
  is_nan x = false -> is_nan y = false -> exists c, SFcompare x y = Some c.
Proof.
  destruct x as [sx|sx| |sx mx ex], y as [sy|sy| |sy my ey]; simpl;
    try discriminate; intros _ _; eauto.
Qed.

(** [ea::min(x, m)] is at most [m] unless it is a NaN. *)
Lemma ea_min_le (x m : float) :
  is_nan m = false -> is_nan (ea_min x m) = false -> (ea_min x m <=? m)%f32 = true.
Proof.
  unfold ea_min, flt, fle, SFltb, SFleb. intros Hm.
  destruct (SFcompare m x) as [c|] eqn:Hc.
  - destruct c; intros Hr.
    + apply SFcompare_antisym in Hc. now rewrite Hc.
    + now rewrite (SFcompare_refl m Hm).
    + apply SFcompare_antisym in Hc. now rewrite Hc.
  - intros Hx. destruct (SFcompare_is_Some m x Hm Hx) as [c Hc']. congruence.
Qed.

(** [ea::min(x, m)] is a NaN exactly when [x] is, for a number [m]. *)
Lemma ea_min_nan (x m : float) :
  is_nan m = false -> is_nan (ea_min x m) = is_nan x.
Proof.
  unfold ea_min, flt, SFltb. intros Hm.
  destruct (SFcompare m x) as [[]|] eqn:Hc; try reflexivity.
  rewrite Hm. destruct x; try reflexivity. destruct m; discriminate.
Qed.

(** A finite number minus itself is +0. *)
Lemma fsub_diag (x : float) : is_finite x = true -> (x - x)%f32 = S754_zero false.
Proof.
  destruct x as [s|s| |s m e]; try discriminate; intros _.
  - destruct s; reflexivity.
  - assert (Hdiag : forall z : Z, IntDef.Z.sub z z = 0%Z) by exact Z.sub_diag.
    unfold fsub, SFsub. rewrite Hdiag. reflexivity.
Qed.

(** Numbers that compare equal are the same number, or two zeros. *)
Lemma feq_finite (x y : float) :
  (x ==? y)%f32 = true -> is_finite y = true ->
  is_finite x = true /\ (x = y \/ is_zero x = true /\ is_zero y = true).
Proof.
  unfold feq, SFeqb.
  destruct x as [sx|sx| |sx mx ex], y as [sy|sy| |sy my ey]; simpl;
    try discriminate; intros Heq _; split; try reflexivity; auto;
    try (destruct sx; discriminate); try (destruct sy; discriminate).
  left. destruct sx, sy; try discriminate;
    destruct (ex ?= ey)%Z eqn:He; try discriminate;
    apply Z.compare_eq in He; subst ey;
    destruct (Pos.compare_cont Eq mx my) eqn:Hm; try discriminate;
    apply Pos.compare_eq in Hm; subst my; reflexivity.
Qed.

(** The difference of two finite numbers that compare equal is a zero. *)
Lemma fsub_feq (x y : float) :
  (x ==? y)%f32 = true -> is_finite y = true -> is_zero (x - y)%f32 = true.
Proof.
  intros Heq Hy. destruct (feq_finite x y Heq Hy) as [Hx [-> | [Hzx Hzy]]].
  - now rewrite fsub_diag.
  - destruct x as [[]| | |], y as [[]| | |]; try discriminate; reflexivity.
Qed.

(** A zero plus a finite number compares equal to that number, and so does
    the number plus a zero. *)
Lemma fadd_zero_l (z x : float) :
  is_zero z = true -> is_finite x = true -> (z + x ==? x)%f32 = true.
Proof.
  destruct z as [sz| | |]; try discriminate.
  destruct x as [sx|sx| |sx mx ex]; try discriminate; intros _ _.
  - destruct sz, sx; reflexivity.
  - unfold fadd, SFadd, feq, SFeqb. now rewrite SFcompare_refl.
Qed.

Lemma fadd_zero_r (x z : float) :
  is_zero z = true -> is_finite x = true -> (x + z ==? x)%f32 = true.
Proof.
  destruct z as [sz| | |]; try discriminate.
  destruct x as [sx|sx| |sx mx ex]; try discriminate; intros _ _.
  - destruct sz, sx; reflexivity.
  - unfold fadd, SFadd, feq, SFeqb. now rewrite SFcompare_refl.
Qed.

(** ** The ambiguous triangle *)

(** C1. When the sine implied by the law of sines, [sideBC * Sin(angleACB) /
    sideAB], exceeds 1, [SolveAmbiguousTriangle] returns no solution, and
    [GetThighToHeelDistance] then returns [ea::min(sideAB + sideBC,
    maxDistance)]: a plain [float], with no error channel. *)
Theorem SolveAmbiguousTriangle_unreachable `{MathDefs}
    (sideAB sideBC angleACB maxDistance : float) :
  (of_Z 0 <? sideAB)%f32 = true ->
  (of_Z 0 <=? sideBC)%f32 = true ->
  (of_Z 1 <? sideBC * Sin angleACB / sideAB)%f32 = true ->
  SolveAmbiguousTriangle sideAB sideBC angleACB = None /\
  GetThighToHeelDistance sideAB sideBC angleACB maxDistance
    = ea_min (sideAB + sideBC)%f32 maxDistance.
Proof.
  intros _ _ Hsin.
  assert (Hnone : SolveAmbiguousTriangle sideAB sideBC angleACB = None).
  { unfold SolveAmbiguousTriangle. now rewrite Hsin. }
  split; [exact Hnone|].
  unfold GetThighToHeelDistance. now rewrite Hnone.
Qed.

(** C1 at sides 1 and 2 and a right heel angle: the implied sine is 2, and
    the distance falls back to min(1 + 2, 2) = 2. *)
Lemma SolveAmbiguousTriangle_unreachable_run :
  (of_Z 0 <? of_Z 1)%f32 = true /\
  (of_Z 0 <=? of_Z 2)%f32 = true /\
  (of_Z 1 <? of_Z 2 * Sin (MathDefs := Run.RightAngles) (of_Z 90) / of_Z 1)%f32 = true /\
  SolveAmbiguousTriangle (H := Run.RightAngles) (of_Z 1) (of_Z 2) (of_Z 90) = None /\
  GetThighToHeelDistance (H := Run.RightAngles) (of_Z 1) (of_Z 2) (of_Z 90) (of_Z 2) = of_Z 2.
Proof.
  split; [reflexivity|]. split; [reflexivity|]. split; [reflexivity|].
  destruct (SolveAmbiguousTriangle_unreachable (H := Run.RightAngles)
              (of_Z 1) (of_Z 2) (of_Z 90) (of_Z 2)) as [Hnone Hdist];
    [reflexivity | reflexivity | reflexivity |].
  split; [exact Hnone|]. rewrite Hdist. reflexivity.
Defined.

(** With the toe target on the thigh and a zero heel angle both quotients of
    [GetThighToHeelDistance] are 0/0, whatever the sine is elsewhere. *)
Lemma GetThighToHeelDistance_nan :
  forall M : MathDefs, is_zero (Sin (of_Z 0)) = true ->
    is_nan (GetThighToHeelDistance (of_Z 0) (of_decimal 2 10) (of_Z 0) (of_Z 1)) = true.
Proof.
  intros M Hz. unfold GetThighToHeelDistance, SolveAmbiguousTriangle.
  destruct (Sin (of_Z 0)) as [s| | |]; try discriminate.
  assert (E : (of_decimal 2 10 * S754_zero s / of_Z 0)%f32 = S754_nan)
    by (destruct s; reflexivity).
  rewrite E. change (of_Z 1 <? S754_nan)%f32 with false. cbv iota zeta.
  match goal with |- context [Sin ?a] => generalize (Sin a) end.
  intros [[]|[]| |[] m e]; destruct s; reflexivity.
Qed.

(** C10 as stated fails: for a thigh-to-toe distance 0, a foot length 0.2, a
    heel angle 0 and a maximum distance 1, and every sine with Sin(0) = 0,
    [GetThighToHeelDistance] returns a NaN, which is not [<= 1]. *)
Lemma GetThighToHeelDistance_not_a_number :
  is_nan (of_Z 1) = false /\
  forall M : MathDefs, is_zero (Sin (of_Z 0)) = true ->
    is_nan (GetThighToHeelDistance (of_Z 0) (of_decimal 2 10) (of_Z 0) (of_Z 1)) = true /\
    (GetThighToHeelDistance (of_Z 0) (of_decimal 2 10) (of_Z 0) (of_Z 1) <=? of_Z 1)%f32
      = false.
Proof.
  split; [reflexivity|]. intros M Hz.
  pose proof (GetThighToHeelDistance_nan M Hz) as Hnan.
  split; [exact Hnan|].
  destruct (GetThighToHeelDistance _ _ _ _); try discriminate. reflexivity.
Qed.

(** C10, amended. For a maximum distance that is a number, on the
    valid-triangle branch and on the fallback branch alike, the value
    [GetThighToHeelDistance] returns is at most [maxDistance] whenever it is a
    number itself. *)
Theorem GetThighToHeelDistance_within_maxDistance `{MathDefs}
    (thighToToeDistance toeToHeelDistance heelAngle maxDistance : float) :
  is_nan maxDistance = false ->
  is_nan (GetThighToHeelDistance thighToToeDistance toeToHeelDistance heelAngle maxDistance)
    = false ->
  (GetThighToHeelDistance thighToToeDistance toeToHeelDistance heelAngle maxDistance
   <=? maxDistance)%f32 = true.
Proof.
  unfold GetThighToHeelDistance.
  destruct (SolveAmbiguousTriangle _ _ _); apply ea_min_le.
Qed.

(** C10, amended, on the valid-triangle branch: sides 1 and 0 and a right
    heel angle give the distance 1, within the maximum 2. *)
Lemma GetThighToHeelDistance_within_maxDistance_run :
  is_nan (of_Z 2) = false /\
  GetThighToHeelDistance (H := Run.RightAngles) (of_Z 1) (of_Z 0) (of_Z 90) (of_Z 2) = of_Z 1 /\
  (GetThighToHeelDistance (H := Run.RightAngles) (of_Z 1) (of_Z 0) (of_Z 90) (of_Z 2)
   <=? of_Z 2)%f32 = true.
Proof.
  split; [reflexivity|]. split; [reflexivity|].
  apply (GetThighToHeelDistance_within_maxDistance (H := Run.RightAngles)); reflexivity.
Defined.

(** ** The reach of a two-bone chain *)


(** At 0 degrees the difference of two rounded products is taken: with the
    lengths 1 and 1 + 2^-12 it is 0, and [GetMaxDistance] returns 0 and not
    2^-12; with the lengths 1 + 2^-12 and 1 + 3 * 2^-13 it is negative, and
    [GetMaxDistance] returns a NaN. *)
Example GetMaxDistance_0_rounding :
  GetMaxDistance (H := Run.RightAngles) Run.chainNear1 (of_Z 0) = of_Z 0 /\
  (of_decimal 4097 4096 - of_Z 1)%f32 = pow2 (-12) /\
  GetMaxDistance (H := Run.RightAngles) Run.chainNear1' (of_Z 0) = S754_nan.
Proof. repeat split; reflexivity. Qed.





(** ** Initialization *)

Ltac name_in_list :=
  repeat first [ apply list_elem_of_here | apply list_elem_of_further ].

Ltac name_cases H :=
  repeat (apply elem_of_cons in H as [-> | H]);
  [ congruence .. | try (apply elem_of_nil in H; contradiction) ].

(** The bone loop ends on a [nullptr] exactly when one of its names does not
    resolve. *)
Lemma AddBones_unresolved (sc : Scene) (boneNames : list string) (c : IKSolverComponent)
    (nodeCache : gmap Node IKNode) (chain : IKNodeChain) :
  (AddBones sc boneNames c nodeCache chain).1.1 = None <->
  exists name, name ∈ boneNames /\ GetChild sc (node_ c) name = None.
Proof.
  revert c nodeCache chain.
  induction boneNames as [|boneName rest IH]; intros c nodeCache chain; simpl.
  - split; [discriminate|]. intros (name & Hin & _).
    apply elem_of_nil in Hin. contradiction.
  - unfold AddSolverNode. destruct (GetChild sc (node_ c) boneName) as [boneNode|] eqn:Hb.
    + rewrite IH. simpl. split.
      * intros (name & Hin & Hn). exists name. split; [name_in_list; exact Hin | exact Hn].
      * intros (name & Hin & Hn). exists name. split; [|exact Hn].
        apply elem_of_cons in Hin as [-> | Hin]; [congruence | exact Hin].
    + simpl. split; [|reflexivity]. intros _. exists boneName.
      split; [name_in_list | exact Hb].
Qed.

(** Case analysis on every lookup left in the goal. *)
Ltac resolve_names :=
  repeat match goal with
  | |- context [GetChild ?sc ?n ?name] =>
      let E := fresh "E" in destruct (GetChild sc n name) eqn:E; simpl
  end.

(** One outcome of a fixed sequence of lookups. *)
Ltac settle_names :=
  split;
  [ split;
    [ first [ discriminate
            | intros _; eexists; split; [|eassumption]; name_in_list ]
    | first [ reflexivity
            | let Hin := fresh "Hin" in
              intros (name & Hin & Hn); name_cases Hin ] ]
  | first [ reflexivity | discriminate ] ].

(** The outcomes of a target lookup followed by the bone loop. *)
Ltac settle_bone_loop sc names c0 cache0 :=
  let Hu := fresh "Hu" in
  pose proof (AddBones_unresolved sc names c0 cache0 IKNodeChainOps.empty) as Hu;
  destruct (AddBones sc names c0 cache0 IKNodeChainOps.empty) as [[[chain|] base'] cache2];
  simpl in Hu |- *;
  [ split; [|discriminate]; split; [discriminate|];
    let Hin := fresh "Hin" in
    intros (name & Hin & Hn); apply elem_of_cons in Hin as [-> | Hin]; [congruence|];
    destruct Hu as [_ Hu]; discriminate Hu; eauto
  | split; [|reflexivity]; split; [|reflexivity]; intros _;
    destruct Hu as [Hu _]; destruct (Hu eq_refl) as (name & Hin & Hn);
    exists name; split; [name_in_list; exact Hin | exact Hn] ].

(** C2. For each of the six solver components, [Initialize] returns [false]
    if and only if the target name or one of the configured bone names does
    not resolve under the component's node; and when it returns [false] the
    chains and segments of the component are the ones it had before the call
    (no partial chain is installed). *)
Theorem Initialize_fails_iff_unresolved (sc : Scene) (c : SolverComponent)
    (nodeCache : gmap Node IKNode) :
  ((Initialize sc c nodeCache).1.1 = false <->
   exists name, name ∈ configuredNames c /\ GetChild sc (node_ (base c)) name = None) /\
  ((Initialize sc c nodeCache).1.1 = false ->
   installedChains (Initialize sc c nodeCache).1.2 = installedChains c).
Proof.
  destruct c as [s|s|s|s|s|s]; simpl.
  - unfold IKChainSolver.Initialize, IKChainSolver.InitializeNodes, AddCheckedNode. simpl.
    destruct (GetChild sc (node_ (IKChainSolver.base s)) (IKChainSolver.targetName_ s))
      as [target|] eqn:Ht; simpl.
    + settle_bone_loop sc (IKChainSolver.boneNames_ s)
        (clearSolverNodes (IKChainSolver.base s)) (emplace target IKNodeOps.fresh nodeCache).
    + settle_names.
  - unfold IKIdentitySolver.Initialize, IKIdentitySolver.InitializeNodes,
      AddCheckedNode, AddSolverNode. simpl.
    resolve_names; settle_names.
  - unfold IKTrigonometrySolver.Initialize, IKTrigonometrySolver.InitializeNodes,
      AddCheckedNode, Init_bind, Init_ret, bone, AddSolverNode. simpl.
    resolve_names; settle_names.
  - unfold IKLegSolver.Initialize, IKLegSolver.InitializeNodes,
      AddCheckedNode, Init_bind, Init_ret, bone, AddSolverNode. simpl.
    resolve_names; settle_names.
  - unfold IKSpineSolver.Initialize, IKSpineSolver.InitializeNodes, AddCheckedNode. simpl.
    destruct (GetChild sc (node_ (IKSpineSolver.base s)) (IKSpineSolver.targetName_ s))
      as [target|] eqn:Ht; simpl.
    + settle_bone_loop sc (IKSpineSolver.boneNames_ s)
        (clearSolverNodes (IKSpineSolver.base s)) (emplace target IKNodeOps.fresh nodeCache).
    + settle_names.
  - unfold IKArmSolver.Initialize, IKArmSolver.InitializeNodes,
      AddCheckedNode, Init_bind, Init_ret, bone, AddSolverNode. simpl.
    resolve_names; settle_names.
Qed.

(** The failing run behind C2: an arm solver whose forearm bone is missing
    from the rig fails to initialize, keeps its chain, and still has the two
    bones found before it registered as owned nodes. *)
Example Initialize_missing_forearm :
  let c := ArmSolver (IKArmSolver.mk (mkIKSolverComponent 1%positive []) "Shoulder" "Arm"
                        "Elbow" "Hand" "HandTarget" (of_Z 0) (of_Z 180)
                        (mkVector2 (of_Z 0) (of_Z 0)) Vector3Ops.FORWARD Vector3Ops.UP
                        Run.armChain (mkIKNodeSegment None None (of_Z 0)) None) in
  (Initialize Run.rig c ∅).1.1 = false /\
  installedChains (Initialize Run.rig c ∅).1.2 = installedChains c /\
  solverNodes_ (base (Initialize Run.rig c ∅).1.2) = [2; 3]%positive.
Proof. repeat split; reflexivity. Qed.

(** ** The per-frame solve *)

(** The second loop of [Solve] is the execution of its calls. *)
Lemma PushTransforms_sceneWrites `{SG : SceneGraph} (nodes : list Node)
    (nodeCache : gmap Node IKNode) (sc : Scene) :
  PushTransforms nodes nodeCache sc = foldl applyWrite sc (sceneWrites nodes nodeCache).
Proof.
  revert sc. induction nodes as [|n rest IH]; intros sc; [reflexivity|].
  unfold sceneWrites. rewrite bind_cons, foldl_app.
  unfold PushTransforms in IH |- *. simpl. rewrite IH. f_equal.
  unfold nodeWrites. destruct (nodeCache !! n) as [solverNode|]; [|reflexivity].
  destruct (positionDirty_ solverNode), (rotationDirty_ solverNode); reflexivity.
Qed.

(** A position is written for the owned nodes whose [positionDirty_] is set,
    and for no other. *)
Lemma sceneWrites_position (nodes : list Node) (nodeCache : gmap Node IKNode)
    (node : Node) (v : Vector3) :
  WritePosition node v ∈ sceneWrites nodes nodeCache <->
  node ∈ nodes /\
  exists solverNode, nodeCache !! node = Some solverNode /\
                     positionDirty_ solverNode = true /\ v = position_ solverNode.
Proof.
  unfold sceneWrites. rewrite list_elem_of_bind. unfold nodeWrites. split.
  - intros (n & Hw & Hn). destruct (nodeCache !! n) as [solverNode|] eqn:Hslot.
    + apply elem_of_app in Hw as [Hw | Hw].
      * destruct (positionDirty_ solverNode) eqn:Hd; [|apply elem_of_nil in Hw; contradiction].
        apply list_elem_of_singleton in Hw. injection Hw as -> ->. eauto.
      * destruct (rotationDirty_ solverNode); [|apply elem_of_nil in Hw; contradiction].
        apply list_elem_of_singleton in Hw. discriminate.
    + apply elem_of_nil in Hw. contradiction.
  - intros (Hn & solverNode & Hslot & Hd & ->). exists node. split; [|exact Hn].
    rewrite Hslot, Hd. apply elem_of_app. left. apply list_elem_of_here.
Qed.

(** A rotation is written for the owned nodes whose [rotationDirty_] is set,
    and for no other. *)
Lemma sceneWrites_rotation (nodes : list Node) (nodeCache : gmap Node IKNode)
    (node : Node) (q : Quaternion) :
  WriteRotation node q ∈ sceneWrites nodes nodeCache <->
  node ∈ nodes /\
  exists solverNode, nodeCache !! node = Some solverNode /\
                     rotationDirty_ solverNode = true /\ q = rotation_ solverNode.
Proof.
  unfold sceneWrites. rewrite list_elem_of_bind. unfold nodeWrites. split.
  - intros (n & Hw & Hn). destruct (nodeCache !! n) as [solverNode|] eqn:Hslot.
    + apply elem_of_app in Hw as [Hw | Hw].
      * destruct (positionDirty_ solverNode); [|apply elem_of_nil in Hw; contradiction].
        apply list_elem_of_singleton in Hw. discriminate.
      * destruct (rotationDirty_ solverNode) eqn:Hd; [|apply elem_of_nil in Hw; contradiction].
        apply list_elem_of_singleton in Hw. injection Hw as -> ->. eauto.
    + apply elem_of_nil in Hw. contradiction.
  - intros (Hn & solverNode & Hslot & Hd & ->). exists node. split; [|exact Hn].
    rewrite Hslot, Hd. apply elem_of_app. right. apply list_elem_of_here.
Qed.





(** ** The identity solver *)

(** C4, amended. On an initialized identity solver [SolveInternal]
    succeeds; it leaves the bone's solving node with the target's world
    position, with the target's world rotation times the rotation offset,
    and with both dirty flags set. The offset it uses is the stored one,
    except that a stored offset equal to the zero quaternion is first
    replaced by the inverse world rotation of the component's node times the
    world rotation of the bone when the bone name resolves; when the name
    does not resolve, the zero offset stays and is the one used. *)
Theorem IdentitySolver_copies_target `{QuaternionMath} (settings : IKSettings) (sc : Scene)
    (s : IKIdentitySolver.t) (nodeCache : gmap Node IKNode)
    (boneNode target : Node) (solverNode : IKNode) :
  IKIdentitySolver.boneNode_ s = Some boneNode ->
  IKIdentitySolver.target_ s = Some target ->
  nodeCache !! boneNode = Some solverNode ->
  exists s' solved,
    IKIdentitySolver.SolveInternal settings sc s nodeCache
      = Some (s', <[boneNode := solved]> nodeCache) /\
    position_ solved = GetWorldPosition sc target /\
    rotation_ solved
      = qmul (GetWorldRotation sc target) (IKIdentitySolver.rotationOffset_ s') /\
    positionDirty_ solved = true /\
    rotationDirty_ solved = true /\
    IKIdentitySolver.rotationOffset_ s'
      = (if QuaternionOps.eqb (IKIdentitySolver.rotationOffset_ s) QuaternionOps.ZERO
         then
           match GetChild sc (node_ (IKIdentitySolver.base s)) (IKIdentitySolver.boneName_ s)
           with
           | Some bone =>
               qmul (Inverse (GetWorldRotation sc (node_ (IKIdentitySolver.base s))))
                 (GetWorldRotation sc bone)
           | None => IKIdentitySolver.rotationOffset_ s
           end
         else IKIdentitySolver.rotationOffset_ s).
Proof.
  intros Hbone Htarget Hslot.
  unfold IKIdentitySolver.SolveInternal, IKIdentitySolver.EnsureInitialized,
    IKIdentitySolver.UpdateRotationOffset.
  destruct (QuaternionOps.eqb (IKIdentitySolver.rotationOffset_ s) QuaternionOps.ZERO);
    [destruct (GetChild sc _ (IKIdentitySolver.boneName_ s))|];
    simpl; rewrite Hbone, Htarget, Hslot; eexists _, _; split; try reflexivity; simpl; easy.
Qed.

(** C4, amended, on the rig, with the offset still at the zero quaternion. *)
Lemma IdentitySolver_copies_target_run :
  (IKIdentitySolver.boneNode_ Run.handSolver = Some 5%positive /\
   IKIdentitySolver.target_ Run.handSolver = Some 6%positive /\
   Run.handCache !! 5%positive = Some IKNodeOps.fresh) /\
  exists s' solved,
    IKIdentitySolver.SolveInternal (H := Run.Hamilton) Run.settings Run.rig
      Run.handSolver Run.handCache = Some (s', <[5%positive := solved]> Run.handCache) /\
    position_ solved = mkVector3 (of_Z 1) (of_Z 2) (of_Z 3) /\
    positionDirty_ solved = true /\ rotationDirty_ solved = true /\
    IKIdentitySolver.rotationOffset_ s' = QuaternionOps.IDENTITY.
Proof.
  split; [repeat split; reflexivity|].
  destruct (IdentitySolver_copies_target (H := Run.Hamilton) Run.settings Run.rig
              Run.handSolver Run.handCache 5%positive 6%positive IKNodeOps.fresh)
    as (s' & solved & Hrun & Hp & _ & Hpd & Hrd & Hoffset); try reflexivity.
  exists s', solved. repeat split; assumption.
Defined.

(** C4 as stated fails. With the bone name of the hand solver edited after
    its initialization, so that it no longer resolves, [UpdateRotationOffset]
    finds no bone, the offset stays the zero quaternion, and the rotation
    written to the bone is the zero quaternion, not the recomputed offset
    (the identity here) times the target's rotation. *)
Lemma IdentitySolver_keeps_zero_offset :
  IKIdentitySolver.rotationOffset_ Run.renamedHandSolver = QuaternionOps.ZERO /\
  IKIdentitySolver.boneNode_ Run.renamedHandSolver = Some 5%positive /\
  GetChild Run.rig 1%positive (IKIdentitySolver.boneName_ Run.renamedHandSolver) = None /\
  qmul (QuaternionMath := Run.Hamilton)
    (Inverse (QuaternionMath := Run.Hamilton) (GetWorldRotation Run.rig 1%positive))
    (GetWorldRotation Run.rig 5%positive)
    = QuaternionOps.IDENTITY /\
  exists s' solved,
    IKIdentitySolver.SolveInternal (H := Run.Hamilton) Run.settings Run.rig
      Run.renamedHandSolver Run.handCache
      = Some (s', <[5%positive := solved]> Run.handCache) /\
    IKIdentitySolver.rotationOffset_ s' = QuaternionOps.ZERO /\
    rotation_ solved = QuaternionOps.ZERO /\
    rotationDirty_ solved = true.
Proof.
  repeat split; try reflexivity.
  eexists _, _. split; [reflexivity|]. repeat split; reflexivity.
Qed.

(** ** The arm solver *)

(** [SolveInternal] of the trigonometry solver is the chain solve on its
    call. *)
Lemma TrigonometrySolver_SolveInternal_call `{QuaternionMath} `{ChainSolvers}
    (settings : IKSettings) (sc : Scene) (s : IKTrigonometrySolver.t) (target : Node)
    (nodeCache : gmap Node IKNode) :
  IKTrigonometrySolver.target_ s = Some target ->
  IKTrigonometrySolver.SolveInternal settings sc s nodeCache
    = let r := runChainSolve (IKTrigonometrySolver.chain_ s)
                 (TrigonometrySolver_call sc s target) nodeCache in
      Some (IKTrigonometrySolver.setBaseChainTarget (IKTrigonometrySolver.base s) r.1
              (IKTrigonometrySolver.target_ s) s, r.2).
Proof.
  intros Ht. unfold IKTrigonometrySolver.SolveInternal, runChainSolve, TrigonometrySolver_call.
  rewrite Ht. simpl. now destruct (TrigonometricChain_Solve _ _ _ _ _ _).
Qed.

(** The last step of the arm solver is the chain solve on its call. *)
Lemma ArmSolver_SolveArmChain_call `{ChainSolvers} (handTargetPosition : Vector3)
    (s : IKArmSolver.t) (nodeCache : gmap Node IKNode) :
  IKArmSolver.SolveArmChain handTargetPosition (IKArmSolver.EnsureInitialized s) nodeCache
    = let s1 := IKArmSolver.EnsureInitialized s in
      let r := runChainSolve (IKArmSolver.armChain_ s)
                 (ArmSolver_call handTargetPosition s) nodeCache in
      (IKArmSolver.setNodes (IKArmSolver.base s1) r.1 (IKArmSolver.shoulderSegment_ s1)
         (IKArmSolver.target_ s1) s1, r.2).
Proof.
  unfold IKArmSolver.SolveArmChain, runChainSolve, ArmSolver_call. simpl.
  now destruct (TrigonometricChain_Solve _ _ _ _ _ _).
Qed.

(** C5 as stated fails. An arm solver and a trigonometry solver with the same
    chain, target, bend direction and limits -10 and 180 call the chain
    solver with different minimum angles, 0 and -10, and a chain solver that
    returns its arguments tells the two solves apart; with limits 0 and 180
    and the component's node turned by half a turn they call it with opposite
    bend directions. *)
Lemma ArmSolver_chain_call_differs :
  let a := Run.armSolver 2%positive 3%positive (of_Z (-10)) (of_Z 180) in
  let g := Run.trigSolver (of_Z (-10)) (of_Z 180) in
  let a' := Run.armSolver 2%positive 3%positive (of_Z 0) (of_Z 180) in
  let g' := Run.trigSolver (of_Z 0) (of_Z 180) in
  let hand := GetWorldPosition Run.rig 6%positive in
  (IKTrigonometrySolver.target_ g = Some 6%positive /\
   IKArmSolver.armChain_ a = IKTrigonometrySolver.chain_ g /\
   IKArmSolver.bendDirection_ a = IKTrigonometrySolver.bendDirection_ g /\
   IKArmSolver.minElbowAngle_ a = IKTrigonometrySolver.minAngle_ g /\
   IKArmSolver.maxElbowAngle_ a = IKTrigonometrySolver.maxAngle_ g) /\
  (callMinAngle (ArmSolver_call hand a) = of_Z 0 /\
   (forall Q : QuaternionMath,
      callMinAngle (TrigonometrySolver_call Run.rig g 6%positive) = of_Z (-10))) /\
  (IKArmSolver.SolveArmChain (H0 := Run.Probe) hand (IKArmSolver.EnsureInitialized a) ∅).2
     = ∅ /\
  (exists solved,
     IKTrigonometrySolver.SolveInternal (H := Run.Hamilton) (H0 := Run.Probe)
       Run.settings Run.rig g ∅ = Some (solved, ∅) /\
     IKTrigonometrySolver.chain_ solved
       <> IKArmSolver.armChain_
            (IKArmSolver.SolveArmChain (H0 := Run.Probe) hand
               (IKArmSolver.EnsureInitialized a) ∅).1) /\
  (callBendDirection (ArmSolver_call hand a') = mkVector3 (of_Z 0) (of_Z 0) (of_Z 1) /\
   callBendDirection (TrigonometrySolver_call (H := Run.Hamilton) Run.turnedRig g' 6%positive)
     = mkVector3 (of_Z 0) (of_Z 0) (of_Z (-1))).
Proof.
  intros a g a' g' hand.
  split; [repeat split; reflexivity|].
  split; [split; [reflexivity | intros Q; reflexivity]|].
  split; [reflexivity|].
  split; [|split; reflexivity].
  eexists. split; [reflexivity|]. vm_compute. discriminate.
Qed.

(** C5, amended. For the same chain and node cache, the same target, the
    same configured bend direction and the same angle limits, when the limits
    lie in [0, 180] (the arm solver clamps them first) and the world rotation
    of the component's node leaves the bend direction as it is (the
    trigonometry solver turns it by that rotation), the last step of the arm
    solver makes the call of the trigonometry solver and produces the same
    chain and the same solving nodes, whatever the chain solver is. *)
Theorem ArmSolver_chain_solve_as_Trigonometry `{QuaternionMath} `{ChainSolvers}
    (settings : IKSettings) (sc : Scene) (a : IKArmSolver.t) (g : IKTrigonometrySolver.t)
    (target : Node) (nodeCache : gmap Node IKNode) :
  IKTrigonometrySolver.target_ g = Some target ->
  IKArmSolver.armChain_ a = IKTrigonometrySolver.chain_ g ->
  IKArmSolver.bendDirection_ a = IKTrigonometrySolver.bendDirection_ g ->
  IKArmSolver.minElbowAngle_ a = IKTrigonometrySolver.minAngle_ g ->
  IKArmSolver.maxElbowAngle_ a = IKTrigonometrySolver.maxAngle_ g ->
  Clamp (IKTrigonometrySolver.minAngle_ g) (of_Z 0) (of_Z 180)
    = IKTrigonometrySolver.minAngle_ g ->
  Clamp (IKTrigonometrySolver.maxAngle_ g) (of_Z 0) (of_Z 180)
    = IKTrigonometrySolver.maxAngle_ g ->
  qrot (GetWorldRotation sc (node_ (IKTrigonometrySolver.base g)))
    (IKTrigonometrySolver.bendDirection_ g) = IKTrigonometrySolver.bendDirection_ g ->
  let armSolved :=
    IKArmSolver.SolveArmChain (GetWorldPosition sc target)
      (IKArmSolver.EnsureInitialized a) nodeCache in
  ArmSolver_call (GetWorldPosition sc target) a = TrigonometrySolver_call sc g target /\
  exists g',
    IKTrigonometrySolver.SolveInternal settings sc g nodeCache = Some (g', armSolved.2) /\
    IKTrigonometrySolver.chain_ g' = IKArmSolver.armChain_ armSolved.1.
Proof.
  intros Ht Hchain Hbend Hmin Hmax Hlo Hhi Hrot armSolved.
  assert (Hcall : ArmSolver_call (GetWorldPosition sc target) a
                  = TrigonometrySolver_call sc g target).
  { unfold ArmSolver_call, TrigonometrySolver_call, IKArmSolver.EnsureInitialized.
    destruct a, g; simpl in *. subst. rewrite Hlo, Hhi, Hrot. reflexivity. }
  split; [exact Hcall|].
  subst armSolved. rewrite ArmSolver_SolveArmChain_call.
  rewrite (TrigonometrySolver_SolveInternal_call settings sc g target nodeCache Ht).
  rewrite Hcall, Hchain. simpl. eexists. split; reflexivity.
Qed.

(** C5, amended, on the rig: limits 10 and 170, node 1 not turned. *)
Lemma ArmSolver_chain_solve_as_Trigonometry_run :
  let a := Run.armSolver 2%positive 3%positive (of_Z 10) (of_Z 170) in
  let g := Run.trigSolver (of_Z 10) (of_Z 170) in
  (Clamp (of_Z 10) (of_Z 0) (of_Z 180) = of_Z 10 /\
   Clamp (of_Z 170) (of_Z 0) (of_Z 180) = of_Z 170 /\
   qrot (QuaternionMath := Run.Hamilton) (GetWorldRotation Run.rig 1%positive)
     Vector3Ops.FORWARD = Vector3Ops.FORWARD) /\
  ArmSolver_call (GetWorldPosition Run.rig 6%positive) a
    = TrigonometrySolver_call (H := Run.Hamilton) Run.rig g 6%positive.
Proof.
  intros a g. split; [repeat split; reflexivity|].
  apply (ArmSolver_chain_solve_as_Trigonometry (H := Run.Hamilton) (H0 := Run.Probe)
           Run.settings Run.rig a g 6%positive ∅); reflexivity.
Defined.

(** C9 as stated fails, in two ways. With the shoulder at x = 0.1 and its
    rest position at x = 1, the reset plus the re-applied offset gives
    1 + (0.1 - 1), which rounds to the float three units in the last place
    above 0.1, and a rotation by the identity leaves the shoulder there. With
    one bone configured as both shoulder and arm bone, the offset is applied
    twice and the shoulder moves from x = 2 to x = 3. *)
Lemma RotateShoulder_moves_shoulder :
  let P := Run.onX (of_decimal 1 10) in
  let P0 := Run.onX (of_Z 1) in
  (Vector3Ops.add P0 (Vector3Ops.sub P P0) <> P /\
   exists cache' rotated,
     IKArmSolver.RotateShoulder (H := Run.Hamilton) QuaternionOps.IDENTITY
       (Run.armSolver 2%positive 3%positive (of_Z 0) (of_Z 180))
       (Run.shoulderCache (of_decimal 1 10) (of_Z 1)) = Some cache' /\
     cache' !! 2%positive = Some rotated /\
     position_ rotated = Run.onX (S754_finite false 13421776 (-27)) /\
     position_ rotated <> P /\
     (vx (position_ rotated) ==? vx P)%f32 = false) /\
  (exists cache' rotated,
     IKArmSolver.RotateShoulder (H := Run.Hamilton) QuaternionOps.IDENTITY
       (Run.armSolver 2%positive 2%positive (of_Z 0) (of_Z 180))
       (Run.shoulderCache (of_Z 2) (of_Z 1)) = Some cache' /\
     cache' !! 2%positive = Some rotated /\
     position_ rotated = Run.onX (of_Z 3) /\
     position_ rotated <> Run.onX (of_Z 2)).
Proof.
  intros P P0. split; [split|].
  - vm_compute. discriminate.
  - eexists _, _. split; [reflexivity|]. split; [reflexivity|].
    split; [reflexivity|]. split; [vm_compute; discriminate | reflexivity].
  - eexists _, _. split; [reflexivity|]. split; [reflexivity|].
    split; [reflexivity | vm_compute; discriminate].
Qed.

(** Vectors that compare equal differ by a zero vector, and a zero vector
    added to a finite vector compares equal to it. *)
Lemma Vector3_sub_eqb (q p : Vector3) :
  Vector3Ops.eqb q p = true -> Vector3Ops.is_finite p = true ->
  Vector3Ops.is_zero (Vector3Ops.sub q p) = true.
Proof.
  unfold Vector3Ops.eqb, Vector3Ops.is_finite, Vector3Ops.is_zero.
  intros Heq Hp.
  apply andb_prop in Heq as [Heq Hz]. apply andb_prop in Heq as [Hx Hy].
  apply andb_prop in Hp as [Hp Hfz]. apply andb_prop in Hp as [Hfx Hfy].
  simpl. now rewrite !fsub_feq.
Qed.

Lemma Vector3_add_zero_l (z p : Vector3) :
  Vector3Ops.is_zero z = true -> Vector3Ops.is_finite p = true ->
  Vector3Ops.eqb (Vector3Ops.add z p) p = true.
Proof.
  unfold Vector3Ops.eqb, Vector3Ops.is_finite, Vector3Ops.is_zero.
  intros Hz Hp.
  apply andb_prop in Hz as [Hz Hzz]. apply andb_prop in Hz as [Hzx Hzy].
  apply andb_prop in Hp as [Hp Hfz]. apply andb_prop in Hp as [Hfx Hfy].
  simpl. now rewrite !fadd_zero_l.
Qed.

(** At its rest position, the reset position with the offset re-applied
    compares equal to the position. *)
Lemma Vector3_rest_offset (p : Vector3) :
  Vector3Ops.is_finite p = true ->
  Vector3Ops.eqb (Vector3Ops.add p (Vector3Ops.sub p p)) p = true.
Proof.
  unfold Vector3Ops.eqb, Vector3Ops.is_finite. intros Hp.
  apply andb_prop in Hp as [Hp Hfz]. apply andb_prop in Hp as [Hfx Hfy].
  simpl. rewrite !fsub_diag by assumption. now rewrite !fadd_zero_r.
Qed.

(** C9, amended. For distinct shoulder and arm bones, [RotateShoulder]
    succeeds and changes only the solving nodes of these two bones; the
    shoulder gets the rotation times its rest rotation, and the position
    [rotation * (q - p) + p], where [p] is its position of before the call
    and [q] is its rest position plus [p] minus its rest position. When [p]
    is finite and the rotation maps zero vectors to zero vectors, that
    position compares equal to [p] if [q] does, and [q] does when the
    shoulder is at its rest position. *)
Theorem RotateShoulder_keeps_shoulder_position `{QuaternionMath}
    (rotation : Quaternion)
    (s : IKArmSolver.t) (nodeCache : gmap Node IKNode) (shoulder arm : Node)
    (shoulderBone : IKNode) :
  beginNode_ (IKArmSolver.shoulderSegment_ s) = Some shoulder ->
  endNode_ (IKArmSolver.shoulderSegment_ s) = Some arm ->
  shoulder <> arm ->
  nodeCache !! shoulder = Some shoulderBone ->
  is_Some (nodeCache !! arm) ->
  let p := position_ shoulderBone in
  let q := Vector3Ops.add (originalPosition_ shoulderBone)
             (Vector3Ops.sub p (originalPosition_ shoulderBone)) in
  exists cache' rotated,
    IKArmSolver.RotateShoulder rotation s nodeCache = Some cache' /\
    cache' !! shoulder = Some rotated /\
    rotation_ rotated = qmul rotation (originalRotation_ shoulderBone) /\
    position_ rotated = Vector3Ops.add (qrot rotation (Vector3Ops.sub q p)) p /\
    (forall other, other <> shoulder -> other <> arm -> cache' !! other = nodeCache !! other) /\
    (Vector3Ops.is_finite p = true ->
     (forall v, Vector3Ops.is_zero v = true -> Vector3Ops.is_zero (qrot rotation v) = true) ->
     (Vector3Ops.eqb q p = true -> Vector3Ops.eqb (position_ rotated) p = true) /\
     (originalPosition_ shoulderBone = p -> Vector3Ops.eqb (position_ rotated) p = true)).
Proof.
  intros Hb He Hne Hslot [armBone Harm]. cbv zeta.
  unfold IKArmSolver.RotateShoulder. rewrite Hb, He. simpl. rewrite Hslot, Harm. simpl.
  eexists _, _. split; [reflexivity|].
  split.
  { rewrite lookup_alter_ne by congruence. rewrite lookup_alter_eq.
    rewrite lookup_alter_ne by congruence. rewrite lookup_alter_eq.
    rewrite lookup_alter_ne by congruence. rewrite lookup_alter_eq.
    rewrite Hslot. reflexivity. }
  split; [reflexivity|]. split; [reflexivity|]. split.
  { intros other Hs Ha. rewrite !lookup_alter_ne by congruence. reflexivity. }
  intros Hfinite Hzero. simpl.
  assert (Hsame : forall q,
            Vector3Ops.eqb q (position_ shoulderBone) = true ->
            Vector3Ops.eqb
              (Vector3Ops.add (qrot rotation (Vector3Ops.sub q (position_ shoulderBone)))
                 (position_ shoulderBone))
              (position_ shoulderBone) = true).
  { intros q Hq. apply Vector3_add_zero_l; [|exact Hfinite].
    apply Hzero. apply Vector3_sub_eqb; assumption. }
  split.
  - apply Hsame.
  - intros ->. apply Hsame. apply Vector3_rest_offset. exact Hfinite.
Qed.

(** Half a turn about the vertical axis maps zero vectors to zero
    vectors. *)
Lemma halfTurn_zero (v : Vector3) :
  Vector3Ops.is_zero v = true ->
  Vector3Ops.is_zero (qrot (QuaternionMath := Run.Hamilton) Run.halfTurn v) = true.
Proof.
  destruct v as [[[]| | |] [[]| | |] [[]| | |]]; try discriminate; reflexivity.
Qed.

(** C9, amended, on the rig: the shoulder at x = 2 with rest position x = 1,
    turned by half a turn about the vertical axis, stays at x = 2. *)
Lemma RotateShoulder_keeps_shoulder_position_run :
  let s := Run.armSolver 2%positive 3%positive (of_Z 0) (of_Z 180) in
  let nodeCache := Run.shoulderCache (of_Z 2) (of_Z 1) in
  exists cache' rotated,
    IKArmSolver.RotateShoulder (H := Run.Hamilton) Run.halfTurn s nodeCache = Some cache' /\
    cache' !! 2%positive = Some rotated /\
    Vector3Ops.eqb (position_ rotated) (Run.onX (of_Z 2)) = true.
Proof.
  intros s nodeCache.
  destruct (RotateShoulder_keeps_shoulder_position (H := Run.Hamilton) Run.halfTurn s
              nodeCache 2%positive 3%positive
              (Run.boneAt (Run.onX (of_Z 2)) (Run.onX (of_Z 1))))
    as (cache' & rotated & Hrun & Hlook & _ & _ & _ & Hposition);
    [reflexivity | reflexivity | discriminate | reflexivity | eexists; reflexivity |].
  exists cache', rotated. split; [exact Hrun|]. split; [exact Hlook|].
  destruct (Hposition eq_refl halfTurn_zero) as [Hnear _]. apply Hnear. reflexivity.
Defined.

(** ** Owned nodes and their slots *)


(** [emplace] fills the slot of its key and keeps every other slot. *)
Lemma emplace_is_Some (key other : Node) (value : IKNode) (nodeCache : gmap Node IKNode) :
  other = key \/ is_Some (nodeCache !! other) ->
  is_Some (emplace key value nodeCache !! other).
Proof.
  unfold emplace. intros [-> | Hother].
  - destruct (nodeCache !! key) eqn:Hk; [rewrite Hk; eauto|].
    rewrite lookup_insert_eq. eauto.
  - destruct (nodeCache !! key) eqn:Hk; [exact Hother|].
    destruct (decide (key = other)) as [-> | Hne].
    + rewrite lookup_insert_eq. eauto.
    + rewrite lookup_insert_ne by exact Hne. exact Hother.
Qed.

Lemma slotted_emplace (c : IKSolverComponent) (key : Node) (value : IKNode)
    (nodeCache : gmap Node IKNode) :
  slotted c nodeCache -> slotted c (emplace key value nodeCache).
Proof. intros Hs n Hn. apply emplace_is_Some. right. exact (Hs n Hn). Qed.


Lemma keeps_slotted_ret {A : Type} (a : A) : keeps_slotted (Init_ret a).
Proof. intros c nodeCache Hs. exact Hs. Qed.

Lemma keeps_slotted_bind {A B : Type} (m : Init A) (k : A -> Init B) :
  keeps_slotted m -> (forall a, keeps_slotted (k a)) -> keeps_slotted (Init_bind m k).
Proof.
  intros Hm Hk c nodeCache Hs. unfold Init_bind.
  specialize (Hm c nodeCache Hs).
  destruct (m c nodeCache) as [[[a|] c'] cache']; simpl in *.
  - apply Hk. exact Hm.
  - exact Hm.
Qed.

Lemma keeps_slotted_bone (sc : Scene) (name : string) : keeps_slotted (bone sc name).
Proof.
  intros c nodeCache Hs. unfold bone, AddSolverNode.
  destruct (GetChild sc (node_ c) name) as [boneNode|]; simpl; [|exact Hs].
  intros n Hn. apply emplace_is_Some.
  apply elem_of_app in Hn as [Hn | Hn].
  - right. exact (Hs n Hn).
  - left. apply list_elem_of_singleton in Hn. exact Hn.
Qed.

Lemma keeps_slotted_AddBones (sc : Scene) (boneNames : list string) (chain : IKNodeChain) :
  keeps_slotted (fun c nodeCache => AddBones sc boneNames c nodeCache chain).
Proof.
  revert chain. induction boneNames as [|boneName rest IH]; intros chain c nodeCache Hs.
  - exact Hs.
  - simpl. pose proof (keeps_slotted_bone sc boneName c nodeCache Hs) as Hb.
    unfold bone in Hb.
    destruct (AddSolverNode sc c nodeCache boneName) as [[[boneNode|] c'] cache'];
      simpl in *.
    + apply IH. exact Hb.
    + exact Hb.
Qed.

Lemma slotted_clear (c : IKSolverComponent) (nodeCache : gmap Node IKNode) :
  slotted (clearSolverNodes c) nodeCache.
Proof. intros n Hn. apply elem_of_nil in Hn. contradiction. Qed.

Ltac target_lookup sc c name :=
  unfold AddCheckedNode;
  destruct (GetChild sc (node_ (clearSolverNodes c)) name) as [target|]; simpl;
  [| intros n Hn; simpl in Hn; apply elem_of_nil in Hn; contradiction ].

Ltac bones_slotted H :=
  match goal with
  | |- context [ Init_bind ?m ?f (clearSolverNodes ?c) ?k ] =>
      pose proof (H (clearSolverNodes c) k
                    (slotted_emplace _ _ _ _ (slotted_clear c _))) as Hok;
      destruct (Init_bind m f (clearSolverNodes c) k) as [[[found|] base'] cache2];
      simpl in *;
      try (destruct found as [[[? ?] ?] ?] || destruct found as [[? ?] ?]); exact Hok
  end.

(** X1. Every bone [Initialize] registers as an owned node has a slot in the
    node cache, whether the initialization succeeds or stops at a missing
    name. *)
Theorem Initialize_owned_nodes_have_slots (sc : Scene) (c : SolverComponent)
    (nodeCache : gmap Node IKNode) (n : Node) :
  n ∈ solverNodes_ (base (Initialize sc c nodeCache).1.2) ->
  is_Some ((Initialize sc c nodeCache).2 !! n).
Proof.
  revert n. change (slotted (base (Initialize sc c nodeCache).1.2) (Initialize sc c nodeCache).2).
  destruct c as [s|s|s|s|s|s]; simpl.
  - unfold IKChainSolver.Initialize, IKChainSolver.InitializeNodes. simpl.
    target_lookup sc (IKChainSolver.base s) (IKChainSolver.targetName_ s).
    pose proof (keeps_slotted_AddBones sc (IKChainSolver.boneNames_ s) IKNodeChainOps.empty
                  (clearSolverNodes (IKChainSolver.base s))
                  (emplace target IKNodeOps.fresh nodeCache)
                  (slotted_emplace _ _ _ _ (slotted_clear _ _))) as Hok.
    cbv beta in Hok.
    destruct (AddBones _ _ _ _ _) as [[[chain|] base'] cache2]; exact Hok.
  - unfold IKIdentitySolver.Initialize, IKIdentitySolver.InitializeNodes. simpl.
    target_lookup sc (IKIdentitySolver.base s) (IKIdentitySolver.targetName_ s).
    pose proof (keeps_slotted_bone sc (IKIdentitySolver.boneName_ s)
                  (clearSolverNodes (IKIdentitySolver.base s))
                  (emplace target IKNodeOps.fresh nodeCache)
                  (slotted_emplace _ _ _ _ (slotted_clear _ _))) as Hok.
    unfold bone in Hok.
    destruct (AddSolverNode _ _ _ _) as [[[boneNode|] base'] cache2]; exact Hok.
  - unfold IKTrigonometrySolver.Initialize, IKTrigonometrySolver.InitializeNodes. simpl.
    target_lookup sc (IKTrigonometrySolver.base s) (IKTrigonometrySolver.targetName_ s).
    match goal with |- context [ Init_bind ?m ?k _ _ ] =>
      assert (Hk : keeps_slotted (Init_bind m k))
        by (repeat (apply keeps_slotted_bind; [apply keeps_slotted_bone | intros ?]);
            apply keeps_slotted_ret)
    end.
    bones_slotted Hk.
  - unfold IKLegSolver.Initialize, IKLegSolver.InitializeNodes. simpl.
    target_lookup sc (IKLegSolver.base s) (IKLegSolver.targetName_ s).
    match goal with |- context [ Init_bind ?m ?k _ _ ] =>
      assert (Hk : keeps_slotted (Init_bind m k))
        by (repeat (apply keeps_slotted_bind; [apply keeps_slotted_bone | intros ?]);
            apply keeps_slotted_ret)
    end.
    bones_slotted Hk.
  - unfold IKSpineSolver.Initialize, IKSpineSolver.InitializeNodes. simpl.
    target_lookup sc (IKSpineSolver.base s) (IKSpineSolver.targetName_ s).
    pose proof (keeps_slotted_AddBones sc (IKSpineSolver.boneNames_ s) IKNodeChainOps.empty
                  (clearSolverNodes (IKSpineSolver.base s))
                  (emplace target IKNodeOps.fresh nodeCache)
                  (slotted_emplace _ _ _ _ (slotted_clear _ _))) as Hok.
    cbv beta in Hok.
    destruct (AddBones _ _ _ _ _) as [[[chain|] base'] cache2]; exact Hok.
  - unfold IKArmSolver.Initialize, IKArmSolver.InitializeNodes. simpl.
    target_lookup sc (IKArmSolver.base s) (IKArmSolver.targetName_ s).
    match goal with |- context [ Init_bind ?m ?k _ _ ] =>
      assert (Hk : keeps_slotted (Init_bind m k))
        by (repeat (apply keeps_slotted_bind; [apply keeps_slotted_bone | intros ?]);
            apply keeps_slotted_ret)
    end.
    bones_slotted Hk.
Qed.

(** X1 on the rig: the hand bone registered by the identity solver. *)
Lemma Initialize_owned_nodes_have_slots_run :
  5%positive ∈ solverNodes_ (base (Initialize Run.rig (IdentitySolver Run.handSolver0) ∅).1.2) /\
  is_Some ((Initialize Run.rig (IdentitySolver Run.handSolver0) ∅).2 !! 5%positive).
Proof.
  assert (Hin : 5%positive
                ∈ solverNodes_ (base (Initialize Run.rig (IdentitySolver Run.handSolver0) ∅).1.2))
    by apply list_elem_of_here.
  split; [exact Hin|].
  exact (Initialize_owned_nodes_have_slots Run.rig (IdentitySolver Run.handSolver0) ∅
           5%positive Hin).
Defined.

(** ** Solving twice *)

Lemma EnsureInitialized_captured `{QuaternionMath} (sc : Scene) (s : IKIdentitySolver.t) :
  QuaternionOps.eqb (IKIdentitySolver.rotationOffset_ s) QuaternionOps.ZERO = false ->
  IKIdentitySolver.EnsureInitialized sc s = s.
Proof. intros Hz. unfold IKIdentitySolver.EnsureInitialized. now rewrite Hz. Qed.

Lemma EnsureInitialized_nodes `{QuaternionMath} (sc : Scene) (s : IKIdentitySolver.t) :
  IKIdentitySolver.base (IKIdentitySolver.EnsureInitialized sc s) = IKIdentitySolver.base s /\
  IKIdentitySolver.boneNode_ (IKIdentitySolver.EnsureInitialized sc s)
    = IKIdentitySolver.boneNode_ s /\
  IKIdentitySolver.target_ (IKIdentitySolver.EnsureInitialized sc s)
    = IKIdentitySolver.target_ s.
Proof.
  unfold IKIdentitySolver.EnsureInitialized, IKIdentitySolver.UpdateRotationOffset.
  destruct (QuaternionOps.eqb _ _); [|easy].
  destruct (GetChild _ _ _); easy.
Qed.

(** One [Solve] of an initialized identity solver, in closed form: the two
    calls it makes on the bone. *)
Lemma IdentitySolver_Solve_once `{SG : SceneGraph} `{QuaternionMath}
    (settings : IKSettings) (sc : Scene)
    (s : IKIdentitySolver.t) (nodeCache : gmap Node IKNode)
    (boneNode target : Node) (solverNode : IKNode) :
  IKIdentitySolver.boneNode_ s = Some boneNode ->
  IKIdentitySolver.target_ s = Some target ->
  solverNodes_ (IKIdentitySolver.base s) = [boneNode] ->
  nodeCache !! boneNode = Some solverNode ->
  let s1 := IKIdentitySolver.EnsureInitialized sc s in
  let writes :=
    [WritePosition boneNode (GetWorldPosition sc target);
     WriteRotation boneNode
       (qmul (GetWorldRotation sc target) (IKIdentitySolver.rotationOffset_ s1))] in
  exists cache',
    IKSolverComponentOps.Solve IKIdentitySolver.base IKIdentitySolver.SolveInternal
      settings sc s nodeCache
    = Some (s1, cache', foldl applyWrite sc writes) /\
    is_Some (cache' !! boneNode) /\
    sceneWrites (solverNodes_ (IKIdentitySolver.base s1)) cache' = writes.
Proof.
  intros Hb Ht Hown Hslot. cbv zeta.
  destruct (EnsureInitialized_nodes sc s) as (Ebase & Ebone & Etarget).
  unfold IKSolverComponentOps.Solve, IKIdentitySolver.SolveInternal.
  rewrite Ebone, Etarget, Hb, Ht, Hown. simpl.
  rewrite lookup_alter_eq, Hslot. simpl.
  rewrite Ebase, Hown. simpl. rewrite lookup_insert_eq. simpl.
  eexists. split; [reflexivity|]. rewrite lookup_insert_eq. split; [eauto|].
  unfold sceneWrites, nodeWrites. simpl. rewrite lookup_insert_eq. reflexivity.
Qed.

(** X2. For an initialized identity solver whose rotation offset is captured
    (not the zero quaternion) after the first call and whose target reads the
    same world transform after the writes of the first call (it does not hang
    below the bone), a second [Solve] on the scene and the cache the first one
    left returns the same component and makes the same calls of
    [SetWorldPosition] and [SetWorldRotation], with the same arguments, as the
    first. *)
Theorem IdentitySolver_Solve_twice `{SG : SceneGraph} `{QuaternionMath}
    (settings : IKSettings) (sc sc1 : Scene)
    (s s1 : IKIdentitySolver.t) (nodeCache cache1 : gmap Node IKNode)
    (boneNode target : Node) (solverNode : IKNode) :
  IKIdentitySolver.boneNode_ s = Some boneNode ->
  IKIdentitySolver.target_ s = Some target ->
  solverNodes_ (IKIdentitySolver.base s) = [boneNode] ->
  nodeCache !! boneNode = Some solverNode ->
  IKSolverComponentOps.Solve IKIdentitySolver.base IKIdentitySolver.SolveInternal
    settings sc s nodeCache = Some (s1, cache1, sc1) ->
  QuaternionOps.eqb (IKIdentitySolver.rotationOffset_ s1) QuaternionOps.ZERO = false ->
  GetWorldPosition sc1 target = GetWorldPosition sc target ->
  GetWorldRotation sc1 target = GetWorldRotation sc target ->
  let writes := sceneWrites (solverNodes_ (IKIdentitySolver.base s1)) cache1 in
  writes = [WritePosition boneNode (GetWorldPosition sc target);
            WriteRotation boneNode
              (qmul (GetWorldRotation sc target) (IKIdentitySolver.rotationOffset_ s1))] /\
  sc1 = foldl applyWrite sc writes /\
  exists cache2,
    IKSolverComponentOps.Solve IKIdentitySolver.base IKIdentitySolver.SolveInternal
      settings sc1 s1 cache1 = Some (s1, cache2, foldl applyWrite sc1 writes) /\
    sceneWrites (solverNodes_ (IKIdentitySolver.base s1)) cache2 = writes.
Proof.
  intros Hb Ht Hown Hslot Hfirst Hoff Hp Hr. cbv zeta.
  destruct (EnsureInitialized_nodes sc s) as (Ebase & Ebone & Etarget).
  destruct (IdentitySolver_Solve_once settings sc s nodeCache boneNode target solverNode
              Hb Ht Hown Hslot) as (cache & Hrun & [solved Hsolved] & Hwrites).
  rewrite Hfirst in Hrun. injection Hrun as -> -> ->.
  rewrite Hwrites. split; [reflexivity|]. split; [reflexivity|].
  destruct (IdentitySolver_Solve_once settings
              (foldl applyWrite sc
                 [WritePosition boneNode (GetWorldPosition sc target);
                  WriteRotation boneNode
                    (qmul (GetWorldRotation sc target)
                       (IKIdentitySolver.rotationOffset_
                          (IKIdentitySolver.EnsureInitialized sc s)))])
              (IKIdentitySolver.EnsureInitialized sc s) cache boneNode target solved)
    as (cache2 & Hsecond & _ & Hwrites2); try congruence.
  rewrite (EnsureInitialized_captured _ _ Hoff) in Hsecond, Hwrites2.
  cbn [foldl applyWrite] in Hp, Hr, Hsecond, Hwrites2 |- *.
  rewrite Hp, Hr in Hsecond, Hwrites2.
  exists cache2. split; [exact Hsecond | exact Hwrites2].
Qed.

(** X2 on the rig, whose bones hang side by side. *)
Lemma IdentitySolver_Solve_twice_run :
  exists s1 cache1 sc1 cache2 sc2,
    IKSolverComponentOps.Solve (SG := Run.Detached) IKIdentitySolver.base
      (IKIdentitySolver.SolveInternal (H := Run.Hamilton))
      Run.settings Run.rig Run.handSolver Run.handCache = Some (s1, cache1, sc1) /\
    IKSolverComponentOps.Solve (SG := Run.Detached) IKIdentitySolver.base
      (IKIdentitySolver.SolveInternal (H := Run.Hamilton))
      Run.settings sc1 s1 cache1 = Some (s1, cache2, sc2) /\
    sceneWrites (solverNodes_ (IKIdentitySolver.base s1)) cache2
      = sceneWrites (solverNodes_ (IKIdentitySolver.base s1)) cache1.
Proof.
  destruct (IKSolverComponentOps.Solve (SG := Run.Detached) IKIdentitySolver.base
              (IKIdentitySolver.SolveInternal (H := Run.Hamilton))
              Run.settings Run.rig Run.handSolver Run.handCache)
    as [[[s1 cache1] sc1]|] eqn:E; [|vm_compute in E; discriminate].
  destruct (IdentitySolver_Solve_twice (SG := Run.Detached) (H := Run.Hamilton)
              Run.settings Run.rig sc1 Run.handSolver s1 Run.handCache cache1
              5%positive 6%positive IKNodeOps.fresh eq_refl eq_refl eq_refl eq_refl E)
    as (_ & _ & cache2 & Hsecond & Hwrites).
  - vm_compute in E. injection E as <- <- <-. reflexivity.
  - vm_compute in E. injection E as <- <- <-. reflexivity.
  - vm_compute in E. injection E as <- <- <-. reflexivity.
  - eexists s1, cache1, sc1, cache2, _. split; [reflexivity|].
    split; [exact Hsecond | exact Hwrites].
Defined.

(** ** Clamped configuration of the arm solver *)

Lemma fle_not_nan (x y : float) :
  (x <=? y)%f32 = true -> is_nan x = false /\ is_nan y = false.
Proof.
  unfold fle, SFleb. destruct x, y; simpl; try discriminate; auto.
Qed.

Lemma fle_refl (x : float) : is_nan x = false -> (x <=? x)%f32 = true.
Proof. intros Hx. unfold fle, SFleb. now rewrite (SFcompare_refl x Hx). Qed.

(** Not [a < b] is [b <= a], for numbers. *)
Lemma flt_false_fle (a b : float) :
  is_nan a = false -> is_nan b = false -> (a <? b)%f32 = false -> (b <=? a)%f32 = true.
Proof.
  intros Ha Hb. unfold flt, fle, SFltb, SFleb.
  destruct (SFcompare_is_Some a b Ha Hb) as [c Hc]. rewrite Hc.
  apply SFcompare_antisym in Hc. rewrite Hc. destruct c; simpl; congruence.
Qed.

Lemma Clamp_within (value lo hi : float) :
  (lo <=? hi)%f32 = true -> is_nan value = false ->
  (lo <=? Clamp value lo hi)%f32 = true /\ (Clamp value lo hi <=? hi)%f32 = true.
Proof.
  intros Hle Hv. destruct (fle_not_nan lo hi Hle) as [Hlo Hhi]. unfold Clamp.
  destruct (value <? lo)%f32 eqn:H1.
  - split; [apply fle_refl; exact Hlo | exact Hle].
  - destruct (hi <? value)%f32 eqn:H2.
    + split; [exact Hle | apply fle_refl; exact Hhi].
    + split; apply flt_false_fle; assumption.
Qed.

(** A NaN passes through [Clamp]: both comparisons are false. *)
Lemma Clamp_nan (lo hi : float) : Clamp S754_nan lo hi = S754_nan.
Proof. unfold Clamp, flt, SFltb. simpl. destruct hi; reflexivity. Qed.

(** X3. After [IKArmSolver::EnsureInitialized] the elbow angle limits lie in
    [0, 180] and both components of the shoulder weight in [0, 1], provided
    the configured values are numbers. *)
Theorem ArmSolver_EnsureInitialized_limits (s : IKArmSolver.t) :
  is_nan (IKArmSolver.minElbowAngle_ s) = false ->
  is_nan (IKArmSolver.maxElbowAngle_ s) = false ->
  is_nan (v2x (IKArmSolver.shoulderWeight_ s)) = false ->
  is_nan (v2y (IKArmSolver.shoulderWeight_ s)) = false ->
  let s' := IKArmSolver.EnsureInitialized s in
  let within lo value hi := (lo <=? value)%f32 = true /\ (value <=? hi)%f32 = true in
  within (of_Z 0) (IKArmSolver.minElbowAngle_ s') (of_Z 180) /\
  within (of_Z 0) (IKArmSolver.maxElbowAngle_ s') (of_Z 180) /\
  within (of_Z 0) (v2x (IKArmSolver.shoulderWeight_ s')) (of_Z 1) /\
  within (of_Z 0) (v2y (IKArmSolver.shoulderWeight_ s')) (of_Z 1).
Proof.
  intros Hmin Hmax Hx Hy. simpl.
  repeat split; apply Clamp_within; try assumption; reflexivity.
Qed.

(** X3 on the arm solver configured with limits -10 and 200. *)
Lemma ArmSolver_EnsureInitialized_limits_run :
  let s' := IKArmSolver.EnsureInitialized
              (Run.armSolver 2%positive 3%positive (of_Z (-10)) (of_Z 200)) in
  IKArmSolver.minElbowAngle_ s' = of_Z 0 /\
  IKArmSolver.maxElbowAngle_ s' = of_Z 180 /\
  (of_Z 0 <=? IKArmSolver.maxElbowAngle_ s')%f32 = true /\
  (IKArmSolver.maxElbowAngle_ s' <=? of_Z 180)%f32 = true.
Proof.
  pose proof (ArmSolver_EnsureInitialized_limits
                (Run.armSolver 2%positive 3%positive (of_Z (-10)) (of_Z 200))
                eq_refl eq_refl eq_refl eq_refl) as (_ & [Hlo Hhi] & _).
  cbv zeta. split; [reflexivity|]. split; [reflexivity|]. split; [exact Hlo | exact Hhi].
Defined.

(** ** One solving node per bone *)

(** X4. [AddSolverNode] on a bone that already has a solving node leaves the
    node cache as it is and hands out the existing slot: components that name
    the same bone share one solving node. *)
Theorem AddSolverNode_shares_slot (sc : Scene) (c : IKSolverComponent)
    (nodeCache : gmap Node IKNode) (name : string) (boneNode : Node) (solverNode : IKNode) :
  GetChild sc (node_ c) name = Some boneNode ->
  nodeCache !! boneNode = Some solverNode ->
  AddSolverNode sc c nodeCache name
    = (Some boneNode, mkIKSolverComponent (node_ c) (solverNodes_ c ++ [boneNode]), nodeCache).
Proof.
  intros Hchild Hslot. unfold AddSolverNode, emplace. now rewrite Hchild, Hslot.
Qed.

(** X4 on the rig: a second component asks for the hand, whose slot already
    holds a moved node. *)
Lemma AddSolverNode_shares_slot_run :
  let moved := Run.boneAt (Run.onX (of_Z 2)) (Run.onX (of_Z 1)) in
  let nodeCache : gmap Node IKNode := <[5%positive := moved]> ∅ in
  (AddSolverNode Run.rig (mkIKSolverComponent 1%positive []) nodeCache "Hand").2
    !! 5%positive = Some moved.
Proof.
  cbv zeta.
  rewrite (AddSolverNode_shares_slot Run.rig (mkIKSolverComponent 1%positive [])
             (<[5%positive := Run.boneAt (Run.onX (of_Z 2)) (Run.onX (of_Z 1))]> ∅)
             "Hand" 5%positive (Run.boneAt (Run.onX (of_Z 2)) (Run.onX (of_Z 1)))
             eq_refl (lookup_insert_eq _ _ _)).
  apply lookup_insert_eq.
Defined.

(** * Further properties of the solver components *)

(** ** Clamped configuration of the leg solver *)

(** [a <= b] rules out [b < a]. *)
Lemma fle_flt_false (a b : float) : (a <=? b)%f32 = true -> (b <? a)%f32 = false.
Proof.
  unfold fle, flt, SFleb, SFltb. destruct (SFcompare a b) as [c|] eqn:Hc; [|discriminate].
  rewrite (SFcompare_antisym a b c Hc). destruct c; simpl; congruence.
Qed.

Lemma flt_irrefl (a : float) : (a <? a)%f32 = false.
Proof.
  unfold flt, SFltb. destruct (SFcompare a a) as [[]|] eqn:E; try reflexivity.
  pose proof (SFcompare_antisym a a Lt E) as E'. simpl in E'. congruence.
Qed.

(** Clamping twice is clamping once, when the bounds are in order. *)
Lemma Clamp_idempotent (value lo hi : float) :
  (hi <? lo)%f32 = false -> Clamp (Clamp value lo hi) lo hi = Clamp value lo hi.
Proof.
  intros Hle. unfold Clamp.
  destruct (value <? lo)%f32 eqn:H1.
  - now rewrite flt_irrefl, Hle.
  - destruct (hi <? value)%f32 eqn:H2.
    + now rewrite Hle, flt_irrefl.
    + now rewrite H1, H2.
Qed.

Lemma Clamp_0_180 (v : float) :
  Clamp (Clamp v (of_Z 0) (of_Z 180)) (of_Z 0) (of_Z 180) = Clamp v (of_Z 0) (of_Z 180).
Proof. apply Clamp_idempotent. reflexivity. Qed.

Lemma Clamp_0_1 (v : float) :
  Clamp (Clamp v (of_Z 0) (of_Z 1)) (of_Z 0) (of_Z 1) = Clamp v (of_Z 0) (of_Z 1).
Proof. apply Clamp_idempotent. reflexivity. Qed.

Section LegConfiguration.
Context `{MathDefs} `{QuaternionMath} `{ChainSolvers}.

(** [UpdateMinHeelAngle] writes [minHeelAngle_] only. *)
Lemma UpdateMinHeelAngle_limits (sc : Scene) (s : IKLegSolver.t) :
  IKLegSolver.minKneeAngle_ (IKLegSolver.UpdateMinHeelAngle sc s) = IKLegSolver.minKneeAngle_ s /\
  IKLegSolver.maxKneeAngle_ (IKLegSolver.UpdateMinHeelAngle sc s) = IKLegSolver.maxKneeAngle_ s /\
  IKLegSolver.bendWeight_ (IKLegSolver.UpdateMinHeelAngle sc s) = IKLegSolver.bendWeight_ s.
Proof.
  unfold IKLegSolver.UpdateMinHeelAngle.
  destruct (GetChild sc (node_ (IKLegSolver.base s)) (IKLegSolver.thighBoneName_ s)),
    (GetChild sc (node_ (IKLegSolver.base s)) (IKLegSolver.heelBoneName_ s)),
    (GetChild sc (node_ (IKLegSolver.base s)) (IKLegSolver.toeBoneName_ s)); auto.
Qed.

Lemma LegSolver_EnsureInitialized_nodes (sc : Scene) (s : IKLegSolver.t) :
  IKLegSolver.base (IKLegSolver.EnsureInitialized sc s) = IKLegSolver.base s /\
  IKLegSolver.legChain_ (IKLegSolver.EnsureInitialized sc s) = IKLegSolver.legChain_ s /\
  IKLegSolver.footSegment_ (IKLegSolver.EnsureInitialized sc s) = IKLegSolver.footSegment_ s /\
  IKLegSolver.target_ (IKLegSolver.EnsureInitialized sc s) = IKLegSolver.target_ s.
Proof.
  unfold IKLegSolver.EnsureInitialized, IKLegSolver.UpdateMinHeelAngle.
  destruct (IKLegSolver.minHeelAngle_ s <? of_Z 0)%f32; simpl; [|easy].
  destruct (GetChild sc (node_ (IKLegSolver.base s)) (IKLegSolver.thighBoneName_ s)),
    (GetChild sc (node_ (IKLegSolver.base s)) (IKLegSolver.heelBoneName_ s)),
    (GetChild sc (node_ (IKLegSolver.base s)) (IKLegSolver.toeBoneName_ s)); easy.
Qed.

(** X5. After [IKLegSolver::EnsureInitialized] the knee angle limits lie in
    [0, 180] and the bend weight in [0, 1], provided the configured values
    are numbers; whether the min heel angle was recomputed on the way makes
    no difference. *)
Theorem LegSolver_EnsureInitialized_limits (sc : Scene) (s : IKLegSolver.t) :
  is_nan (IKLegSolver.minKneeAngle_ s) = false ->
  is_nan (IKLegSolver.maxKneeAngle_ s) = false ->
  is_nan (IKLegSolver.bendWeight_ s) = false ->
  let s' := IKLegSolver.EnsureInitialized sc s in
  let within lo value hi := (lo <=? value)%f32 = true /\ (value <=? hi)%f32 = true in
  within (of_Z 0) (IKLegSolver.minKneeAngle_ s') (of_Z 180) /\
  within (of_Z 0) (IKLegSolver.maxKneeAngle_ s') (of_Z 180) /\
  within (of_Z 0) (IKLegSolver.bendWeight_ s') (of_Z 1).
Proof.
  intros Hmin Hmax Hw. cbv zeta. unfold IKLegSolver.EnsureInitialized.
  destruct (UpdateMinHeelAngle_limits sc s) as (E1 & E2 & E3).
  destruct (IKLegSolver.minHeelAngle_ s <? of_Z 0)%f32; simpl;
    rewrite ?E1, ?E2, ?E3;
    repeat split; apply Clamp_within; try assumption; reflexivity.
Qed.

(** X6. A min heel angle that is zero or more, or a NaN, is never recomputed:
    [IKLegSolver::EnsureInitialized] then gives the same component on every
    scene and keeps the configured angle. *)
Theorem LegSolver_EnsureInitialized_scene_independent (sc sc' : Scene) (s : IKLegSolver.t) :
  (of_Z 0 <=? IKLegSolver.minHeelAngle_ s)%f32 = true \/
  is_nan (IKLegSolver.minHeelAngle_ s) = true ->
  IKLegSolver.EnsureInitialized sc s = IKLegSolver.EnsureInitialized sc' s /\
  IKLegSolver.minHeelAngle_ (IKLegSolver.EnsureInitialized sc s) = IKLegSolver.minHeelAngle_ s.
Proof.
  intros Hcase.
  assert ((IKLegSolver.minHeelAngle_ s <? of_Z 0)%f32 = false) as Hlt.
  { destruct Hcase as [Hle | Hnan].
    - now apply fle_flt_false.
    - destruct (IKLegSolver.minHeelAngle_ s); try discriminate. reflexivity. }
  unfold IKLegSolver.EnsureInitialized. rewrite Hlt. split; reflexivity.
Qed.

Opaque of_Z.

Lemma LegSolver_EnsureInitialized_idempotent (sc : Scene) (s : IKLegSolver.t) :
  IKLegSolver.EnsureInitialized sc (IKLegSolver.EnsureInitialized sc s)
    = IKLegSolver.EnsureInitialized sc s.
Proof.
  destruct s as [b thigh calf heel toe target lo hi w dir minHeel chain foot tgt].
  unfold IKLegSolver.EnsureInitialized, IKLegSolver.UpdateMinHeelAngle. simpl.
  destruct (minHeel <? of_Z 0)%f32 eqn:E; simpl.
  - destruct (GetChild sc (node_ b) thigh) eqn:E1, (GetChild sc (node_ b) heel) eqn:E2,
      (GetChild sc (node_ b) toe) eqn:E3; simpl; rewrite ?E, ?E1, ?E2, ?E3; simpl;
      rewrite ?Clamp_0_180, ?Clamp_0_1; try reflexivity.
    match goal with |- context [(?a <? of_Z 0)%f32] => destruct (a <? of_Z 0)%f32 end;
      simpl; rewrite ?Clamp_0_180, ?Clamp_0_1; reflexivity.
  - rewrite E. simpl. rewrite ?Clamp_0_180, ?Clamp_0_1. reflexivity.
Qed.

End LegConfiguration.

Lemma ArmSolver_EnsureInitialized_idempotent (s : IKArmSolver.t) :
  IKArmSolver.EnsureInitialized (IKArmSolver.EnsureInitialized s) = IKArmSolver.EnsureInitialized s.
Proof.
  destruct s. unfold IKArmSolver.EnsureInitialized, VectorClamp. simpl.
  rewrite !Clamp_0_180, !Clamp_0_1. reflexivity.
Qed.

Lemma IdentitySolver_EnsureInitialized_idempotent `{QuaternionMath} (sc : Scene)
    (s : IKIdentitySolver.t) :
  IKIdentitySolver.EnsureInitialized sc (IKIdentitySolver.EnsureInitialized sc s)
    = IKIdentitySolver.EnsureInitialized sc s.
Proof.
  destruct s as [b bone target offset boneNode tgt].
  unfold IKIdentitySolver.EnsureInitialized, IKIdentitySolver.UpdateRotationOffset. simpl.
  destruct (QuaternionOps.eqb offset QuaternionOps.ZERO) eqn:E; simpl.
  - destruct (GetChild sc (node_ b) bone) eqn:E1; simpl; rewrite ?E, ?E1; simpl; try reflexivity.
    match goal with |- context [QuaternionOps.eqb ?q QuaternionOps.ZERO] =>
      destruct (QuaternionOps.eqb q QuaternionOps.ZERO) end; reflexivity.
  - rewrite E. reflexivity.
Qed.

Transparent of_Z.

(** X7. [EnsureInitialized] of the identity, the leg and the arm solver is
    idempotent on a fixed scene: a second call changes nothing, whatever the
    first one clamped or recomputed. *)
Theorem EnsureInitialized_idempotent `{MathDefs} `{QuaternionMath} `{ChainSolvers} (sc : Scene) :
  (forall s, IKIdentitySolver.EnsureInitialized sc (IKIdentitySolver.EnsureInitialized sc s)
             = IKIdentitySolver.EnsureInitialized sc s) /\
  (forall s, IKLegSolver.EnsureInitialized sc (IKLegSolver.EnsureInitialized sc s)
             = IKLegSolver.EnsureInitialized sc s) /\
  (forall s, IKArmSolver.EnsureInitialized (IKArmSolver.EnsureInitialized s)
             = IKArmSolver.EnsureInitialized s).
Proof.
  split; [|split].
  - apply IdentitySolver_EnsureInitialized_idempotent.
  - apply LegSolver_EnsureInitialized_idempotent.
  - apply ArmSolver_EnsureInitialized_idempotent.
Qed.

(** ** Initialization in closed form *)

Lemma AddBones_outcome (sc : Scene) (names : list string) (c : IKSolverComponent)
    (nodeCache : gmap Node IKNode) (chain : IKNodeChain) :
  (AddBones sc names c nodeCache chain).1.2
    = mkIKSolverComponent (node_ c) (solverNodes_ c ++ resolvedPrefix sc (node_ c) names) /\
  (AddBones sc names c nodeCache chain).2
    = emplaceAll (resolvedPrefix sc (node_ c) names) nodeCache.
Proof.
  revert c nodeCache chain. induction names as [|name rest IH]; intros c nodeCache chain; simpl.
  - rewrite app_nil_r. destruct c; split; reflexivity.
  - unfold AddSolverNode. destruct (GetChild sc (node_ c) name) as [boneNode|]; simpl.
    + destruct (IH (mkIKSolverComponent (node_ c) (solverNodes_ c ++ [boneNode]))
                  (emplace boneNode IKNodeOps.fresh nodeCache)
                  (IKNodeChainOps.AddNode boneNode chain)) as [E1 E2].
      rewrite E1, E2. simpl. rewrite <- app_assoc. split; reflexivity.
    + rewrite app_nil_r. destruct c; split; reflexivity.
Qed.

Lemma emplaceAll_lookup (nodes : list Node) (nodeCache : gmap Node IKNode) (n : Node) :
  emplaceAll nodes nodeCache !! n =
    match nodeCache !! n with
    | Some solverNode => Some solverNode
    | None => if decide (n ∈ nodes) then Some IKNodeOps.fresh else None
    end.
Proof.
  revert nodeCache. induction nodes as [|k rest IH]; intros nodeCache; simpl.
  - destruct (nodeCache !! n); [reflexivity|].
    destruct (decide (n ∈ [])) as [Hin|]; [|reflexivity].
    apply elem_of_nil in Hin. contradiction.
  - unfold emplaceAll in *. simpl. rewrite IH. unfold emplace.
    destruct (nodeCache !! k) eqn:Hk.
    + destruct (nodeCache !! n) eqn:Hn; [reflexivity|].
      destruct (decide (n ∈ rest)) as [Hin | Hnot];
        destruct (decide (n ∈ k :: rest)) as [Hin' | Hnot']; try reflexivity.
      * exfalso. apply Hnot'. now apply list_elem_of_further.
      * exfalso. apply elem_of_cons in Hin' as [-> | Hin']; [congruence | contradiction].
    + destruct (decide (k = n)) as [-> | Hne].
      * rewrite lookup_insert_eq, Hk.
        destruct (decide (n ∈ n :: rest)) as [|Hnot]; [reflexivity|].
        exfalso. apply Hnot. apply list_elem_of_here.
      * rewrite lookup_insert_ne by exact Hne.
        destruct (nodeCache !! n); [reflexivity|].
        destruct (decide (n ∈ rest)) as [Hin | Hnot];
          destruct (decide (n ∈ k :: rest)) as [Hin' | Hnot']; try reflexivity.
        -- exfalso. apply Hnot'. now apply list_elem_of_further.
        -- exfalso. apply elem_of_cons in Hin' as [-> | Hin']; [congruence | contradiction].
Qed.

(** The owned nodes and the node cache after [Initialize], in closed form. *)
Lemma Initialize_outcome (sc : Scene) (c : SolverComponent) (nodeCache : gmap Node IKNode) :
  base (Initialize sc c nodeCache).1.2
    = mkIKSolverComponent (node_ (base c)) (tail (registeredNodes sc c)) /\
  (Initialize sc c nodeCache).2 = emplaceAll (registeredNodes sc c) nodeCache.
Proof.
  unfold registeredNodes.
  destruct c as [s|s|s|s|s|s]; simpl.
  - unfold IKChainSolver.Initialize, IKChainSolver.InitializeNodes, AddCheckedNode. simpl.
    destruct (GetChild sc (node_ (IKChainSolver.base s)) (IKChainSolver.targetName_ s))
      as [target|]; simpl; [|split; reflexivity].
    destruct (AddBones_outcome sc (IKChainSolver.boneNames_ s)
                (clearSolverNodes (IKChainSolver.base s))
                (emplace target IKNodeOps.fresh nodeCache) IKNodeChainOps.empty) as [E1 E2].
    destruct (AddBones _ _ _ _ _) as [[[chain|] base'] cache2]; simpl in *;
      rewrite E1, E2; split; reflexivity.
  - unfold IKIdentitySolver.Initialize, IKIdentitySolver.InitializeNodes,
      AddCheckedNode, AddSolverNode. simpl.
    resolve_names; split; reflexivity.
  - unfold IKTrigonometrySolver.Initialize, IKTrigonometrySolver.InitializeNodes,
      AddCheckedNode, Init_bind, Init_ret, bone, AddSolverNode. simpl.
    resolve_names; split; reflexivity.
  - unfold IKLegSolver.Initialize, IKLegSolver.InitializeNodes,
      AddCheckedNode, Init_bind, Init_ret, bone, AddSolverNode. simpl.
    resolve_names; split; reflexivity.
  - unfold IKSpineSolver.Initialize, IKSpineSolver.InitializeNodes, AddCheckedNode. simpl.
    destruct (GetChild sc (node_ (IKSpineSolver.base s)) (IKSpineSolver.targetName_ s))
      as [target|]; simpl; [|split; reflexivity].
    destruct (AddBones_outcome sc (IKSpineSolver.boneNames_ s)
                (clearSolverNodes (IKSpineSolver.base s))
                (emplace target IKNodeOps.fresh nodeCache) IKNodeChainOps.empty) as [E1 E2].
    destruct (AddBones _ _ _ _ _) as [[[chain|] base'] cache2]; simpl in *;
      rewrite E1, E2; split; reflexivity.
  - unfold IKArmSolver.Initialize, IKArmSolver.InitializeNodes,
      AddCheckedNode, Init_bind, Init_ret, bone, AddSolverNode. simpl.
    resolve_names; split; reflexivity.
Qed.

(** X8. After [Initialize], succeeded or not, the owned nodes of a component
    are the nodes its bone names resolve to, in the configured order and up
    to the first name that does not resolve; they are none when the target
    name does not resolve. The target is not among them unless a bone name
    resolves to it as well. *)
Theorem Initialize_owned_nodes (sc : Scene) (c : SolverComponent)
    (nodeCache : gmap Node IKNode) :
  solverNodes_ (base (Initialize sc c nodeCache).1.2) =
    match GetChild sc (node_ (base c)) (targetName c) with
    | None => []
    | Some _ => resolvedPrefix sc (node_ (base c)) (boneNames c)
    end.
Proof.
  destruct (Initialize_outcome sc c nodeCache) as [E _]. rewrite E. simpl.
  unfold registeredNodes. destruct (GetChild _ _ _); reflexivity.
Qed.

(** X9. [Initialize] only adds to the node cache: every slot that was there
    keeps its solving node, the target and the bones found that had no slot
    get a fresh one ([IKNode{}]), and no other slot appears. *)
Theorem Initialize_node_cache (sc : Scene) (c : SolverComponent)
    (nodeCache : gmap Node IKNode) (n : Node) :
  (Initialize sc c nodeCache).2 !! n =
    match nodeCache !! n with
    | Some solverNode => Some solverNode
    | None => if decide (n ∈ registeredNodes sc c) then Some IKNodeOps.fresh else None
    end.
Proof.
  destruct (Initialize_outcome sc c nodeCache) as [_ E]. rewrite E. apply emplaceAll_lookup.
Qed.

Lemma emplace_present (key : Node) (value : IKNode) (nodeCache : gmap Node IKNode) :
  is_Some (nodeCache !! key) -> emplace key value nodeCache = nodeCache.
Proof. intros [v Hv]. unfold emplace. now rewrite Hv. Qed.

Lemma emplaceAll_is_Some (nodes : list Node) (nodeCache : gmap Node IKNode) (n : Node) :
  n ∈ nodes \/ is_Some (nodeCache !! n) -> is_Some (emplaceAll nodes nodeCache !! n).
Proof.
  intros Hn. rewrite emplaceAll_lookup. destruct (nodeCache !! n) eqn:E; [eauto|].
  destruct Hn as [Hin | [v Hv]]; [|discriminate].
  destruct (decide (n ∈ nodes)); [eauto | contradiction].
Qed.

Lemma AddBones_replay (sc : Scene) (names : list string) (c : IKSolverComponent)
    (nodeCache cacheX : gmap Node IKNode) (chain : IKNodeChain) :
  (forall n, n ∈ resolvedPrefix sc (node_ c) names -> is_Some (cacheX !! n)) ->
  AddBones sc names c cacheX chain
    = ((AddBones sc names c nodeCache chain).1.1, (AddBones sc names c nodeCache chain).1.2,
       cacheX).
Proof.
  revert c nodeCache cacheX chain.
  induction names as [|name rest IH]; intros c nodeCache cacheX chain Hall; simpl; [reflexivity|].
  simpl in Hall. unfold AddSolverNode.
  destruct (GetChild sc (node_ c) name) as [boneNode|]; simpl; [|reflexivity].
  rewrite (emplace_present boneNode _ cacheX) by (apply Hall, list_elem_of_here).
  apply IH. intros n Hn. apply Hall. now apply list_elem_of_further.
Qed.

Ltac present :=
  solve [ apply emplace_is_Some; left; reflexivity
        | apply emplace_is_Some; right; present ].

Ltac open_Initialize :=
  repeat progress
    (unfold IKChainSolver.Initialize, IKChainSolver.InitializeNodes,
       IKIdentitySolver.Initialize, IKIdentitySolver.InitializeNodes,
       IKTrigonometrySolver.Initialize, IKTrigonometrySolver.InitializeNodes,
       IKLegSolver.Initialize, IKLegSolver.InitializeNodes,
       IKSpineSolver.Initialize, IKSpineSolver.InitializeNodes,
       IKArmSolver.Initialize, IKArmSolver.InitializeNodes,
       AddCheckedNode, Init_bind, Init_ret, bone, AddSolverNode, lift; simpl).

Ltac replay :=
  repeat match goal with
  | E : GetChild ?sc ?n ?name = _ |- context [GetChild ?sc ?n ?name] => rewrite E; simpl
  end;
  repeat (rewrite emplace_present by present);
  reflexivity.

Ltac replay_bone_loop sc names c0 target nodeCache :=
  let E1 := fresh "E1" in let E2 := fresh "E2" in let R := fresh "R" in
  destruct (AddBones_outcome sc names c0 (emplace target IKNodeOps.fresh nodeCache)
              IKNodeChainOps.empty) as [E1 E2];
  pose proof (AddBones_replay sc names c0 (emplace target IKNodeOps.fresh nodeCache)
                (emplaceAll (resolvedPrefix sc (node_ c0) names)
                   (emplace target IKNodeOps.fresh nodeCache))
                IKNodeChainOps.empty
                (fun n Hn => emplaceAll_is_Some _ _ n (or_introl Hn))) as R;
  destruct (AddBones sc names c0 (emplace target IKNodeOps.fresh nodeCache)
              IKNodeChainOps.empty) as [[[chain|] base'] cache2];
  simpl in *; subst base' cache2; open_Initialize;
  match goal with E : GetChild _ _ _ = _ |- _ => rewrite E end; simpl;
  (rewrite emplace_present
     by (apply emplaceAll_is_Some; right; apply emplace_is_Some; left; reflexivity));
  unfold clearSolverNodes in *; simpl in *; rewrite R; reflexivity.

(** X10. [Initialize] is idempotent: run again on the component and the
    node cache it returned, under the same scene, it returns the same flag,
    the same component and the same node cache; the owned nodes do not
    accumulate. *)
Theorem Initialize_idempotent (sc : Scene) (c : SolverComponent)
    (nodeCache : gmap Node IKNode) :
  Initialize sc (Initialize sc c nodeCache).1.2 (Initialize sc c nodeCache).2
    = Initialize sc c nodeCache.
Proof.
  destruct c as [s|s|s|s|s|s]; simpl.
  - open_Initialize.
    destruct (GetChild sc (node_ (IKChainSolver.base s)) (IKChainSolver.targetName_ s))
      as [target|] eqn:Ht; open_Initialize; [|rewrite Ht; reflexivity].
    replay_bone_loop sc (IKChainSolver.boneNames_ s) (clearSolverNodes (IKChainSolver.base s))
      target nodeCache.
  - open_Initialize. resolve_names; open_Initialize; replay.
  - open_Initialize. resolve_names; open_Initialize; replay.
  - open_Initialize. resolve_names; open_Initialize; replay.
  - open_Initialize.
    destruct (GetChild sc (node_ (IKSpineSolver.base s)) (IKSpineSolver.targetName_ s))
      as [target|] eqn:Ht; open_Initialize; [|rewrite Ht; reflexivity].
    replay_bone_loop sc (IKSpineSolver.boneNames_ s) (clearSolverNodes (IKSpineSolver.base s))
      target nodeCache.
  - open_Initialize. resolve_names; open_Initialize; replay.
Qed.

(** ** What [Solve] hands to [SolveInternal] *)

Lemma PullTransforms_unowned (sc : Scene) (nodes : list Node) (nodeCache : gmap Node IKNode)
    (node : Node) :
  node ∉ nodes -> PullTransforms sc nodes nodeCache !! node = nodeCache !! node.
Proof.
  revert nodeCache. induction nodes as [|n rest IH]; intros nodeCache Hnot; [reflexivity|].
  apply not_elem_of_cons in Hnot as [Hne Hrest].
  unfold PullTransforms in *. simpl. rewrite IH by exact Hrest.
  apply lookup_alter_ne. congruence.
Qed.

(** The loop creates no slot and removes none. *)
Lemma PullTransforms_is_Some (sc : Scene) (nodes : list Node) (nodeCache : gmap Node IKNode)
    (node : Node) :
  is_Some (PullTransforms sc nodes nodeCache !! node) <-> is_Some (nodeCache !! node).
Proof.
  revert nodeCache. induction nodes as [|n rest IH]; intros nodeCache; [reflexivity|].
  unfold PullTransforms in *. simpl. rewrite IH.
  destruct (decide (n = node)) as [-> | Hne].
  - rewrite lookup_alter_eq.
    destruct (nodeCache !! node); simpl; split; intros [? ?]; eauto; discriminate.
  - rewrite lookup_alter_ne by exact Hne. reflexivity.
Qed.

Lemma PullTransforms_owned (sc : Scene) (nodes : list Node) (nodeCache : gmap Node IKNode)
    (node : Node) (solverNode : IKNode) :
  node ∈ nodes -> nodeCache !! node = Some solverNode ->
  exists solverNode',
    PullTransforms sc nodes nodeCache !! node = Some solverNode' /\
    position_ solverNode' = GetWorldPosition sc node /\
    rotation_ solverNode' = GetWorldRotation sc node /\
    originalPosition_ solverNode' = originalPosition_ solverNode /\
    originalRotation_ solverNode' = originalRotation_ solverNode.
Proof.
  revert nodeCache solverNode.
  induction nodes as [|n rest IH]; intros nodeCache solverNode Hin Hslot.
  - apply elem_of_nil in Hin. contradiction.
  - unfold PullTransforms in *. simpl.
    set (step := alter _ n nodeCache).
    destruct (decide (node ∈ rest)) as [Hrest | Hrest].
    + destruct (decide (n = node)) as [-> | Hne].
      * assert (Hstep : step !! node = Some
                  (IKNodeOps.StorePreviousTransform
                     (IKNodeOps.setRotation (GetWorldRotation sc node)
                        (IKNodeOps.setPosition (GetWorldPosition sc node) solverNode)))).
        { subst step. rewrite lookup_alter_eq, Hslot. reflexivity. }
        destruct (IH step _ Hrest Hstep) as (v' & Hv' & Hp & Hr & Hop & Hor).
        exists v'. split; [exact Hv'|]. repeat split; assumption.
      * assert (Hstep : step !! node = Some solverNode).
        { subst step. rewrite lookup_alter_ne by exact Hne. exact Hslot. }
        exact (IH step _ Hrest Hstep).
    + apply elem_of_cons in Hin as [-> | Hin]; [|contradiction].
      fold (PullTransforms sc rest step). rewrite PullTransforms_unowned by exact Hrest.
      subst step. rewrite lookup_alter_eq, Hslot. simpl.
      eexists. split; [reflexivity|]. repeat split.
Qed.

(** X11. When [Solve] returns, [SolveInternal] was run on a node cache in
    which the solving node of every owned node holds the current world
    position and world rotation of that node, with its rest pose as before;
    the slots of the nodes the component does not own were handed over as
    they were (the target among them: it is read from the scene, not from
    the cache), and no slot was added or removed. *)
Theorem Solve_pulls_world_transforms `{SG : SceneGraph} {Derived : Type}
    (base : Derived -> IKSolverComponent)
    (SolveInternal : IKSettings -> Scene -> Derived -> gmap Node IKNode ->
                     option (Derived * gmap Node IKNode))
    (settings : IKSettings) (sc sc' : Scene) (this this' : Derived)
    (nodeCache cache' : gmap Node IKNode) :
  IKSolverComponentOps.Solve base SolveInternal settings sc this nodeCache
    = Some (this', cache', sc') ->
  exists handed,
    SolveInternal settings sc this handed = Some (this', cache') /\
    (forall node solverNode,
       node ∈ solverNodes_ (base this) -> nodeCache !! node = Some solverNode ->
       exists solverNode',
         handed !! node = Some solverNode' /\
         position_ solverNode' = GetWorldPosition sc node /\
         rotation_ solverNode' = GetWorldRotation sc node /\
         originalPosition_ solverNode' = originalPosition_ solverNode /\
         originalRotation_ solverNode' = originalRotation_ solverNode) /\
    (forall node, node ∉ solverNodes_ (base this) -> handed !! node = nodeCache !! node) /\
    (forall node, is_Some (handed !! node) <-> is_Some (nodeCache !! node)).
Proof.
  unfold IKSolverComponentOps.Solve.
  destruct (SolveInternal settings sc this _) as [[this1 cache1]|] eqn:Hsolve;
    [|discriminate].
  intros [= <- <- <-].
  exists (PullTransforms sc (solverNodes_ (base this)) nodeCache).
  split; [exact Hsolve|]. split; [|split].
  - intros node solverNode. apply PullTransforms_owned.
  - intros node. apply PullTransforms_unowned.
  - intros node. apply PullTransforms_is_Some.
Qed.

(** X11 on the rig: the identity solver is handed the hand bone (node 5) at
    its world position. *)
Lemma Solve_pulls_world_transforms_run :
  exists this' cache' handed solverNode,
    IKIdentitySolver.SolveInternal (H := Run.Hamilton) Run.settings Run.rig Run.handSolver handed
      = Some (this', cache') /\
    handed !! 5%positive = Some solverNode /\
    position_ solverNode = GetWorldPosition Run.rig 5%positive /\
    handed !! 6%positive = Run.handCache !! 6%positive.
Proof.
  destruct (IKSolverComponentOps.Solve (SG := Run.Detached) IKIdentitySolver.base
              (IKIdentitySolver.SolveInternal (H := Run.Hamilton))
              Run.settings Run.rig Run.handSolver Run.handCache)
    as [[[this' cache'] sc']|] eqn:E; [|vm_compute in E; discriminate].
  destruct (Solve_pulls_world_transforms _ _ _ _ _ _ _ _ _ E)
    as (handed & Hrun & Howned & Hother & _).
  destruct (Howned 5%positive IKNodeOps.fresh) as (solverNode & Hslot & Hposition & _).
  - apply list_elem_of_here.
  - reflexivity.
  - exists this', cache', handed, solverNode.
    split; [exact Hrun|]. split; [exact Hslot|]. split; [exact Hposition|].
    apply Hother. intros Hin. apply elem_of_cons in Hin as [Hin | Hin]; [discriminate|].
    apply elem_of_nil in Hin. exact Hin.
Defined.

(** ** Solving after a successful initialization *)

Section Safety.
Context `{SG : SceneGraph} `{MathDefs} `{QuaternionMath} `{ChainSolvers}.

(** The slots a solve step looks up are there. *)
Ltac have_slots Hdom :=
  repeat match goal with
  | |- context [?m !! ?k] =>
      let E := fresh "E" in
      destruct (m !! k) eqn:E; simpl;
      [| exfalso;
         assert (is_Some (m !! k)) as [? ?] by (apply Hdom; present);
         congruence ]
  end.

(** The cache [Solve] hands to [SolveInternal] has the slots of the one it
    was given. *)
Ltac pull_slots Hdom Hslots :=
  unfold Solve, IKSolverComponentOps.Solve; cbv zeta;
  match goal with |- context [PullTransforms ?sc ?nodes ?cache] =>
    let Hp := fresh "Hp" in
    pose proof (fun n (Hn : is_Some (cache !! n)) =>
                  proj2 (PullTransforms_is_Some sc nodes cache n) Hn) as Hp;
    generalize dependent (PullTransforms sc nodes cache);
    let pulledCache := fresh "pulledCache" in
    intros pulledCache Hp;
    pose proof (fun n Hn => Hp n (Hdom n Hn)) as Hslots; clear Hp
  end.

(** X12. A component whose [Initialize] returned [true] can be solved: on
    every scene, and on every node cache that still has the slots
    [Initialize] left, [Solve] dereferences no null pointer and no missing
    slot, provided the two-bone chain solver removes no slot from the cache
    (the leg solver reads the heel and the toe after it). *)
Theorem Solve_after_Initialize (settings : IKSettings) (sc0 sc : Scene)
    (c c1 : SolverComponent) (cache0 cache1 nodeCache : gmap Node IKNode) :
  Initialize sc0 c cache0 = (true, c1, cache1) ->
  (forall n, is_Some (cache1 !! n) -> is_Some (nodeCache !! n)) ->
  (forall chain target bendDirection minAngle maxAngle cache n,
     is_Some (cache !! n) ->
     is_Some ((TrigonometricChain_Solve chain target bendDirection minAngle maxAngle cache).2
                !! n)) ->
  is_Some (Solve settings sc c1 nodeCache).
Proof.
  intros Hinit Hdom Hkeeps.
  destruct c as [s|s|s|s|s|s]; simpl in Hinit; open_Initialize.
  - revert Hinit. open_Initialize.
    destruct (GetChild sc0 _ (IKChainSolver.targetName_ s)) as [target|]; simpl; [|discriminate].
    destruct (AddBones _ _ _ _ _) as [[[chain|] base'] cache2]; simpl; [|discriminate].
    intros [= <- <-]. pull_slots Hdom Hslots. simpl.
    unfold IKChainSolver.SolveInternal. simpl. eauto.
  - revert Hinit. open_Initialize.
    destruct (GetChild sc0 _ (IKIdentitySolver.targetName_ s)) as [target|]; simpl; [|discriminate].
    destruct (GetChild sc0 _ (IKIdentitySolver.boneName_ s)) as [boneNode|]; simpl; [|discriminate].
    intros [= <- <-]. pull_slots Hdom Hslots. simpl.
    unfold IKIdentitySolver.SolveInternal.
    match goal with |- context [IKIdentitySolver.EnsureInitialized sc ?s0] =>
      destruct (EnsureInitialized_nodes sc s0) as (Eb & En & Et); rewrite En, Et; simpl
    end.
    have_slots Hslots. eauto.
  - revert Hinit. open_Initialize.
    destruct (GetChild sc0 _ (IKTrigonometrySolver.targetName_ s)) as [target|]; simpl; [|discriminate].
    destruct (GetChild sc0 _ (IKTrigonometrySolver.firstBoneName_ s)) as [b1|]; simpl; [|discriminate].
    destruct (GetChild sc0 _ (IKTrigonometrySolver.secondBoneName_ s)) as [b2|]; simpl; [|discriminate].
    destruct (GetChild sc0 _ (IKTrigonometrySolver.thirdBoneName_ s)) as [b3|]; simpl; [|discriminate].
    intros [= <- <-]. pull_slots Hdom Hslots. simpl.
    unfold IKTrigonometrySolver.SolveInternal. simpl.
    destruct (TrigonometricChain_Solve _ _ _ _ _ _). simpl. eauto.
  - revert Hinit. open_Initialize.
    destruct (GetChild sc0 _ (IKLegSolver.targetName_ s)) as [target|]; simpl; [|discriminate].
    destruct (GetChild sc0 _ (IKLegSolver.thighBoneName_ s)) as [b1|]; simpl; [|discriminate].
    destruct (GetChild sc0 _ (IKLegSolver.calfBoneName_ s)) as [b2|]; simpl; [|discriminate].
    destruct (GetChild sc0 _ (IKLegSolver.heelBoneName_ s)) as [b3|]; simpl; [|discriminate].
    destruct (GetChild sc0 _ (IKLegSolver.toeBoneName_ s)) as [b4|]; simpl; [|discriminate].
    intros [= <- <-]. pull_slots Hdom Hslots. simpl.
    unfold IKLegSolver.SolveInternal, IKLegSolver.CalculateCurrentBendDirection,
      IKLegSolver.CalculateFootDirectionStraight, IKLegSolver.CalculateFootDirectionBent.
    match goal with |- context [IKLegSolver.EnsureInitialized sc ?s0] =>
      destruct (LegSolver_EnsureInitialized_nodes sc s0) as (Eb & Ec & Ef & Et);
      rewrite ?Eb, ?Ec, ?Ef, ?Et; simpl
    end.
    have_slots Hslots.
    destruct (TrigonometricChain_SolvePositions _ _ _ _ _ _ _). simpl.
    match goal with |- context [TrigonometricChain_Solve ?a ?b ?c ?d ?e ?f] =>
      pose proof (Hkeeps a b c d e f) as Hk;
      destruct (TrigonometricChain_Solve a b c d e f) as [chain' cache'] end.
    simpl in *.
    destruct (cache' !! b3) eqn:E3; simpl;
      [| exfalso; destruct (Hk b3) as [? ?]; [apply Hslots; present | congruence] ].
    destruct (cache' !! b4) eqn:E4; simpl;
      [| exfalso; destruct (Hk b4) as [? ?]; [apply Hslots; present | congruence] ].
    eauto.
  - revert Hinit. open_Initialize.
    destruct (GetChild sc0 _ (IKSpineSolver.targetName_ s)) as [target|]; simpl; [|discriminate].
    destruct (AddBones _ _ _ _ _) as [[[chain|] base'] cache2]; simpl; [|discriminate].
    intros [= <- <-]. pull_slots Hdom Hslots. simpl.
    unfold IKSpineSolver.SolveInternal. simpl. eauto.
  - revert Hinit. open_Initialize.
    destruct (GetChild sc0 _ (IKArmSolver.targetName_ s)) as [target|]; simpl; [|discriminate].
    destruct (GetChild sc0 _ (IKArmSolver.shoulderBoneName_ s)) as [b1|]; simpl; [|discriminate].
    destruct (GetChild sc0 _ (IKArmSolver.armBoneName_ s)) as [b2|]; simpl; [|discriminate].
    destruct (GetChild sc0 _ (IKArmSolver.forearmBoneName_ s)) as [b3|]; simpl; [|discriminate].
    destruct (GetChild sc0 _ (IKArmSolver.handBoneName_ s)) as [b4|]; simpl; [|discriminate].
    intros [= <- <-]. pull_slots Hdom Hslots. simpl.
    unfold IKArmSolver.SolveInternal, IKArmSolver.CalculateMaxShoulderRotation,
      IKArmSolver.RotateShoulder, IKArmSolver.SolveArmChain. simpl.
    have_slots Hslots.
    destruct (ToSwingTwist _ _). simpl.
    destruct (TrigonometricChain_Solve _ _ _ _ _ _). simpl. eauto.
Qed.

(** [SolveInternal] leaves the owned nodes of the component as they are. *)
Lemma SolveInternal_base (settings : IKSettings) (sc : Scene) (c c' : SolverComponent)
    (nodeCache cache' : gmap Node IKNode) :
  SolveInternal settings sc c nodeCache = Some (c', cache') -> base c' = base c.
Proof.
  destruct c as [s|s|s|s|s|s]; simpl.
  - unfold IKChainSolver.SolveInternal. destruct (IKChainSolver.targetNode_ s); simpl;
      [|discriminate]. intros [= <- <-]. reflexivity.
  - unfold IKIdentitySolver.SolveInternal.
    destruct (EnsureInitialized_nodes sc s) as (Eb & En & Et).
    destruct (IKIdentitySolver.boneNode_ _); [|discriminate].
    destruct (IKIdentitySolver.target_ _); [|discriminate].
    destruct (nodeCache !! _); simpl; [|discriminate].
    intros [= <- <-]. exact Eb.
  - unfold IKTrigonometrySolver.SolveInternal.
    destruct (IKTrigonometrySolver.target_ s); [|discriminate].
    destruct (TrigonometricChain_Solve _ _ _ _ _ _). simpl.
    intros [= <- <-]. reflexivity.
  - unfold IKLegSolver.SolveInternal.
    destruct (LegSolver_EnsureInitialized_nodes sc s) as (Eb & _).
    set (s1 := IKLegSolver.EnsureInitialized sc s) in *.
    destruct (IKLegSolver.target_ s1); simpl; [|discriminate].
    destruct (IKTrigonometricChainOps.GetEndNode _); simpl; [|discriminate].
    destruct (IKLegSolver.CalculateCurrentBendDirection _ _ _ _); simpl; [|discriminate].
    destruct (IKLegSolver.CalculateFootDirectionStraight _ _ _ _); simpl; [|discriminate].
    destruct (IKLegSolver.CalculateFootDirectionBent _ _ _ _); simpl; [|discriminate].
    destruct (TrigonometricChain_Solve _ _ _ _ _ _) as [chain' cache1]. simpl.
    destruct (cache1 !! _); simpl; [|discriminate].
    destruct (endNode_ _); simpl; [|discriminate].
    destruct (cache1 !! _); simpl; [|discriminate].
    intros [= <- <-]. exact Eb.
  - unfold IKSpineSolver.SolveInternal. destruct (IKSpineSolver.target_ s); simpl;
      [|discriminate]. intros [= <- <-]. reflexivity.
  - unfold IKArmSolver.SolveInternal.
    destruct (IKArmSolver.target_ _); simpl; [|discriminate].
    destruct (IKArmSolver.CalculateMaxShoulderRotation _ _ _); simpl; [|discriminate].
    destruct (ToSwingTwist _ _).
    destruct (IKArmSolver.RotateShoulder _ _ _); simpl; [|discriminate].
    unfold IKArmSolver.SolveArmChain.
    destruct (TrigonometricChain_Solve _ _ _ _ _ _). simpl.
    intros [= <- <-]. reflexivity.
Qed.

(** X13. [Solve] of an initialized component calls [SetWorldPosition] and
    [SetWorldRotation] on nodes its bone names resolved to and on no other
    node; the scene it leaves is the scene it was given with these calls
    applied. So the target is written only when a bone name resolves to it
    too. *)
Theorem Solve_writes_only_bones (settings : IKSettings) (sc0 sc sc' : Scene) (ok : bool)
    (c c1 c2 : SolverComponent) (cache0 cache1 nodeCache cache2 : gmap Node IKNode) :
  Initialize sc0 c cache0 = (ok, c1, cache1) ->
  Solve settings sc c1 nodeCache = Some (c2, cache2, sc') ->
  let bones := resolvedPrefix sc0 (node_ (base c)) (boneNames c) in
  let writes := sceneWrites (solverNodes_ (base c2)) cache2 in
  sc' = foldl applyWrite sc writes /\
  (forall node v, WritePosition node v ∈ writes -> node ∈ bones) /\
  (forall node q, WriteRotation node q ∈ writes -> node ∈ bones).
Proof.
  intros Hinit Hsolve. cbv zeta.
  pose proof (Initialize_owned_nodes sc0 c cache0) as Howned.
  rewrite Hinit in Howned. cbn [fst snd] in Howned.
  unfold Solve, IKSolverComponentOps.Solve in Hsolve.
  destruct (SolveInternal settings sc c1 _) as [[c2' cache2']|] eqn:Hinternal;
    [|discriminate].
  injection Hsolve as -> -> <-.
  rewrite (SolveInternal_base _ _ _ _ _ _ Hinternal), Howned.
  split; [apply PushTransforms_sceneWrites|].
  assert (Hin : forall node,
            node ∈ match GetChild sc0 (node_ (base c)) (targetName c) with
                   | Some _ => resolvedPrefix sc0 (node_ (base c)) (boneNames c)
                   | None => []
                   end ->
            node ∈ resolvedPrefix sc0 (node_ (base c)) (boneNames c)).
  { intros node. destruct (GetChild _ _ _); [tauto|].
    intros Hnil. apply elem_of_nil in Hnil. contradiction. }
  split.
  - intros node v Hw. apply sceneWrites_position in Hw as [Hnode _]. now apply Hin.
  - intros node q Hw. apply sceneWrites_rotation in Hw as [Hnode _]. now apply Hin.
Qed.

End Safety.

(** ** Runs of the properties above *)

(** X5 on a leg solver configured with knee limits -10 and 200 and bend
    weight 2. *)
Lemma LegSolver_EnsureInitialized_limits_run :
  let s' := IKLegSolver.EnsureInitialized (H0 := Run.Hamilton) Run.rig
              (Run.legSolver (of_Z (-1))) in
  IKLegSolver.minKneeAngle_ s' = of_Z 0 /\
  IKLegSolver.maxKneeAngle_ s' = of_Z 180 /\
  IKLegSolver.bendWeight_ s' = of_Z 1 /\
  (of_Z 0 <=? IKLegSolver.bendWeight_ s')%f32 = true /\
  (IKLegSolver.bendWeight_ s' <=? of_Z 1)%f32 = true.
Proof.
  pose proof (LegSolver_EnsureInitialized_limits (H0 := Run.Hamilton) Run.rig
                (Run.legSolver (of_Z (-1))) eq_refl eq_refl eq_refl) as (_ & _ & [Hlo Hhi]).
  cbv zeta. split; [reflexivity|]. split; [reflexivity|]. split; [reflexivity|].
  split; [exact Hlo | exact Hhi].
Defined.

(** X6 on a leg solver with min heel angle 30: the rig and the turned rig
    give the same component. *)
Lemma LegSolver_EnsureInitialized_scene_independent_run :
  IKLegSolver.EnsureInitialized (H0 := Run.Hamilton) Run.rig (Run.legSolver (of_Z 30))
    = IKLegSolver.EnsureInitialized (H0 := Run.Hamilton) Run.turnedRig
        (Run.legSolver (of_Z 30)) /\
  IKLegSolver.minHeelAngle_
    (IKLegSolver.EnsureInitialized (H0 := Run.Hamilton) Run.rig (Run.legSolver (of_Z 30)))
    = of_Z 30.
Proof.
  apply (LegSolver_EnsureInitialized_scene_independent (H0 := Run.Hamilton)
           Run.rig Run.turnedRig (Run.legSolver (of_Z 30))).
  left. reflexivity.
Defined.

(** X12 on the rig: the arm solver, initialized against an empty cache, is
    solved on the cache that initialization left. *)
Lemma Solve_after_Initialize_run :
  (Initialize Run.rig (ArmSolver Run.armSolver0) ∅).1.1 = true /\
  is_Some (Solve (SG := Run.Detached) (H := Run.RightAngles) (H0 := Run.Hamilton) (H1 := Run.Probe)
             Run.settings Run.rig (Initialize Run.rig (ArmSolver Run.armSolver0) ∅).1.2
             (Initialize Run.rig (ArmSolver Run.armSolver0) ∅).2).
Proof.
  split; [reflexivity|].
  apply (Solve_after_Initialize (SG := Run.Detached) (H := Run.RightAngles) (H0 := Run.Hamilton) (H1 := Run.Probe)
           Run.settings Run.rig Run.rig (ArmSolver Run.armSolver0)
           (Initialize Run.rig (ArmSolver Run.armSolver0) ∅).1.2 ∅
           (Initialize Run.rig (ArmSolver Run.armSolver0) ∅).2
           (Initialize Run.rig (ArmSolver Run.armSolver0) ∅).2).
  - reflexivity.
  - intros n Hn. exact Hn.
  - intros chain target bendDirection minAngle maxAngle cache n Hn. exact Hn.
Defined.

(** X13 on the rig: the identity solver writes to the hand bone (node 5)
    only. *)
Lemma Solve_writes_only_bones_run :
  exists c2 cache2 sc',
    Solve (SG := Run.Detached) (H := Run.RightAngles) (H0 := Run.Hamilton) (H1 := Run.Probe)
      Run.settings Run.rig (IdentitySolver Run.handSolver) Run.handCache
      = Some (c2, cache2, sc') /\
    (forall node v,
       WritePosition node v ∈ sceneWrites (solverNodes_ (base c2)) cache2 ->
       node ∈ [5%positive]) /\
    (forall node q,
       WriteRotation node q ∈ sceneWrites (solverNodes_ (base c2)) cache2 ->
       node ∈ [5%positive]).
Proof.
  destruct (Solve (SG := Run.Detached) (H := Run.RightAngles) (H0 := Run.Hamilton) (H1 := Run.Probe)
              Run.settings Run.rig (IdentitySolver Run.handSolver) Run.handCache)
    as [[[c2 cache2] sc']|] eqn:E; [|vm_compute in E; discriminate].
  exists c2, cache2, sc'. split; [reflexivity|].
  exact (proj2 (Solve_writes_only_bones (SG := Run.Detached) (H := Run.RightAngles)
                  (H0 := Run.Hamilton) (H1 := Run.Probe) Run.settings Run.rig Run.rig _ true
                  (IdentitySolver Run.handSolver0) (IdentitySolver Run.handSolver)
                  c2 ∅ Run.handCache Run.handCache cache2 eq_refl E)).
Defined.

(** ** Debug drawing *)

(** Case analysis on the pointers and the slots a drawing reads. *)
Ltac read_slots :=
  repeat match goal with
  | |- context [match ?p with Some _ => _ | None => _ end] =>
      let E := fresh "E" in destruct p eqn:E; simpl in *; try discriminate
  | H : context [match ?p with Some _ => _ | None => _ end] |- _ =>
      let E := fresh "E" in destruct p eqn:E; simpl in *; try discriminate
  | H : context [?m !! ?k ≫= _] |- _ =>
      let E := fresh "E" in destruct (m !! k) eqn:E; simpl in *; try discriminate
  | H : context [last ?l ≫= _] |- _ =>
      let E := fresh "E" in destruct (last l) eqn:E; simpl in *; try discriminate
  | H : context [endNode_ ?g ≫= _] |- _ =>
      let E := fresh "E" in destruct (endNode_ g) eqn:E; simpl in *; try discriminate
  end.

Lemma DrawSegment_calls (nodeCache : gmap Node IKNode) (jointRadius : float)
    (segment : IKNodeSegment) (calls : list DebugCall) :
  IKSpineSolver.DrawSegment nodeCache jointRadius segment = Some calls ->
  length calls = 2 /\ Forall (fun call => depthTestOf call = false) calls.
Proof.
  unfold IKSpineSolver.DrawSegment. intros Hcalls.
  destruct (beginNode_ segment) as [b|]; simpl in Hcalls; [|discriminate].
  destruct (endNode_ segment) as [e|]; simpl in Hcalls; [|discriminate].
  destruct (nodeCache !! b); simpl in Hcalls; [|discriminate].
  destruct (nodeCache !! e); simpl in Hcalls; [|discriminate].
  injection Hcalls as <-. split; [reflexivity|]. repeat constructor.
Qed.

Lemma DrawSegments_calls (nodeCache : gmap Node IKNode) (jointRadius : float)
    (segments : list IKNodeSegment) (calls : list (list DebugCall)) :
  mapM (IKSpineSolver.DrawSegment nodeCache jointRadius) segments = Some calls ->
  length (concat calls) = 2 * length segments /\
  Forall (fun call => depthTestOf call = false) (concat calls).
Proof.
  revert calls. induction segments as [|segment rest IH]; intros calls; simpl.
  - intros [= <-]. split; [reflexivity | constructor].
  - destruct (IKSpineSolver.DrawSegment nodeCache jointRadius segment) as [first|] eqn:E;
      simpl; [|discriminate].
    destruct (mapM _ rest) as [others|]; simpl; [|discriminate].
    intros [= <-]. simpl.
    destruct (DrawSegment_calls _ _ _ _ E) as [Hlen Hall].
    destruct (IH others eq_refl) as [Hlen' Hall'].
    rewrite length_app, Hlen, Hlen'. split; [lia|].
    apply Forall_app. split; assumption.
Qed.

(** X14. [DrawDebugGeometry] of the five solvers that define it ignores its
    [depthTest] argument: with either value it makes the same calls, and
    every call it makes on the renderer passes [false] for the depth
    test. *)
Theorem DrawDebugGeometry_ignores_depthTest (GetSegments : IKNodeChain -> list IKNodeSegment)
    (sc : Scene) (c : SolverComponent) (nodeCache : gmap Node IKNode) (depthTest : bool)
    (calls : list DebugCall) :
  definesDrawDebugGeometry c = true ->
  DrawDebugGeometry GetSegments sc c nodeCache depthTest = Some calls ->
  DrawDebugGeometry GetSegments sc c nodeCache (negb depthTest) = Some calls /\
  Forall (fun call => depthTestOf call = false) calls.
Proof.
  intros Hdefines Hcalls. split; [exact Hcalls|].
  destruct c as [s|s|s|s|s|s]; simpl in Hcalls.
  - discriminate Hdefines.
  - unfold IKIdentitySolver.DrawDebugGeometry in Hcalls.
    read_slots; injection Hcalls as <-; repeat constructor.
  - unfold IKTrigonometrySolver.DrawDebugGeometry, IKTrigonometricChainOps.GetBeginNode,
      IKTrigonometricChainOps.GetMiddleNode, IKTrigonometricChainOps.GetEndNode in Hcalls.
    read_slots; injection Hcalls as <-; repeat constructor.
  - unfold IKLegSolver.DrawDebugGeometry, IKTrigonometricChainOps.GetBeginNode,
      IKTrigonometricChainOps.GetMiddleNode, IKTrigonometricChainOps.GetEndNode in Hcalls.
    read_slots; injection Hcalls as <-; repeat constructor.
  - unfold IKSpineSolver.DrawDebugGeometry in Hcalls.
    destruct (2 <=? length (GetSegments (IKSpineSolver.chain_ s)))%nat;
      (destruct (mapM _ (GetSegments (IKSpineSolver.chain_ s))) as [segmentCalls|] eqn:E;
       simpl in Hcalls; [|discriminate]);
      destruct (DrawSegments_calls _ _ _ _ E) as [_ Hall];
      read_slots; injection Hcalls as <-;
      repeat (apply Forall_app; split); try assumption; repeat constructor.
  - unfold IKArmSolver.DrawDebugGeometry, IKTrigonometricChainOps.GetBeginNode,
      IKTrigonometricChainOps.GetMiddleNode, IKTrigonometricChainOps.GetEndNode in Hcalls.
    read_slots; injection Hcalls as <-; repeat constructor.
Qed.

(** X14 on the rig: the identity solver asked to draw with the depth test
    draws its box and its sphere without it. *)
Lemma DrawDebugGeometry_ignores_depthTest_run :
  exists box sphere,
    DrawDebugGeometry Run.noSegments Run.rig (IdentitySolver Run.handSolver) Run.handCache true
      = Some [box; sphere] /\
    depthTestOf box = false /\ depthTestOf sphere = false.
Proof.
  destruct (DrawDebugGeometry Run.noSegments Run.rig (IdentitySolver Run.handSolver)
              Run.handCache true) as [[|box [|sphere [|]]]|] eqn:E;
    try (vm_compute in E; discriminate).
  exists box, sphere. split; [reflexivity|].
  destruct (DrawDebugGeometry_ignores_depthTest Run.noSegments Run.rig
              (IdentitySolver Run.handSolver) Run.handCache true _ eq_refl E) as [_ Hall].
  apply Forall_cons in Hall as [Hbox Hall]. apply Forall_cons in Hall as [Hsphere _].
  split; assumption.
Defined.

(** X15. The number of calls [DrawDebugGeometry] makes follows from the
    pointers that are set: the identity solver draws one box for its bone
    and one sphere for its target; a two-bone chain is drawn (two lines,
    three spheres, and for the trigonometry and the leg solver the bend
    line and its sphere) only when all three of its nodes are set, the foot
    and the shoulder segment (a line and a sphere) only when both of their
    nodes are; the spine solver draws a line and a sphere for each segment
    and the sphere of the last joint only when there are two segments or
    more. *)
Theorem DrawDebugGeometry_number_of_calls (GetSegments : IKNodeChain -> list IKNodeSegment)
    (sc : Scene) (c : SolverComponent) (nodeCache : gmap Node IKNode) (depthTest : bool)
    (calls : list DebugCall) :
  definesDrawDebugGeometry c = true ->
  DrawDebugGeometry GetSegments sc c nodeCache depthTest = Some calls ->
  length calls = numberOfCalls GetSegments c.
Proof.
  intros Hdefines Hcalls.
  destruct c as [s|s|s|s|s|s]; simpl in Hcalls; unfold numberOfCalls.
  - discriminate Hdefines.
  - unfold IKIdentitySolver.DrawDebugGeometry in Hcalls.
    read_slots; injection Hcalls as <-; reflexivity.
  - unfold IKTrigonometrySolver.DrawDebugGeometry, IKTrigonometricChainOps.GetBeginNode,
      IKTrigonometricChainOps.GetMiddleNode, IKTrigonometricChainOps.GetEndNode in Hcalls.
    read_slots; injection Hcalls as <-; reflexivity.
  - unfold IKLegSolver.DrawDebugGeometry, IKTrigonometricChainOps.GetBeginNode,
      IKTrigonometricChainOps.GetMiddleNode, IKTrigonometricChainOps.GetEndNode in Hcalls.
    read_slots; injection Hcalls as <-; reflexivity.
  - unfold IKSpineSolver.DrawDebugGeometry in Hcalls.
    destruct (2 <=? length (GetSegments (IKSpineSolver.chain_ s)))%nat;
      (destruct (mapM _ (GetSegments (IKSpineSolver.chain_ s))) as [segmentCalls|] eqn:E;
       simpl in Hcalls; [|discriminate]);
      destruct (DrawSegments_calls _ _ _ _ E) as [Hlen _];
      read_slots; injection Hcalls as <-;
      rewrite ?length_app, Hlen; simpl; lia.
  - unfold IKArmSolver.DrawDebugGeometry, IKTrigonometricChainOps.GetBeginNode,
      IKTrigonometricChainOps.GetMiddleNode, IKTrigonometricChainOps.GetEndNode in Hcalls.
    read_slots; injection Hcalls as <-; reflexivity.
Qed.

(** X15 on the rig: the initialized arm solver draws the arm chain, the
    shoulder segment and the target, eight calls in all. *)
Lemma DrawDebugGeometry_number_of_calls_run :
  exists calls,
    DrawDebugGeometry Run.noSegments Run.rig
      (Initialize Run.rig (ArmSolver Run.armSolver0) ∅).1.2
      (Initialize Run.rig (ArmSolver Run.armSolver0) ∅).2 false = Some calls /\
    length calls = 8.
Proof.
  destruct (DrawDebugGeometry Run.noSegments Run.rig
              (Initialize Run.rig (ArmSolver Run.armSolver0) ∅).1.2
              (Initialize Run.rig (ArmSolver Run.armSolver0) ∅).2 false)
    as [calls|] eqn:E; [|vm_compute in E; discriminate].
  exists calls. split; [reflexivity|].
  exact (DrawDebugGeometry_number_of_calls Run.noSegments Run.rig
           (Initialize Run.rig (ArmSolver Run.armSolver0) ∅).1.2
           (Initialize Run.rig (ArmSolver Run.armSolver0) ∅).2 false calls eq_refl E).
Defined.

(** ** The toe of the leg solver *)




(** * Properties of the OpenXR integration *)

(** ** Extensions *)

Lemma c_str_idemp (s : string) : XR.c_str (XR.c_str s) = XR.c_str s.
Proof.
  induction s as [|c rest IH]; simpl; [reflexivity|].
  destruct (Ascii.eqb c Ascii.zero) eqn:Ec; simpl; [reflexivity|].
  now rewrite Ec, IH.
Qed.

(** The characters after the first NUL of the name play no part. *)
Lemma IsExtensionSupported_c_str (extensions : list string) (name : string) :
  XR.IsExtensionSupported extensions (XR.c_str name)
    = XR.IsExtensionSupported extensions name.
Proof.
  induction extensions as [|ext rest IH]; simpl; [reflexivity|].
  now rewrite c_str_idemp, IH.
Qed.

(** The names [InitializeActiveExtensions] asks for itself have no NUL. *)
Lemma engineExtensions_c_str : List.map XR.c_str XR.engineExtensions = XR.engineExtensions.
Proof. reflexivity. Qed.

Lemma ActivateOptionalExtension_result (result extensions : list string) (name : string) :
  XR.ActivateOptionalExtension result extensions name
    = (XR.IsExtensionSupported extensions name,
       result ++ List.filter (XR.IsExtensionSupported extensions) [XR.c_str name]).
Proof.
  unfold XR.ActivateOptionalExtension. simpl. rewrite IsExtensionSupported_c_str.
  destruct (XR.IsExtensionSupported extensions name); [reflexivity|].
  now rewrite app_nil_r.
Qed.

Lemma ActivateOptionalExtensions_result (extensions names result : list string) :
  foldl (fun active extension =>
           (XR.ActivateOptionalExtension active extensions (XR.c_str extension)).2)
        result names
    = result ++ List.filter (XR.IsExtensionSupported extensions) (List.map XR.c_str names).
Proof.
  revert result. induction names as [|name rest IH]; intros result; simpl.
  - now rewrite app_nil_r.
  - rewrite IH, ActivateOptionalExtension_result. simpl.
    rewrite c_str_idemp.
    destruct (XR.IsExtensionSupported extensions (XR.c_str name)); simpl.
    + now rewrite <- app_assoc.
    + now rewrite app_nil_r.
Qed.

Lemma InitializeActiveExtensions_closed (build : XR.BuildConfig)
    (backend : XR.RenderBackend) (supportedExtensions_ userExtensions_ : list string) :
  XR.InitializeActiveExtensions build backend supportedExtensions_ userExtensions_
    = (XR.mkFeatures
         (XR.IsExtensionSupported supportedExtensions_ XR.XR_EXT_DEBUG_UTILS_EXTENSION_NAME)
         (XR.IsExtensionSupported supportedExtensions_ XR.XR_KHR_VISIBILITY_MASK_EXTENSION_NAME)
         (XR.IsExtensionSupported supportedExtensions_
            XR.XR_MSFT_CONTROLLER_MODEL_EXTENSION_NAME)
         (XR.IsExtensionSupported supportedExtensions_
            XR.XR_KHR_COMPOSITION_LAYER_DEPTH_EXTENSION_NAME),
       XR.GetBackendExtensionName build backend
         :: List.filter (XR.IsExtensionSupported supportedExtensions_)
              (XR.engineExtensions ++ List.map XR.c_str userExtensions_)).
Proof.
  unfold XR.InitializeActiveExtensions.
  rewrite !ActivateOptionalExtension_result. cbv zeta. cbn [snd].
  rewrite ActivateOptionalExtensions_result.
  rewrite List.filter_app. rewrite <- engineExtensions_c_str.
  unfold XR.engineExtensions. cbn [List.map].
  generalize (List.filter (XR.IsExtensionSupported supportedExtensions_)
                (List.map XR.c_str userExtensions_)).
  intros activeUser. cbn [List.filter].
  rewrite !IsExtensionSupported_c_str.
  repeat match goal with
  | |- context [XR.IsExtensionSupported ?s ?n] => destruct (XR.IsExtensionSupported s n)
  end; reflexivity.
Qed.

(** X16. [InitializeActiveExtensions] activates the extension of the render
    backend first, whether or not the runtime lists it, and after it, in the
    order of the calls, those of its own eight optional extensions and of
    the user's extensions that the runtime supports; a user's extension
    counts, and is activated, under its name cut before the first NUL
    character, and names are compared without regard to case. Each feature
    flag tells whether the runtime supports the extension of that feature.
    Every name activated after the first is supported and has no NUL. *)
Theorem InitializeActiveExtensions_result (build : XR.BuildConfig)
    (backend : XR.RenderBackend) (supportedExtensions_ userExtensions_ : list string) :
  let r := XR.InitializeActiveExtensions build backend supportedExtensions_ userExtensions_ in
  r = (XR.mkFeatures
         (XR.IsExtensionSupported supportedExtensions_ XR.XR_EXT_DEBUG_UTILS_EXTENSION_NAME)
         (XR.IsExtensionSupported supportedExtensions_ XR.XR_KHR_VISIBILITY_MASK_EXTENSION_NAME)
         (XR.IsExtensionSupported supportedExtensions_
            XR.XR_MSFT_CONTROLLER_MODEL_EXTENSION_NAME)
         (XR.IsExtensionSupported supportedExtensions_
            XR.XR_KHR_COMPOSITION_LAYER_DEPTH_EXTENSION_NAME),
       XR.GetBackendExtensionName build backend
         :: List.filter (XR.IsExtensionSupported supportedExtensions_)
              (XR.engineExtensions ++ List.map XR.c_str userExtensions_)) /\
  Forall (fun name => XR.IsExtensionSupported supportedExtensions_ name = true /\
                      XR.c_str name = name)
    (tail r.2).
Proof.
  cbv zeta. rewrite InitializeActiveExtensions_closed. split; [reflexivity|].
  cbn [snd tail]. apply Forall_forall. intros name Hin.
  apply list_elem_of_In in Hin. apply List.filter_In in Hin as [Hin Hsupported].
  split; [exact Hsupported|].
  apply List.in_app_or in Hin as [Hin|Hin].
  - rewrite <- engineExtensions_c_str in Hin.
    apply List.in_map_iff in Hin as (n & <- & _). apply c_str_idemp.
  - apply List.in_map_iff in Hin as (n & <- & _). apply c_str_idemp.
Qed.

(** X16 on the sample runtime: of the user's two extensions the runtime does
    not know the first, and takes the second, whose name has a NUL character
    after [XR_EXT_debug_utils], for the debug extension, which is activated
    a second time. *)
Example InitializeActiveExtensions_cuts_user_name :
  XR.userExtensions_ XRSample.constructedWithCutName
    = ["XR_FB_passthrough";
       "XR_EXT_debug_utils" +:+ String.String Ascii.zero "_v2"]%string /\
  XR.InitializeActiveExtensions XRSample.build XR.Vulkan
    (XR.EnumerateExtensionsXR XRSample.runtime)
    (XR.userExtensions_ XRSample.constructedWithCutName)
    = (XR.mkFeatures true false false true,
       ["XR_KHR_vulkan_enable"; "XR_EXT_debug_utils"; "XR_KHR_composition_layer_depth";
        "XR_EXT_debug_utils"]%string).
Proof. split; reflexivity. Qed.

(** ** InitializeSystem *)

Lemma InitializeTweaks_keeps (build : XR.BuildConfig) (runtime : XR.Runtime)
    (backend : XR.RenderBackend) (instance : XR.XrInstance) (this : XR.OpenXR) :
  let r := XR.InitializeTweaks build runtime backend instance this in
  r.1 = true /\
  XR.instance_ r.2 = XR.instance_ this /\
  XR.supportedExtensions_ r.2 = XR.supportedExtensions_ this /\
  XR.activeExtensions_ r.2 = XR.activeExtensions_ this /\
  XR.features_ r.2 = XR.features_ this /\
  XR.system_ r.2 = XR.system_ this /\
  XR.blendMode_ r.2 = XR.blendMode_ this /\
  XR.recommendedMultiSample_ r.2 = XR.recommendedMultiSample_ this /\
  XR.recommendedEyeTextureSize_ r.2 = XR.recommendedEyeTextureSize_ this.
Proof.
  unfold XR.InitializeTweaks.
  destruct backend, (XR.VULKAN_SUPPORTED build); simpl; repeat split; reflexivity.
Qed.

(** Case analysis along the early returns of [InitializeSystem]. *)
Ltac walk_InitializeSystem :=
  unfold XR.InitializeSystem;
  repeat match goal with
  | |- context [match XR.instance_ ?t with Some _ => _ | None => _ end] =>
      let E := fresh "Einstance" in destruct (XR.instance_ t) eqn:E; simpl
  | |- context [if negb ?b then _ else _] =>
      let E := fresh "Echeck" in destruct b eqn:E; simpl
  | |- context [let '(_, _) := ?p in _] =>
      let E := fresh "Epair" in destruct p eqn:E; simpl
  | |- context [match XR.CreateInstanceXR ?r ?a ?e ?n with Some _ => _ | None => _ end] =>
      let E := fresh "Ecreate" in destruct (XR.CreateInstanceXR r a e n) eqn:E; simpl
  | |- context [match XR.GetSystemXR ?r ?i with Some _ => _ | None => _ end] =>
      let E := fresh "Esystem" in destruct (XR.GetSystemXR r i) eqn:E; simpl
  | |- context [match XR.GetBlendModesXR ?r ?i ?s with [] => _ | _ :: _ => _ end] =>
      let E := fresh "Eblend" in destruct (XR.GetBlendModesXR r i s) eqn:E; simpl
  | |- context [match XR.GetViewConfigurationViewsXR ?r ?i ?s with [] => _ | _ :: _ => _ end] =>
      let E := fresh "Eviews" in destruct (XR.GetViewConfigurationViewsXR r i s) eqn:E; simpl
  end.

(** X17. [InitializeSystem] runs at most once: it returns [true] only when
    no instance existed before, and then one exists afterwards; and once an
    instance exists, even after a call that failed at a later step, every
    further call returns [false] and changes nothing. *)
Theorem InitializeSystem_at_most_once (build : XR.BuildConfig) (runtime : XR.Runtime)
    (backend : XR.RenderBackend) (this : XR.OpenXR) :
  let r := XR.InitializeSystem build runtime backend this in
  (r.1 = true -> XR.instance_ this = None /\ is_Some (XR.instance_ r.2)) /\
  (is_Some (XR.instance_ r.2) ->
   forall build' runtime' backend',
     XR.InitializeSystem build' runtime' backend' r.2 = (false, r.2)).
Proof.
  cbv zeta. split.
  - walk_InitializeSystem; try discriminate;
      try (intros _; split; [reflexivity|]).
    all: try match goal with
         | |- context [XR.InitializeTweaks ?b ?r ?k ?i ?t] =>
             destruct (InitializeTweaks_keeps b r k i t) as (_ & -> & _)
         end.
    all: simpl; try destruct (XR.debugOutput_ _); simpl; eauto.
  - intros [instance Hinstance] build' runtime' backend'.
    unfold XR.InitializeSystem at 1. now rewrite Hinstance.
Qed.

(** X17 without a headset: the call fails at [GetSystemXR] and leaves its
    instance, so the call after the headset was attached is refused. *)
Lemma InitializeSystem_at_most_once_run :
  let r := XR.InitializeSystem XRSample.build XRSample.runtimeWithoutSystem XR.Vulkan
             XRSample.constructed in
  r.1 = false /\
  XR.InitializeSystem XRSample.build XRSample.runtime XR.Vulkan r.2 = (false, r.2).
Proof.
  cbv zeta. split; [reflexivity|].
  apply (InitializeSystem_at_most_once XRSample.build XRSample.runtimeWithoutSystem
           XR.Vulkan XRSample.constructed).
  eexists. reflexivity.
Defined.

Lemma ea_min_int_min (a b : Z) : XR.ea_min_int a b = Z.min a b.
Proof. unfold XR.ea_min_int. destruct (Z.ltb_spec b a); lia. Qed.

Lemma GetViewConfigurationViewsXR_two (runtime : XR.Runtime) (instance : XR.XrInstance)
    (system : XR.XrSystemId) (first : XR.XrViewConfigurationView)
    (others : list XR.XrViewConfigurationView) :
  XR.GetViewConfigurationViewsXR runtime instance system = first :: others ->
  exists second,
    XR.xrEnumerateViewConfigurationViews runtime instance system = Some (first, second) /\
    others = [second].
Proof.
  unfold XR.GetViewConfigurationViewsXR.
  destruct (XR.xrEnumerateViewConfigurationViews runtime instance system) as [[l r]|];
    [|discriminate].
  intros [= <- <-]. eauto.
Qed.

(** X18. When [InitializeSystem] returns [true], the supported extensions
    are those the runtime enumerates; the active extensions are the backend
    extension followed by the supported ones among the optional extensions
    and the user's extensions, each of the latter cut before its first NUL
    character, all of them supported; the instance was created with
    exactly these extensions and the engine name; the system is the one the
    runtime gave; the blend mode is the first one of the runtime; stereo
    rendering is among the view configurations; the recommended multi-sample
    is that of the left view and the recommended eye texture size is the
    smaller width and the smaller height of the two views, stored as
    [int]. *)
Theorem InitializeSystem_success (build : XR.BuildConfig) (runtime : XR.Runtime)
    (backend : XR.RenderBackend) (this this' : XR.OpenXR) :
  XR.InitializeSystem build runtime backend this = (true, this') ->
  let supported := XR.EnumerateExtensionsXR runtime in
  XR.supportedExtensions_ this' = supported /\
  XR.activeExtensions_ this'
    = XR.GetBackendExtensionName build backend
        :: List.filter (XR.IsExtensionSupported supported)
             (XR.engineExtensions ++ List.map XR.c_str (XR.userExtensions_ this)) /\
  Forall (fun extension => XR.IsExtensionSupported supported extension = true)
    (XR.activeExtensions_ this') /\
  exists instance system leftView rightView,
    XR.instance_ this' = Some instance /\
    XR.CreateInstanceXR runtime (XR.activeExtensions_ this') "Rebel Fork of Urho3D"
      (XR.applicationName runtime) = Some instance /\
    XR.GetSystemXR runtime instance = Some system /\
    XR.system_ this' = system /\
    head (XR.GetBlendModesXR runtime instance system) = Some (XR.blendMode_ this') /\
    XR.XR_VIEW_CONFIGURATION_TYPE_PRIMARY_STEREO
      ∈ XR.GetViewConfigurationsXR runtime instance system /\
    XR.xrEnumerateViewConfigurationViews runtime instance system
      = Some (leftView, rightView) /\
    XR.recommendedMultiSample_ this' = XR.recommendedSwapchainSampleCount leftView /\
    XR.recommendedEyeTextureSize_ this'
      = XR.mkIntVector2
          (XR.to_int (Z.min (XR.recommendedImageRectWidth leftView)
                        (XR.recommendedImageRectWidth rightView)))
          (XR.to_int (Z.min (XR.recommendedImageRectHeight leftView)
                        (XR.recommendedImageRectHeight rightView))).
Proof.
  unfold XR.InitializeSystem.
  destruct (XR.instance_ this) eqn:Einstance; [discriminate|].
  cbn [XR.supportedExtensions_ XR.setSupportedExtensions XR.userExtensions_].
  destruct (XR.IsExtensionSupported (XR.EnumerateExtensionsXR runtime)
              (XR.GetBackendExtensionName build backend)) eqn:Ebackend;
    cbn [negb]; [|discriminate].
  rewrite InitializeActiveExtensions_closed.
  set (features := XR.mkFeatures _ _ _ _).
  set (active := _ :: List.filter _ _).
  cbn [XR.setActiveExtensions XR.setInstance XR.instance_ XR.activeExtensions_
       XR.supportedExtensions_ XR.userExtensions_ XR.features_].
  destruct (XR.CreateInstanceXR runtime active _ _) as [instance|] eqn:Ecreate;
    [|discriminate].
  set (this4 := if XR.debugOutput_ features then _ else _).
  destruct (XR.GetSystemXR runtime instance) as [system|] eqn:Esystem; [|discriminate].
  assert (Hsys : XR.system_ (XR.setSystem system
                               (XR.GetSystemNameXR runtime instance system) this4) = system)
    by reflexivity.
  rewrite !Hsys.
  destruct (XR.GetBlendModesXR runtime instance system) as [|firstMode modes] eqn:Eblend;
    [discriminate|].
  assert (Hsys6 : XR.system_ (XR.setBlendMode firstMode
                                (XR.setSystem system
                                   (XR.GetSystemNameXR runtime instance system) this4))
                  = system) by reflexivity.
  rewrite !Hsys6.
  destruct (bool_decide (XR.XR_VIEW_CONFIGURATION_TYPE_PRIMARY_STEREO
                           ∈ XR.GetViewConfigurationsXR runtime instance system))
    eqn:Estereo; cbn [negb]; [|discriminate].
  apply bool_decide_eq_true in Estereo.
  destruct (XR.GetViewConfigurationViewsXR runtime instance system)
    as [|leftView others] eqn:Eviews; [discriminate|].
  destruct (GetViewConfigurationViewsXR_two _ _ _ _ _ Eviews) as (rightView & Henum & ->).
  cbn [nth].
  match goal with |- context [XR.InitializeTweaks ?b ?r ?k ?i ?t] =>
    pose proof (InitializeTweaks_keeps b r k i t) as Hkeeps;
    destruct (XR.InitializeTweaks b r k i t) as [ok this7] eqn:Etweaks
  end.
  cbv zeta in Hkeeps. cbn [fst snd] in Hkeeps.
  destruct Hkeeps as (_ & Ki & Ks & Ka & Kf & Ky & Kb & Km & Ke).
  intros [= -> <-]. cbv zeta.
  assert (Hthis4 : XR.instance_ this4 = Some instance /\
                   XR.supportedExtensions_ this4 = XR.EnumerateExtensionsXR runtime /\
                   XR.activeExtensions_ this4 = active).
  { subst this4. destruct (XR.debugOutput_ features); repeat split; reflexivity. }
  destruct Hthis4 as (H4i & H4s & H4a).
  rewrite Ks, Ka, Ki, Ky, Kb, Km, Ke. cbn.
  rewrite H4s, H4a, H4i, !ea_min_int_min.
  split; [reflexivity|]. split; [reflexivity|]. split.
  - subst active. constructor; [exact Ebackend|].
    apply Forall_forall. intros extension Hin.
    apply list_elem_of_In in Hin. apply List.filter_In in Hin. tauto.
  - exists instance, system, leftView, rightView.
    repeat split; try assumption; try reflexivity.
    now rewrite Eblend.
Qed.

(** X18 on the sample runtime, which lists the Vulkan extension in capitals
    and does not know the extension the user asked for. *)
Lemma InitializeSystem_success_run :
  let r := XR.InitializeSystem XRSample.build XRSample.runtime XR.Vulkan
             XRSample.constructed in
  r.1 = true /\
  XR.activeExtensions_ r.2
    = ["XR_KHR_vulkan_enable"; "XR_EXT_debug_utils"; "XR_KHR_composition_layer_depth"]%string /\
  XR.recommendedEyeTextureSize_ r.2 = XR.mkIntVector2 2000 2240.
Proof.
  cbv zeta. split; [reflexivity|].
  destruct (InitializeSystem_success XRSample.build XRSample.runtime XR.Vulkan
              XRSample.constructed
              (XR.InitializeSystem XRSample.build XRSample.runtime XR.Vulkan
                 XRSample.constructed).2 eq_refl)
    as (_ & Hactive & _ & instance & system & leftView & rightView
        & _ & _ & _ & _ & _ & _ & Hviews & _ & Hsize).
  split; [exact Hactive|].
  injection Hviews as <- <-. exact Hsize.
Defined.

(** ** Swap chain formats *)

Section FormatSelection.
Context {TextureFormat : Type} `{XR.RenderAPIUtils TextureFormat}.

Lemma ScanColorFormats_Some (build : XR.BuildConfig) (backend : XR.RenderBackend)
    (fallback : bool) (formats : list Z) (textureFormat : TextureFormat) (internalFormat : Z) :
  XR.ScanColorFormats build backend fallback formats = Some (textureFormat, internalFormat) ->
  internalFormat ∈ formats /\
  textureFormat = XR.GetTextureFormatFromInternal backend internalFormat /\
  XR.usableColor build textureFormat /\
  XR.IsFallbackColorFormat textureFormat = fallback.
Proof.
  induction formats as [|candidate rest IH]; simpl; [discriminate|].
  destruct (XR.IsNativeOculusQuest2 build
            && XR.IsTextureFormatSRGB (XR.GetTextureFormatFromInternal backend candidate))
    eqn:Equest.
  - intros Hrest. destruct (IH Hrest) as (Hin & Hrest').
    split; [now apply list_elem_of_further | exact Hrest'].
  - destruct (XR.IsColorTextureFormat (XR.GetTextureFormatFromInternal backend candidate))
      eqn:Ecolor; simpl.
    + destruct (Bool.eqb _ fallback) eqn:Efallback.
      * intros [= <- <-]. apply Bool.eqb_prop in Efallback.
        repeat split; try assumption. apply list_elem_of_here.
      * intros Hrest. destruct (IH Hrest) as (Hin & Hrest').
        split; [now apply list_elem_of_further | exact Hrest'].
    + intros Hrest. destruct (IH Hrest) as (Hin & Hrest').
      split; [now apply list_elem_of_further | exact Hrest'].
Qed.

Lemma ScanColorFormats_None (build : XR.BuildConfig) (backend : XR.RenderBackend)
    (fallback : bool) (formats : list Z) (other : Z) :
  XR.ScanColorFormats build backend fallback formats = None ->
  other ∈ formats ->
  XR.usableColor build (XR.GetTextureFormatFromInternal backend other) ->
  XR.IsFallbackColorFormat (XR.GetTextureFormatFromInternal backend other) = negb fallback.
Proof.
  induction formats as [|candidate rest IH]; simpl; intros Hscan Hin [Hcolor Hquest].
  - apply elem_of_nil in Hin. contradiction.
  - apply elem_of_cons in Hin as [-> | Hin].
    + rewrite Hquest, Hcolor in Hscan. simpl in Hscan.
      destruct (XR.IsFallbackColorFormat _), fallback; simpl in *; congruence.
    + apply IH; [|exact Hin | split; assumption].
      destruct (XR.IsNativeOculusQuest2 build && _); [exact Hscan|].
      destruct (XR.IsColorTextureFormat _ && _); [discriminate | exact Hscan].
Qed.

(** X19. [SelectColorFormat] returns either one of the given formats with
    its texture format, which is a colour format and, on the Quest, not an
    sRGB one: then, if the returned format is a fallback format (one that
    setting sRGB changes), every format of the list that could have been
    returned is a fallback format as well; or it returns the unknown format
    with 0, and then no format of the list could have been returned. *)
Theorem SelectColorFormat_selected (build : XR.BuildConfig) (backend : XR.RenderBackend)
    (formats : list Z) (textureFormat : TextureFormat) (internalFormat : Z) :
  XR.SelectColorFormat build backend formats = (textureFormat, internalFormat) ->
  (internalFormat ∈ formats /\
   textureFormat = XR.GetTextureFormatFromInternal backend internalFormat /\
   XR.usableColor build textureFormat /\
   (XR.IsFallbackColorFormat textureFormat = true ->
    forall other,
      other ∈ formats ->
      XR.usableColor build (XR.GetTextureFormatFromInternal backend other) ->
      XR.IsFallbackColorFormat (XR.GetTextureFormatFromInternal backend other) = true)) \/
  ((textureFormat, internalFormat) = (XR.TEX_FORMAT_UNKNOWN, 0%Z) /\
   forall other,
     other ∈ formats -> ~ XR.usableColor build (XR.GetTextureFormatFromInternal backend other)).
Proof.
  unfold XR.SelectColorFormat. simpl.
  destruct (XR.ScanColorFormats build backend false formats) as [[f i]|] eqn:Efirst.
  - intros [= -> ->]. left.
    destruct (ScanColorFormats_Some _ _ _ _ _ _ Efirst) as (Hin & Hf & Huse & Hfb).
    repeat split; try assumption; try apply Huse. congruence.
  - destruct (XR.ScanColorFormats build backend true formats) as [[f i]|] eqn:Esecond.
    + intros [= -> ->]. left.
      destruct (ScanColorFormats_Some _ _ _ _ _ _ Esecond) as (Hin & Hf & Huse & Hfb).
      repeat split; try assumption; try apply Huse.
      intros _ other Hother Husable.
      exact (ScanColorFormats_None _ _ _ _ _ Efirst Hother Husable).
    + intros [= <- <-]. right. split; [reflexivity|].
      intros other Hother Husable.
      pose proof (ScanColorFormats_None _ _ _ _ _ Efirst Hother Husable) as H1.
      pose proof (ScanColorFormats_None _ _ _ _ _ Esecond Hother Husable) as H2.
      simpl in *. congruence.
Qed.

Lemma ScanDepthFormats_Some (backend : XR.RenderBackend)
    (fallback : bool) (formats : list Z) (textureFormat : TextureFormat) (internalFormat : Z) :
  XR.ScanDepthFormats backend fallback formats = Some (textureFormat, internalFormat) ->
  internalFormat ∈ formats /\
  textureFormat = XR.GetTextureFormatFromInternal backend internalFormat /\
  XR.IsDepthTextureFormat textureFormat = true /\
  XR.IsFallbackDepthFormat textureFormat = fallback.
Proof.
  induction formats as [|candidate rest IH]; simpl; [discriminate|].
  destruct (XR.IsDepthTextureFormat (XR.GetTextureFormatFromInternal backend candidate))
    eqn:Edepth; simpl.
  - destruct (Bool.eqb _ fallback) eqn:Efallback.
    + intros [= <- <-]. apply Bool.eqb_prop in Efallback.
      repeat split; try assumption. apply list_elem_of_here.
    + intros Hrest. destruct (IH Hrest) as (Hin & Hrest').
      split; [now apply list_elem_of_further | exact Hrest'].
  - intros Hrest. destruct (IH Hrest) as (Hin & Hrest').
    split; [now apply list_elem_of_further | exact Hrest'].
Qed.

Lemma ScanDepthFormats_None (backend : XR.RenderBackend)
    (fallback : bool) (formats : list Z) (other : Z) :
  XR.ScanDepthFormats backend fallback formats = None ->
  other ∈ formats ->
  XR.IsDepthTextureFormat (XR.GetTextureFormatFromInternal backend other) = true ->
  XR.IsFallbackDepthFormat (XR.GetTextureFormatFromInternal backend other) = negb fallback.
Proof.
  induction formats as [|candidate rest IH]; simpl; intros Hscan Hin Hdepth.
  - apply elem_of_nil in Hin. contradiction.
  - apply elem_of_cons in Hin as [-> | Hin].
    + rewrite Hdepth in Hscan. simpl in Hscan.
      destruct (XR.IsFallbackDepthFormat _), fallback; simpl in *; congruence.
    + apply IH; [|exact Hin | exact Hdepth].
      destruct (XR.IsDepthTextureFormat _ && _); [discriminate | exact Hscan].
Qed.

(** X20. [SelectDepthFormat] returns either, when not on the Quest, one of
    the given formats with its texture format, which is a depth format: then,
    if it is the 16-bit format, every depth format of the list is the 16-bit
    format; or it returns the unknown format with 0, and then the build is
    for the Quest or the list holds no depth format. *)
Theorem SelectDepthFormat_selected (build : XR.BuildConfig) (backend : XR.RenderBackend)
    (formats : list Z) (textureFormat : TextureFormat) (internalFormat : Z) :
  XR.SelectDepthFormat build backend formats = (textureFormat, internalFormat) ->
  (XR.IsNativeOculusQuest2 build = false /\
   internalFormat ∈ formats /\
   textureFormat = XR.GetTextureFormatFromInternal backend internalFormat /\
   XR.IsDepthTextureFormat textureFormat = true /\
   (textureFormat = XR.TEX_FORMAT_D16_UNORM ->
    forall other,
      other ∈ formats ->
      XR.IsDepthTextureFormat (XR.GetTextureFormatFromInternal backend other) = true ->
      XR.GetTextureFormatFromInternal backend other = XR.TEX_FORMAT_D16_UNORM)) \/
  ((textureFormat, internalFormat) = (XR.TEX_FORMAT_UNKNOWN, 0%Z) /\
   (XR.IsNativeOculusQuest2 build = true \/
    forall other,
      other ∈ formats ->
      XR.IsDepthTextureFormat (XR.GetTextureFormatFromInternal backend other) = false)).
Proof.
  unfold XR.SelectDepthFormat.
  destruct (XR.IsNativeOculusQuest2 build) eqn:Equest; simpl.
  - intros [= <- <-]. right. split; [reflexivity | left; reflexivity].
  - destruct (XR.ScanDepthFormats backend false formats) as [[f i]|] eqn:Efirst.
    + intros [= -> ->]. left.
      destruct (ScanDepthFormats_Some _ _ _ _ _ Efirst) as (Hin & Hf & Hdepth & Hfb).
      repeat split; try assumption.
      intros Hd16. unfold XR.IsFallbackDepthFormat in Hfb.
      apply bool_decide_eq_false in Hfb. contradiction.
    + destruct (XR.ScanDepthFormats backend true formats) as [[f i]|] eqn:Esecond.
      * intros [= -> ->]. left.
        destruct (ScanDepthFormats_Some _ _ _ _ _ Esecond) as (Hin & Hf & Hdepth & Hfb).
        repeat split; try assumption.
        intros _ other Hother Hd.
        pose proof (ScanDepthFormats_None _ _ _ _ Efirst Hother Hd) as Hfallback.
        unfold XR.IsFallbackDepthFormat in Hfallback. simpl in Hfallback.
        now apply bool_decide_eq_true in Hfallback.
      * intros [= <- <-]. right. split; [reflexivity|]. right.
        intros other Hother.
        destruct (XR.IsDepthTextureFormat (XR.GetTextureFormatFromInternal backend other))
          eqn:Hd; [|reflexivity].
        pose proof (ScanDepthFormats_None _ _ _ _ Efirst Hother Hd) as H1.
        pose proof (ScanDepthFormats_None _ _ _ _ Esecond Hother Hd) as H2.
        simpl in *. congruence.
Qed.

End FormatSelection.

(** X19 on the sample formats: the sRGB format is selected although the
    linear one comes first. *)
Lemma SelectColorFormat_selected_run :
  XR.SelectColorFormat (H := XRSample.Formats) XRSample.build XR.Vulkan [124; 37; 43]%Z
    = (XRSample.RGBA8_UNORM_SRGB, 43%Z) /\
  XR.usableColor (H := XRSample.Formats) XRSample.build XRSample.RGBA8_UNORM_SRGB.
Proof.
  split; [reflexivity|].
  destruct (SelectColorFormat_selected (H := XRSample.Formats) XRSample.build XR.Vulkan [124; 37; 43]%Z
              XRSample.RGBA8_UNORM_SRGB 43%Z eq_refl)
    as [(_ & _ & Husable & _) | [Hunknown _]]; [exact Husable | discriminate].
Defined.

(** X20 on the sample formats: the 32-bit depth format is selected although
    the 16-bit one comes first. *)
Lemma SelectDepthFormat_selected_run :
  XR.SelectDepthFormat (H := XRSample.Formats) XRSample.build XR.Vulkan [37; 124; 126]%Z
    = (XRSample.D32_FLOAT, 126%Z) /\
  XR.IsDepthTextureFormat (RenderAPIUtils := XRSample.Formats) XRSample.D32_FLOAT = true.
Proof.
  split; [reflexivity|].
  destruct (SelectDepthFormat_selected (H := XRSample.Formats) XRSample.build XR.Vulkan [37; 124; 126]%Z
              XRSample.D32_FLOAT 126%Z eq_refl)
    as [(_ & _ & _ & Hdepth & _) | [Hunknown _]]; [exact Hdepth | discriminate].
Defined.

(** ** Action bindings *)

Ltac settle_type :=
  intros [= <-];
  split; [name_in_list|];
  split; [reflexivity|];
  split; (split; [ first [ discriminate | intros _; auto ]
                 | first [ reflexivity | intros [|]; discriminate | discriminate ] ]).

(** X21. A type name that [ParseBindingType] accepts is one of the seven
    names it knows, and [ToActionType] of its result never reaches the
    assertion of the [default] label; the action is a pose input exactly for
    the names vector3 and pose, and a vibration output exactly for
    haptic. *)
Theorem ParseBindingType_action (typeName : string) (type : XR.VariantType) :
  XR.ParseBindingType typeName = Some type ->
  typeName ∈ ["boolean"; "vector1"; "single"; "vector2"; "vector3"; "pose"; "haptic"]%string /\
  (XR.ToActionType type).2 = false /\
  ((XR.ToActionType type).1 = XR.XR_ACTION_TYPE_POSE_INPUT <->
   typeName = "vector3"%string \/ typeName = "pose"%string) /\
  ((XR.ToActionType type).1 = XR.XR_ACTION_TYPE_VIBRATION_OUTPUT <->
   typeName = "haptic"%string).
Proof.
  unfold XR.ParseBindingType.
  destruct (String.eqb_spec typeName "boolean") as [-> | N1]; [settle_type|].
  destruct (String.eqb_spec typeName "vector1") as [-> | N2]; [settle_type|].
  destruct (String.eqb_spec typeName "single") as [-> | N3]; [settle_type|].
  destruct (String.eqb_spec typeName "vector2") as [-> | N4]; [settle_type|].
  destruct (String.eqb_spec typeName "vector3") as [-> | N5]; [settle_type|].
  destruct (String.eqb_spec typeName "pose") as [-> | N6]; [settle_type|].
  destruct (String.eqb_spec typeName "haptic") as [-> | N7]; [settle_type|].
  discriminate.
Qed.

(** X21 on the name pose. *)
Lemma ParseBindingType_action_run :
  XR.ParseBindingType "pose" = Some XR.VAR_MATRIX3X4 /\
  (XR.ToActionType XR.VAR_MATRIX3X4).2 = false /\
  (XR.ToActionType XR.VAR_MATRIX3X4).1 = XR.XR_ACTION_TYPE_POSE_INPUT.
Proof.
  split; [reflexivity|].
  destruct (ParseBindingType_action "pose" XR.VAR_MATRIX3X4 eq_refl)
    as (_ & Hassert & Hpose & _).
  split; [exact Hassert|]. apply Hpose. right. reflexivity.
Defined.

(** ** Debug messages *)

(** X22. [DebugMessageLoggerXR] never logs at the debug level and always
    returns [false]; it logs nothing exactly when none of the error, warning
    and info bits is set, so a message that is only verbose is dropped; and
    a message with the error bit is logged as an error whatever the other
    bits are. *)
Theorem DebugMessageLoggerXR_levels (severity : Z) :
  (XR.DebugMessageLoggerXR severity).1 <> Some XR.LOG_DEBUG /\
  (XR.DebugMessageLoggerXR severity).2 = false /\
  ((XR.DebugMessageLoggerXR severity).1 = None <->
   XR.hasBit severity XR.XR_DEBUG_UTILS_MESSAGE_SEVERITY_ERROR_BIT_EXT = false /\
   XR.hasBit severity XR.XR_DEBUG_UTILS_MESSAGE_SEVERITY_WARNING_BIT_EXT = false /\
   XR.hasBit severity XR.XR_DEBUG_UTILS_MESSAGE_SEVERITY_INFO_BIT_EXT = false) /\
  (XR.hasBit severity XR.XR_DEBUG_UTILS_MESSAGE_SEVERITY_ERROR_BIT_EXT = true ->
   (XR.DebugMessageLoggerXR severity).1 = Some XR.LOG_ERROR).
Proof.
  unfold XR.DebugMessageLoggerXR. cbn [fst snd].
  destruct (XR.hasBit severity XR.XR_DEBUG_UTILS_MESSAGE_SEVERITY_ERROR_BIT_EXT);
    destruct (XR.hasBit severity XR.XR_DEBUG_UTILS_MESSAGE_SEVERITY_WARNING_BIT_EXT);
    destruct (XR.hasBit severity XR.XR_DEBUG_UTILS_MESSAGE_SEVERITY_INFO_BIT_EXT);
    repeat split; try discriminate; try reflexivity; try tauto;
    intros (? & ? & ?); discriminate.
Qed.

(** A verbose message is subscribed to and then dropped. *)
Example DebugMessageLoggerXR_verbose :
  XR.hasBit XR.messageSeverities XR.XR_DEBUG_UTILS_MESSAGE_SEVERITY_VERBOSE_BIT_EXT = true /\
  XR.DebugMessageLoggerXR XR.XR_DEBUG_UTILS_MESSAGE_SEVERITY_VERBOSE_BIT_EXT = (None, false).
Proof. split; reflexivity. Qed.

(** ** Session events *)

Lemma PollEvents_snoc (sessionLive_ : bool) (events : list XR.XrEvent) (event : XR.XrEvent) :
  XR.PollEvents sessionLive_ (events ++ [event])
    = ((XR.HandleEvent (XR.PollEvents sessionLive_ events).1 event).1,
       (XR.PollEvents sessionLive_ events).2
         ++ (XR.HandleEvent (XR.PollEvents sessionLive_ events).1 event).2).
Proof.
  unfold XR.PollEvents. rewrite foldl_app. simpl.
  destruct (XR.HandleEvent _ event). reflexivity.
Qed.

(** The effects of an event do not depend on [sessionLive_]. *)
Lemma HandleEvent_effects (live live' : bool) (event : XR.XrEvent) :
  (XR.HandleEvent live event).2 = (XR.HandleEvent live' event).2.
Proof. destruct event as [| | |[] []|]; reflexivity. Qed.

Lemma PollEvents_effects (sessionLive_ : bool) (events : list XR.XrEvent) :
  (XR.PollEvents sessionLive_ events).2
    = events ≫= (fun event => (XR.HandleEvent false event).2).
Proof.
  induction events as [|event rest IH] using rev_ind; [reflexivity|].
  rewrite PollEvents_snoc. cbn [snd]. rewrite IH, bind_app. simpl.
  rewrite app_nil_r. f_equal. apply HandleEvent_effects.
Qed.

(** X24. What the polling loop of [HandlePreUpdate] does, whatever
    [sessionLive_] was: it sends [E_VRSESSIONSTART] exactly when the session
    became ready and [xrBeginSession] failed; it ends the session exactly
    when a stopping state was among the events, and begins it exactly when a
    ready state was. *)
Theorem PollEvents_sent (sessionLive_ : bool) (events : list XR.XrEvent) :
  let effects := (XR.PollEvents sessionLive_ events).2 in
  (XR.SendEvent XR.E_VRSESSIONSTART ∈ effects <->
   XR.XR_TYPE_EVENT_DATA_SESSION_STATE_CHANGED XR.XR_SESSION_STATE_READY false ∈ events) /\
  (XR.xrEndSession ∈ effects <->
   exists beginSession,
     XR.XR_TYPE_EVENT_DATA_SESSION_STATE_CHANGED XR.XR_SESSION_STATE_STOPPING beginSession
       ∈ events) /\
  (XR.xrBeginSession ∈ effects <->
   exists beginSession,
     XR.XR_TYPE_EVENT_DATA_SESSION_STATE_CHANGED XR.XR_SESSION_STATE_READY beginSession
       ∈ events).
Proof.
  cbv zeta. rewrite PollEvents_effects.
  repeat split.
  - intros Hin. apply list_elem_of_bind in Hin as (event & Hin & Hevent).
    destruct event as [| | |[] []|]; simpl in Hin;
      repeat (apply elem_of_cons in Hin as [Hin | Hin]; try discriminate);
      try (apply elem_of_nil in Hin; contradiction).
    exact Hevent.
  - intros Hevent. apply list_elem_of_bind. eexists. split; [|exact Hevent].
    simpl. name_in_list.
  - intros Hin. apply list_elem_of_bind in Hin as (event & Hin & Hevent).
    destruct event as [| | |[] b|]; try destruct b; simpl in Hin;
      repeat (apply elem_of_cons in Hin as [Hin | Hin]; try discriminate);
      try (apply elem_of_nil in Hin; contradiction); eauto.
  - intros [b Hevent]. apply list_elem_of_bind. eexists. split; [|exact Hevent].
    simpl. name_in_list.
  - intros Hin. apply list_elem_of_bind in Hin as (event & Hin & Hevent).
    destruct event as [| | |[] b|]; try destruct b; simpl in Hin;
      repeat (apply elem_of_cons in Hin as [Hin | Hin]; try discriminate);
      try (apply elem_of_nil in Hin; contradiction); eauto.
  - intros [b Hevent]. apply list_elem_of_bind. eexists. split; [|exact Hevent].
    destruct b; simpl; name_in_list.
Qed.

(** X25. If the session is live after the polling loop, it was live before
    or the loop met a ready state whose [xrBeginSession] succeeded or a
    focused state. *)
Theorem PollEvents_becomes_live (sessionLive_ : bool) (events : list XR.XrEvent) :
  (XR.PollEvents sessionLive_ events).1 = true ->
  sessionLive_ = true \/
  XR.XR_TYPE_EVENT_DATA_SESSION_STATE_CHANGED XR.XR_SESSION_STATE_READY true ∈ events \/
  exists beginSession,
    XR.XR_TYPE_EVENT_DATA_SESSION_STATE_CHANGED XR.XR_SESSION_STATE_FOCUSED beginSession
      ∈ events.
Proof.
  induction events as [|event rest IH] using rev_ind; [auto|].
  rewrite PollEvents_snoc. cbn [fst].
  assert (Hrest : (XR.PollEvents sessionLive_ rest).1 = true ->
                  sessionLive_ = true \/
                  XR.XR_TYPE_EVENT_DATA_SESSION_STATE_CHANGED XR.XR_SESSION_STATE_READY true
                    ∈ rest ++ [event] \/
                  exists beginSession,
                    XR.XR_TYPE_EVENT_DATA_SESSION_STATE_CHANGED XR.XR_SESSION_STATE_FOCUSED
                      beginSession ∈ rest ++ [event]).
  { intros Hlive. destruct (IH Hlive) as [Hl | [Hr | [b Hf]]]; [auto| |].
    - right. left. apply elem_of_app. now left.
    - right. right. exists b. apply elem_of_app. now left. }
  destruct event as [| | |state beginSession|]; simpl; try exact Hrest; try discriminate.
  destruct state; simpl; try exact Hrest; try discriminate.
  - destruct beginSession; [|discriminate]. intros _. right. left.
    apply elem_of_app. right. apply list_elem_of_here.
  - intros _. right. right. exists beginSession.
    apply elem_of_app. right. apply list_elem_of_here.
Qed.

(** X25 on a session that becomes ready and is begun. *)
Lemma PollEvents_becomes_live_run :
  (XR.PollEvents false
     [XR.XR_TYPE_EVENT_DATA_SESSION_STATE_CHANGED XR.XR_SESSION_STATE_IDLE false;
      XR.XR_TYPE_EVENT_DATA_SESSION_STATE_CHANGED XR.XR_SESSION_STATE_READY true]).1 = true /\
  (false = true \/
   XR.XR_TYPE_EVENT_DATA_SESSION_STATE_CHANGED XR.XR_SESSION_STATE_READY true
     ∈ [XR.XR_TYPE_EVENT_DATA_SESSION_STATE_CHANGED XR.XR_SESSION_STATE_IDLE false;
        XR.XR_TYPE_EVENT_DATA_SESSION_STATE_CHANGED XR.XR_SESSION_STATE_READY true] \/
   exists beginSession,
     XR.XR_TYPE_EVENT_DATA_SESSION_STATE_CHANGED XR.XR_SESSION_STATE_FOCUSED beginSession
       ∈ [XR.XR_TYPE_EVENT_DATA_SESSION_STATE_CHANGED XR.XR_SESSION_STATE_IDLE false;
          XR.XR_TYPE_EVENT_DATA_SESSION_STATE_CHANGED XR.XR_SESSION_STATE_READY true]).
Proof.
  split; [reflexivity|].
  apply (PollEvents_becomes_live false
           [XR.XR_TYPE_EVENT_DATA_SESSION_STATE_CHANGED XR.XR_SESSION_STATE_IDLE false;
            XR.XR_TYPE_EVENT_DATA_SESSION_STATE_CHANGED XR.XR_SESSION_STATE_READY true]).
  reflexivity.
Defined.

(** X26. The session is not live after the polling loop when the last
    event that touches [sessionLive_] was a pending loss of the instance, or
    a change of the session to idle, stopping, exiting or loss pending, or
    to ready with a failing [xrBeginSession]: whatever came before it, and
    whatever events of the kinds that leave [sessionLive_] alone came after
    it (a changed visibility mask or interaction profile, an event of
    another type, a change to a state the inner [switch] has no label
    for). *)
Theorem PollEvents_not_live (sessionLive_ : bool) (before after : list XR.XrEvent)
    (event : XR.XrEvent) :
  event = XR.XR_TYPE_EVENT_DATA_INSTANCE_LOSS_PENDING \/
  (exists state beginSession,
     event = XR.XR_TYPE_EVENT_DATA_SESSION_STATE_CHANGED state beginSession /\
     (state = XR.XR_SESSION_STATE_IDLE \/ state = XR.XR_SESSION_STATE_STOPPING \/
      state = XR.XR_SESSION_STATE_EXITING \/ state = XR.XR_SESSION_STATE_LOSS_PENDING \/
      state = XR.XR_SESSION_STATE_READY /\ beginSession = false)) ->
  Forall (fun later =>
            later = XR.XR_TYPE_EVENT_DATA_VISIBILITY_MASK_CHANGED_KHR \/
            later = XR.XR_TYPE_EVENT_DATA_INTERACTION_PROFILE_CHANGED \/
            later = XR.XR_TYPE_EVENT_DATA_OTHER \/
            exists state beginSession,
              later = XR.XR_TYPE_EVENT_DATA_SESSION_STATE_CHANGED state beginSession /\
              (state = XR.XR_SESSION_STATE_UNKNOWN \/
               state = XR.XR_SESSION_STATE_SYNCHRONIZED \/
               state = XR.XR_SESSION_STATE_VISIBLE)) after ->
  (XR.PollEvents sessionLive_ (before ++ event :: after)).1 = false.
Proof.
  intros Hevent. induction after as [|later rest IH] using rev_ind; intros Hafter.
  - rewrite PollEvents_snoc. cbn [fst].
    destruct Hevent as [-> | (state & b & -> & [-> | [-> | [-> | [-> | [-> ->]]]]])];
      reflexivity.
  - apply Forall_app in Hafter as [Hrest Hlater]. apply Forall_inv in Hlater.
    replace (before ++ event :: rest ++ [later]) with ((before ++ event :: rest) ++ [later])
      by now rewrite <- app_assoc.
    rewrite PollEvents_snoc. cbn [fst]. rewrite (IH Hrest).
    destruct Hlater as [-> | [-> | [-> | (state & b & -> & [-> | [-> | ->]])]]]; reflexivity.
Qed.

(** X26 on a focused session that is told to stop before the interaction
    profile changes. *)
Lemma PollEvents_not_live_run :
  (XR.PollEvents true
     [XR.XR_TYPE_EVENT_DATA_SESSION_STATE_CHANGED XR.XR_SESSION_STATE_FOCUSED false]).1 = true /\
  (XR.PollEvents true
     ([XR.XR_TYPE_EVENT_DATA_SESSION_STATE_CHANGED XR.XR_SESSION_STATE_FOCUSED false]
        ++ XR.XR_TYPE_EVENT_DATA_SESSION_STATE_CHANGED XR.XR_SESSION_STATE_STOPPING false
        :: [XR.XR_TYPE_EVENT_DATA_INTERACTION_PROFILE_CHANGED])).1
    = false.
Proof.
  split; [reflexivity|].
  apply (PollEvents_not_live true
           [XR.XR_TYPE_EVENT_DATA_SESSION_STATE_CHANGED XR.XR_SESSION_STATE_FOCUSED false]
           [XR.XR_TYPE_EVENT_DATA_INTERACTION_PROFILE_CHANGED]).
  - right. exists XR.XR_SESSION_STATE_STOPPING, false. split; [reflexivity|].
    right. left. reflexivity.
  - constructor; [|constructor]. right. left. reflexivity.
Defined.

(** X27. The session is live after the polling loop when the last event
    that touches [sessionLive_] was a change of the session to focused, or to
    ready with a succeeding [xrBeginSession]; and when no event of the loop
    touches [sessionLive_], it is what it was. *)
Theorem PollEvents_live (sessionLive_ : bool) (before after : list XR.XrEvent)
    (event : XR.XrEvent) :
  let leavesAlone later :=
    later = XR.XR_TYPE_EVENT_DATA_VISIBILITY_MASK_CHANGED_KHR \/
    later = XR.XR_TYPE_EVENT_DATA_INTERACTION_PROFILE_CHANGED \/
    later = XR.XR_TYPE_EVENT_DATA_OTHER \/
    exists state beginSession,
      later = XR.XR_TYPE_EVENT_DATA_SESSION_STATE_CHANGED state beginSession /\
      (state = XR.XR_SESSION_STATE_UNKNOWN \/
       state = XR.XR_SESSION_STATE_SYNCHRONIZED \/
       state = XR.XR_SESSION_STATE_VISIBLE) in
  Forall leavesAlone after ->
  (XR.PollEvents sessionLive_ after).1 = sessionLive_ /\
  ((exists beginSession,
      event = XR.XR_TYPE_EVENT_DATA_SESSION_STATE_CHANGED XR.XR_SESSION_STATE_FOCUSED
                beginSession) \/
   event = XR.XR_TYPE_EVENT_DATA_SESSION_STATE_CHANGED XR.XR_SESSION_STATE_READY true ->
   (XR.PollEvents sessionLive_ (before ++ event :: after)).1 = true).
Proof.
  cbv zeta. induction after as [|later rest IH] using rev_ind; intros Hafter.
  - split; [reflexivity|]. rewrite PollEvents_snoc. cbn [fst].
    intros [[b ->] | ->]; reflexivity.
  - apply Forall_app in Hafter as [Hrest Hlater]. apply Forall_inv in Hlater.
    destruct (IH Hrest) as [Hsame Hlive]. split.
    + rewrite PollEvents_snoc. cbn [fst]. rewrite Hsame.
      destruct Hlater as [-> | [-> | [-> | (state & b & -> & [-> | [-> | ->]])]]]; reflexivity.
    + intros Hevent.
      replace (before ++ event :: rest ++ [later]) with ((before ++ event :: rest) ++ [later])
        by now rewrite <- app_assoc.
      rewrite PollEvents_snoc. cbn [fst]. rewrite (Hlive Hevent).
      destruct Hlater as [-> | [-> | [-> | (state & b & -> & [-> | [-> | ->]])]]]; reflexivity.
Qed.

(** X27 on an idle session that gets the focus before its visibility mask
    changes. *)
Lemma PollEvents_live_run :
  (XR.PollEvents false
     ([XR.XR_TYPE_EVENT_DATA_SESSION_STATE_CHANGED XR.XR_SESSION_STATE_IDLE false]
        ++ XR.XR_TYPE_EVENT_DATA_SESSION_STATE_CHANGED XR.XR_SESSION_STATE_FOCUSED false
        :: [XR.XR_TYPE_EVENT_DATA_VISIBILITY_MASK_CHANGED_KHR])).1
    = true.
Proof.
  apply (PollEvents_live false
           [XR.XR_TYPE_EVENT_DATA_SESSION_STATE_CHANGED XR.XR_SESSION_STATE_IDLE false]
           [XR.XR_TYPE_EVENT_DATA_VISIBILITY_MASK_CHANGED_KHR]).
  - constructor; [|constructor]. left. reflexivity.
  - left. exists false. reflexivity.
Defined.

(** ** The radial mesh *)

Lemma FanIndices_triangles (vertexCount : Z) (indices : list Z) (positions : list nat) :
  Forall (fun i => (i < length indices)%nat) positions ->
  exists triangles,
    mapM (fun i : nat =>
            me ← indices !! i;
            next ← indices !! ((i + 1) mod length indices)%nat;
            Some [XR.to_ushort (vertexCount - 1); XR.to_ushort me; XR.to_ushort next])
         positions = Some triangles /\
    length triangles = length positions /\
    forall k i, positions !! k = Some i ->
      exists me next,
        indices !! i = Some me /\
        indices !! ((i + 1) mod length indices)%nat = Some next /\
        triangles !! k
          = Some [XR.to_ushort (vertexCount - 1); XR.to_ushort me; XR.to_ushort next].
Proof.
  induction positions as [|i rest IH]; intros Hall.
  - exists []. repeat split. intros k i Hk. rewrite lookup_nil in Hk. discriminate.
  - apply Forall_cons in Hall as [Hi Hrest].
    destruct (IH Hrest) as (triangles & Hmap & Hlen & Hall).
    destruct (lookup_lt_is_Some_2 indices i Hi) as [me Hme].
    assert (Hnext : ((i + 1) mod length indices < length indices)%nat)
      by (apply Nat.mod_upper_bound; lia).
    destruct (lookup_lt_is_Some_2 indices _ Hnext) as [next Hn].
    eexists. simpl. rewrite Hme. simpl. rewrite Hn. simpl. rewrite Hmap. simpl.
    split; [reflexivity|]. split; [simpl; now rewrite Hlen|].
    intros [|k] j Hk; simpl in Hk.
    + injection Hk as <-. exists me, next. repeat split; assumption.
    + apply Hall. exact Hk.
Qed.

Lemma concat_triples {A : Type} (triangles : list (list A)) :
  Forall (fun t => length t = 3%nat) triangles ->
  length (concat triangles) = (3 * length triangles)%nat /\
  forall k a b c, triangles !! k = Some [a; b; c] ->
    concat triangles !! (3 * k)%nat = Some a /\
    concat triangles !! (3 * k + 1)%nat = Some b /\
    concat triangles !! (3 * k + 2)%nat = Some c.
Proof.
  induction triangles as [|t rest IH]; intros Hall.
  - split; [reflexivity|]. intros k a b c Hk. rewrite lookup_nil in Hk. discriminate.
  - apply Forall_cons in Hall as [Ht Hrest]. destruct (IH Hrest) as [Hlen Hget].
    split.
    + simpl. rewrite length_app, Ht, Hlen. lia.
    + intros [|k] a b c Hk; simpl in Hk.
      * injection Hk as ->. simpl. repeat split; reflexivity.
      * destruct t as [|x [|y [|z [|]]]]; try discriminate.
        destruct (Hget k a b c Hk) as (Ha & Hb & Hc).
        replace (3 * S k)%nat with (S (S (S (3 * k)))) by lia.
        simpl. repeat split; assumption.
Qed.

Lemma elem_of_concat {A : Type} (x : A) (ls : list (list A)) :
  x ∈ concat ls -> exists l, x ∈ l /\ l ∈ ls.
Proof.
  intros Hin. apply list_elem_of_In, in_concat in Hin as (l & Hl & Hx).
  exists l. split; apply list_elem_of_In; assumption.
Qed.

(** X23. The fan of the radial mesh: the loop writes three indices for each
    index of the line loop: the centre (the last vertex), the index itself
    and the next index of the loop, the last one wrapping around to the
    first, each stored in 16 bits. If there are at most 65536 vertices with
    the centre and the indices of the loop are indices of the vertices before
    it, every index written is an index of a vertex. *)
Theorem FanIndices_fan (vertexCount : Z) (indices : list Z) :
  exists newIndices,
    XR.FanIndices vertexCount indices = Some newIndices /\
    length newIndices = (3 * length indices)%nat /\
    (forall i me,
       indices !! i = Some me ->
       exists next,
         indices !! ((i + 1) mod length indices)%nat = Some next /\
         newIndices !! (3 * i)%nat = Some (XR.to_ushort (vertexCount - 1)) /\
         newIndices !! (3 * i + 1)%nat = Some (XR.to_ushort me) /\
         newIndices !! (3 * i + 2)%nat = Some (XR.to_ushort next)) /\
    ((0 < vertexCount <= 2 ^ 16)%Z ->
     Forall (fun index => (0 <= index < vertexCount - 1)%Z) indices ->
     Forall (fun index => (0 <= index < vertexCount)%Z) newIndices).
Proof.
  unfold XR.FanIndices.
  destruct (FanIndices_triangles vertexCount indices (seq 0 (length indices)))
    as (triangles & Hmap & Hlen & Hall).
  { apply Forall_forall. intros i Hi. apply elem_of_seq in Hi. lia. }
  rewrite length_seq in Hlen.
  assert (Hthree : Forall (fun t => length t = 3%nat) triangles).
  { apply Forall_forall. intros t Ht. apply list_elem_of_lookup in Ht as [k Hk].
    assert (Hlt : (k < length indices)%nat)
      by (rewrite <- Hlen; eapply lookup_lt_Some; exact Hk).
    destruct (Hall k k) as (me & next & _ & _ & Ht').
    { rewrite lookup_seq. split; [reflexivity | exact Hlt]. }
    rewrite Hk in Ht'. injection Ht' as ->. reflexivity. }
  destruct (concat_triples triangles Hthree) as [Hlength Hget].
  exists (concat triangles). rewrite Hmap. simpl. split; [reflexivity|].
  split; [now rewrite Hlength, Hlen|]. split.
  - intros i me Hme.
    assert (Hlt : (i < length indices)%nat) by (eapply lookup_lt_Some; exact Hme).
    destruct (Hall i i) as (me' & next & Hme' & Hnext & Ht).
    { rewrite lookup_seq. split; [reflexivity | exact Hlt]. }
    assert (me' = me) as -> by congruence.
    exists next. split; [exact Hnext|]. exact (Hget i _ _ _ Ht).
  - intros Hcount Hindices.
    apply Forall_forall. intros index Hin.
    apply elem_of_concat in Hin as (t & Hindex & Ht).
    apply list_elem_of_lookup in Ht as [k Hk].
    assert (Hlt : (k < length indices)%nat)
      by (rewrite <- Hlen; eapply lookup_lt_Some; exact Hk).
    destruct (Hall k k) as (me & next & Hme & Hnext & Ht').
    { rewrite lookup_seq. split; [reflexivity | exact Hlt]. }
    rewrite Hk in Ht'. injection Ht' as ->.
    rewrite Forall_forall in Hindices.
    assert (Hm : (0 <= me < vertexCount - 1)%Z)
      by (apply Hindices; eapply list_elem_of_lookup_2; exact Hme).
    assert (Hn : (0 <= next < vertexCount - 1)%Z)
      by (apply Hindices; eapply list_elem_of_lookup_2; exact Hnext).
    unfold XR.to_ushort in Hindex.
    repeat (apply elem_of_cons in Hindex as [-> | Hindex]);
      [ | | | apply elem_of_nil in Hindex; contradiction ];
      rewrite Z.mod_small by lia; lia.
Qed.

(** With 65536 vertices before the centroid, the centre index wraps to 0. *)
Example FanIndices_wraps :
  XR.FanIndices 65537 [0; 1; 2]%Z = Some [0; 0; 1; 0; 1; 2; 0; 2; 0]%Z.
Proof. reflexivity. Qed.
